(** * xf86-input-libinput: event translation and configuration engine

    A shallow embedding of [src/libinput.c].  Machine integers are [Z] with
    their wrap-around written out, C [float] and [double] values are
    [spec_float]s rounded at their precision, the libinput library and the
    X server option parser are interfaces (type classes), and the file-scope
    and function-scope statics of the driver are fields of explicit state
    records. *)

From Stdlib Require Import ZArith Lia Bool List Ascii String SpecFloat.
From stdpp Require Import base option list gmap strings pretty.

Open Scope Z_scope.

(** ** Machine integers *)

Definition UINT_MODULUS : Z := 2 ^ 32.

(** Conversion to [unsigned int] (wraps modulo 2^32). *)
Definition to_uint (z : Z) : Z := z mod UINT_MODULUS.

(** Conversion of an [unsigned int] to [int] (two's complement). *)
Definition to_int (z : Z) : Z := (z + 2 ^ 31) mod UINT_MODULUS - 2 ^ 31.

Definition is_uint (z : Z) : Prop := 0 <= z < UINT_MODULUS.

(** ** Constants of the headers the driver includes *)

(** <linux/input.h> *)
Module Evdev.
Definition BTN_LEFT : Z := 0x110.
Definition BTN_RIGHT : Z := 0x111.
Definition BTN_MIDDLE : Z := 0x112.
Definition BTN_SIDE : Z := 0x113.
End Evdev.
Import Evdev.

(** <X11/X.h>, <X11/Xatom.h>, <X11/extensions/XI2.h> *)
Module X11.
Definition Success : Z := 0.
Definition BadValue : Z := 2.
Definition BadMatch : Z := 8.
Definition BadAccess : Z := 10.
Definition XA_CARDINAL : Z := 6.
Definition XA_INTEGER : Z := 19.
Definition XI_TouchBegin : Z := 18.
Definition XI_TouchUpdate : Z := 19.
Definition XI_TouchEnd : Z := 20.
End X11.
Import X11.

(** <libinput.h> *)
Module LI.
Definition LIBINPUT_CONFIG_STATUS_SUCCESS : Z := 0.
Definition LIBINPUT_CONFIG_SEND_EVENTS_ENABLED : Z := 0.
Definition LIBINPUT_CONFIG_SEND_EVENTS_DISABLED : Z := 1.
Definition LIBINPUT_CONFIG_SEND_EVENTS_DISABLED_ON_EXTERNAL_MOUSE : Z := 2.
Definition LIBINPUT_CONFIG_SCROLL_NO_SCROLL : Z := 0.
Definition LIBINPUT_CONFIG_SCROLL_2FG : Z := 1.
Definition LIBINPUT_CONFIG_SCROLL_EDGE : Z := 2.
Definition LIBINPUT_CONFIG_SCROLL_ON_BUTTON_DOWN : Z := 4.
Definition LIBINPUT_CONFIG_CLICK_METHOD_NONE : Z := 0.
Definition LIBINPUT_CONFIG_CLICK_METHOD_BUTTON_AREAS : Z := 1.
Definition LIBINPUT_CONFIG_CLICK_METHOD_CLICKFINGER : Z := 2.
End LI.
Import LI.

(** The driver's own macros. *)
Definition TOUCH_MAX_SLOTS : Z := 15.
Definition XORG_KEYCODE_OFFSET : Z := 8.
Definition TOUCH_AXIS_MAX : Z := 0xffff.

(** <input.h> of the X server. *)
Definition MAX_BUTTONS : Z := 256.

(** ** Floating point

    [double] is IEEE binary64 and [float] is IEEE binary32; both are
    [spec_float]s, kept canonical by rounding at the respective format. *)

Definition double : Type := spec_float.
Definition float : Type := spec_float.

Definition double_of_int (z : Z) : double := binary_normalize 53 1024 z 0 false.
Definition float_of_int (z : Z) : float := binary_normalize 24 128 z 0 false.

Definition double_mul (x y : double) : double := SFmul 53 1024 x y.

(** ** Button numbering *)

Definition btn_linux2xorg (b : Z) : Z :=
  if b =? 0 then 0
  else if b =? BTN_LEFT then 1
  else if b =? BTN_MIDDLE then 2
  else if b =? BTN_RIGHT then 3
  else to_uint (to_uint (8 + b) - BTN_SIDE).

Definition btn_xorg2linux (b : Z) : Z :=
  if b =? 0 then 0
  else if b =? 1 then BTN_LEFT
  else if b =? 2 then BTN_MIDDLE
  else if b =? 3 then BTN_RIGHT
  else to_uint (to_uint (b - 8) + BTN_SIDE).

(** ** The libinput device interface

    The device abstraction is an external library.  A device handle denotes a
    mutable object, so every setter returns its status together with the
    device afterwards; getters are read-only. *)

Class Libinput := {
  libinput_device : Type;
  libinput_device_config_send_events_get_modes : libinput_device -> Z;
  libinput_device_config_send_events_get_mode : libinput_device -> Z;
  libinput_device_config_send_events_set_mode :
    libinput_device -> Z -> Z * libinput_device;
  libinput_device_config_scroll_has_natural_scroll : libinput_device -> Z;
  libinput_device_config_scroll_get_natural_scroll_enabled : libinput_device -> Z;
  libinput_device_config_scroll_set_natural_scroll_enabled :
    libinput_device -> Z -> Z * libinput_device;
  libinput_device_config_accel_is_available : libinput_device -> Z;
  libinput_device_config_accel_get_speed : libinput_device -> double;
  libinput_device_config_accel_set_speed :
    libinput_device -> double -> Z * libinput_device;
  libinput_device_config_tap_get_finger_count : libinput_device -> Z;
  libinput_device_config_tap_get_enabled : libinput_device -> Z;
  libinput_device_config_tap_set_enabled :
    libinput_device -> Z -> Z * libinput_device;
  libinput_device_config_tap_get_drag_lock_enabled : libinput_device -> Z;
  libinput_device_config_tap_set_drag_lock_enabled :
    libinput_device -> Z -> Z * libinput_device;
  libinput_device_config_calibration_has_matrix : libinput_device -> Z;
  (** fills [float matrix[6]] *)
  libinput_device_config_calibration_get_matrix : libinput_device -> list float;
  (** reads [const float matrix[6]] *)
  libinput_device_config_calibration_set_matrix :
    libinput_device -> list float -> Z * libinput_device;
  libinput_device_config_left_handed_is_available : libinput_device -> Z;
  libinput_device_config_left_handed_get : libinput_device -> Z;
  libinput_device_config_left_handed_set :
    libinput_device -> Z -> Z * libinput_device;
  libinput_device_config_scroll_get_methods : libinput_device -> Z;
  libinput_device_config_scroll_get_method : libinput_device -> Z;
  libinput_device_config_scroll_set_method :
    libinput_device -> Z -> Z * libinput_device;
  libinput_device_config_scroll_get_button : libinput_device -> Z;
  libinput_device_config_scroll_set_button :
    libinput_device -> Z -> Z * libinput_device;
  libinput_device_config_click_get_methods : libinput_device -> Z;
  libinput_device_config_click_get_method : libinput_device -> Z;
  libinput_device_config_click_set_method :
    libinput_device -> Z -> Z * libinput_device;
  libinput_device_config_middle_emulation_is_available : libinput_device -> Z;
  libinput_device_config_middle_emulation_get_default_enabled : libinput_device -> Z;
  libinput_device_config_middle_emulation_get_enabled : libinput_device -> Z;
  libinput_device_config_middle_emulation_set_enabled :
    libinput_device -> Z -> Z * libinput_device;
  libinput_device_config_halfkey_is_available : libinput_device -> Z;
  libinput_device_config_halfkey_get_default_enabled : libinput_device -> Z;
  libinput_device_config_halfkey_get_enabled : libinput_device -> Z;
  libinput_device_config_halfkey_set_enabled :
    libinput_device -> Z -> Z * libinput_device;
  libinput_device_pointer_has_button : libinput_device -> Z -> Z
}.

(** ** The X server's option list and the C library *)

Class XF86Option := {
  XF86OptionPtr : Type;
  xf86SetBoolOption : XF86OptionPtr -> string -> Z -> Z;
  xf86SetIntOption : XF86OptionPtr -> string -> Z -> Z;
  xf86SetRealOption : XF86OptionPtr -> string -> double -> double;
  xf86SetStrOption : XF86OptionPtr -> string -> option string -> option string;
  xf86CheckStrOption : XF86OptionPtr -> string -> option string -> option string;
  xf86ReplaceIntOption : XF86OptionPtr -> string -> Z -> XF86OptionPtr;
  xf86ReplaceStrOption : XF86OptionPtr -> string -> string -> XF86OptionPtr
}.

Class LibC := {
  (** [sscanf(str, "%f %f ... %f ", ...)]: the values converted, in order;
      the caller's format bounds how many are stored. *)
  sscanf_floats : string -> list float;
  (** [strtoul(map, &s, 10)]: [None] when no digits were consumed
      ([s == map]), else the value and the rest of the string. *)
  strtoul : string -> option (Z * string)
}.

(** ** Messages and calls into the X server *)

Inductive MessageType := X_ERROR | X_INFO | X_DEBUG.

(** A valuator mask: the values set, and the unaccelerated ones. *)
Record ValuatorMask := {
  vm_values : gmap Z double;
  vm_unaccelerated : gmap Z double
}.

Definition valuator_mask_zero (m : ValuatorMask) : ValuatorMask :=
  {| vm_values := ∅; vm_unaccelerated := ∅ |}.

Definition valuator_mask_set_double (m : ValuatorMask) (valuator : Z) (data : double)
  : ValuatorMask :=
  {| vm_values := <[valuator := data]> (vm_values m);
     vm_unaccelerated := vm_unaccelerated m |}.

Definition valuator_mask_set_unaccelerated (m : ValuatorMask) (valuator : Z)
    (accel unaccel : double) : ValuatorMask :=
  {| vm_values := <[valuator := accel]> (vm_values m);
     vm_unaccelerated := <[valuator := unaccel]> (vm_unaccelerated m) |}.

Inductive AxisMode := Relative | Absolute.

(** What a handler does to the outside: the X server entry points it calls
    (each with the [DeviceIntPtr] it names) and the messages it logs. *)
Inductive effect :=
  | xf86PostMotionEventM (dev : nat) (mode : AxisMode) (mask : ValuatorMask)
  | xf86PostButtonEvent (dev : nat) (mode : AxisMode) (button : Z) (is_down : bool)
  | xf86PostKeyboardEvent (dev : nat) (key : Z) (is_down : bool)
  | xf86PostTouchEvent (dev : nat) (touchid : Z) (type : Z) (flags : Z) (mask : ValuatorMask)
  | xf86IDrvMsg (dev : nat) (type : MessageType) (format : string)
  | BUG_WARN (dev : nat).

(** ** Events of the libinput queue *)

Inductive libinput_pointer_axis_source :=
  | LIBINPUT_POINTER_AXIS_SOURCE_WHEEL
  | LIBINPUT_POINTER_AXIS_SOURCE_FINGER
  | LIBINPUT_POINTER_AXIS_SOURCE_CONTINUOUS
  | LIBINPUT_POINTER_AXIS_SOURCE_other (v : Z).

Inductive libinput_pointer_axis :=
  | LIBINPUT_POINTER_AXIS_SCROLL_VERTICAL
  | LIBINPUT_POINTER_AXIS_SCROLL_HORIZONTAL.

Inductive libinput_button_state :=
  | LIBINPUT_BUTTON_STATE_RELEASED
  | LIBINPUT_BUTTON_STATE_PRESSED.

Inductive libinput_key_state :=
  | LIBINPUT_KEY_STATE_RELEASED
  | LIBINPUT_KEY_STATE_PRESSED.

Record libinput_event_pointer := {
  libinput_event_pointer_get_dx : double;
  libinput_event_pointer_get_dy : double;
  libinput_event_pointer_get_dx_unaccelerated : double;
  libinput_event_pointer_get_dy_unaccelerated : double;
  libinput_event_pointer_get_absolute_x_transformed : Z -> double;
  libinput_event_pointer_get_absolute_y_transformed : Z -> double;
  libinput_event_pointer_get_button : Z;
  libinput_event_pointer_get_button_state : libinput_button_state;
  libinput_event_pointer_get_axis_source : libinput_pointer_axis_source;
  libinput_event_pointer_has_axis : libinput_pointer_axis -> bool;
  libinput_event_pointer_get_axis_value : libinput_pointer_axis -> double;
  libinput_event_pointer_get_axis_value_discrete : libinput_pointer_axis -> double
}.

Record libinput_event_keyboard := {
  libinput_event_keyboard_get_key : Z;
  libinput_event_keyboard_get_key_state : libinput_key_state
}.

Record libinput_event_touch := {
  libinput_event_touch_get_slot : Z;
  libinput_event_touch_get_x_transformed : Z -> double;
  libinput_event_touch_get_y_transformed : Z -> double
}.

Inductive libinput_event_type :=
  | LIBINPUT_EVENT_TOUCH_DOWN
  | LIBINPUT_EVENT_TOUCH_UP
  | LIBINPUT_EVENT_TOUCH_MOTION
  | LIBINPUT_EVENT_TOUCH_CANCEL.

Inductive libinput_event_payload :=
  | LIBINPUT_EVENT_NONE
  | LIBINPUT_EVENT_DEVICE_ADDED
  | LIBINPUT_EVENT_DEVICE_REMOVED
  | LIBINPUT_EVENT_KEYBOARD_KEY (e : libinput_event_keyboard)
  | LIBINPUT_EVENT_POINTER_MOTION (e : libinput_event_pointer)
  | LIBINPUT_EVENT_POINTER_MOTION_ABSOLUTE (e : libinput_event_pointer)
  | LIBINPUT_EVENT_POINTER_BUTTON (e : libinput_event_pointer)
  | LIBINPUT_EVENT_POINTER_AXIS (e : libinput_event_pointer)
  | LIBINPUT_EVENT_TOUCH (type : libinput_event_type) (e : libinput_event_touch)
  | LIBINPUT_EVENT_TOUCH_FRAME.

(** An event names the libinput device it comes from. *)
Record libinput_event := {
  libinput_event_get_device : nat;
  libinput_event_get_payload : libinput_event_payload
}.

(** ** Driver data *)

(** A C array indexed by an [int]: reading or writing outside it is
    undefined behaviour, rendered as [None]. *)
Definition array_get {A} (a : list A) (i : Z) : option A :=
  if 0 <=? i then a !! Z.to_nat i else None.

Definition array_set {A} (a : list A) (i : Z) (v : A) : option (list A) :=
  if (0 <=? i) && (i <? Z.of_nat (length a)) then Some (<[Z.to_nat i := v]> a)
  else None.

Record struct_scroll := {
  vdist : Z;
  hdist : Z;
  vdist_remainder : Z;
  hdist_remainder : Z
}.

Record struct_scale := {
  scale_x : double;
  scale_y : double;
  x_remainder : double;
  y_remainder : double
}.

(** [struct options]; [BOOL] is an 8-bit and [CARD32] a 32-bit unsigned. *)
Record struct_options := {
  tapping : Z;
  tap_drag_lock : Z;
  natural_scrolling : Z;
  left_handed : Z;
  middle_emulation : Z;
  halfkey : Z;
  sendevents : Z;
  scroll_button : Z;
  speed : float;
  matrix : list float;
  scroll_method : Z;
  click_method : Z;
  btnmap : list Z
}.

Section Driver.
Context `{Libinput} `{XF86Option} `{LibC}.

(** [struct xf86libinput]; [device] is [None] for a NULL pointer. *)
Record xf86libinput := {
  path : string;
  device : option libinput_device;
  scroll : struct_scroll;
  scale : struct_scale;
  has_abs : bool;
  valuators : ValuatorMask;
  valuators_unaccelerated : ValuatorMask;
  options : struct_options
}.

(** [InputInfoRec], with the fields of its [DeviceIntRec] the driver uses:
    [dev] is the identity of [pInfo->dev] and [on] is [dev->public.on]. *)
Record InputInfoRec := {
  dev : nat;
  on : bool;
  private : xf86libinput;
  pInfo_options : XF86OptionPtr
}.

Definition set_valuators (d : xf86libinput) (m : ValuatorMask) : xf86libinput :=
  {| path := path d; device := device d; scroll := scroll d; scale := scale d;
     has_abs := has_abs d; valuators := m;
     valuators_unaccelerated := valuators_unaccelerated d;
     options := options d |}.

Definition set_private (pInfo : InputInfoRec) (d : xf86libinput) : InputInfoRec :=
  {| dev := dev pInfo; on := on pInfo; private := d;
     pInfo_options := pInfo_options pInfo |}.

(** ** Event translation *)

Definition xf86libinput_handle_motion (HAVE_VMASK_UNACCEL : bool)
    (pInfo : InputInfoRec) (event : libinput_event_pointer)
  : InputInfoRec * list effect :=
  let driver_data := private pInfo in
  let x := libinput_event_pointer_get_dx event in
  let y := libinput_event_pointer_get_dy event in
  let mask := valuator_mask_zero (valuators driver_data) in
  let mask :=
    if HAVE_VMASK_UNACCEL then
      let ux := libinput_event_pointer_get_dx_unaccelerated event in
      let uy := libinput_event_pointer_get_dy_unaccelerated event in
      valuator_mask_set_unaccelerated
        (valuator_mask_set_unaccelerated mask 0 x ux) 1 y uy
    else
      valuator_mask_set_double (valuator_mask_set_double mask 0 x) 1 y in
  (set_private pInfo (set_valuators driver_data mask),
   [xf86PostMotionEventM (dev pInfo) Relative mask]).

Definition xf86libinput_handle_absmotion
    (pInfo : InputInfoRec) (event : libinput_event_pointer)
  : InputInfoRec * list effect :=
  let driver_data := private pInfo in
  if negb (has_abs driver_data) then
    (pInfo, [xf86IDrvMsg (dev pInfo) X_ERROR
               "Discarding absolute event from relative device. Please file a bug"])
  else
    let x := libinput_event_pointer_get_absolute_x_transformed event TOUCH_AXIS_MAX in
    let y := libinput_event_pointer_get_absolute_y_transformed event TOUCH_AXIS_MAX in
    let mask := valuator_mask_zero (valuators driver_data) in
    let mask := valuator_mask_set_double mask 0 x in
    let mask := valuator_mask_set_double mask 1 y in
    (set_private pInfo (set_valuators driver_data mask),
     [xf86PostMotionEventM (dev pInfo) Absolute mask]).

Definition xf86libinput_handle_button
    (pInfo : InputInfoRec) (event : libinput_event_pointer)
  : InputInfoRec * list effect :=
  let button := to_int (btn_linux2xorg (libinput_event_pointer_get_button event)) in
  let is_press :=
    match libinput_event_pointer_get_button_state event with
    | LIBINPUT_BUTTON_STATE_PRESSED => true
    | LIBINPUT_BUTTON_STATE_RELEASED => false
    end in
  (pInfo, [xf86PostButtonEvent (dev pInfo) Relative button is_press]).

Definition xf86libinput_handle_key
    (pInfo : InputInfoRec) (event : libinput_event_keyboard)
  : InputInfoRec * list effect :=
  let key := to_int (libinput_event_keyboard_get_key event) in
  let key := key + XORG_KEYCODE_OFFSET in
  let is_press :=
    match libinput_event_keyboard_get_key_state event with
    | LIBINPUT_KEY_STATE_PRESSED => true
    | LIBINPUT_KEY_STATE_RELEASED => false
    end in
  (pInfo, [xf86PostKeyboardEvent (dev pInfo) key is_press]).

Definition xf86libinput_handle_axis
    (pInfo : InputInfoRec) (event : libinput_event_pointer)
  : InputInfoRec * list effect :=
  let driver_data := private pInfo in
  let mask := valuator_mask_zero (valuators driver_data) in
  let source := libinput_event_pointer_get_axis_source event in
  match source with
  | LIBINPUT_POINTER_AXIS_SOURCE_FINGER
  | LIBINPUT_POINTER_AXIS_SOURCE_WHEEL
  | LIBINPUT_POINTER_AXIS_SOURCE_CONTINUOUS =>
      let axis := LIBINPUT_POINTER_AXIS_SCROLL_VERTICAL in
      let mask :=
        if libinput_event_pointer_has_axis event axis then
          let value :=
            match source with
            | LIBINPUT_POINTER_AXIS_SOURCE_WHEEL =>
                let value := libinput_event_pointer_get_axis_value_discrete event axis in
                double_mul value (double_of_int (vdist (scroll driver_data)))
            | _ => libinput_event_pointer_get_axis_value event axis
            end in
          valuator_mask_set_double mask 3 value
        else mask in
      let axis := LIBINPUT_POINTER_AXIS_SCROLL_HORIZONTAL in
      let mask :=
        if libinput_event_pointer_has_axis event axis then
          let value :=
            match source with
            | LIBINPUT_POINTER_AXIS_SOURCE_WHEEL =>
                let value := libinput_event_pointer_get_axis_value_discrete event axis in
                double_mul value (double_of_int (hdist (scroll driver_data)))
            | _ => libinput_event_pointer_get_axis_value event axis
            end in
          valuator_mask_set_double mask 2 value
        else mask in
      (set_private pInfo (set_valuators driver_data mask),
       [xf86PostMotionEventM (dev pInfo) Relative mask])
  | LIBINPUT_POINTER_AXIS_SOURCE_other _ =>
      (set_private pInfo (set_valuators driver_data mask), [])
  end.

(** The function-scope statics of [xf86libinput_handle_touch]: one counter
    and one slot table for the whole process. *)
Record touch_statics := {
  next_touchid : Z;
  touchids : list Z
}.

Definition touch_statics_init : touch_statics :=
  {| next_touchid := 0; touchids := replicate (Z.to_nat TOUCH_MAX_SLOTS) 0 |}.

Definition xf86libinput_handle_touch (st : touch_statics)
    (pInfo : InputInfoRec) (event : libinput_event_touch)
    (event_type : libinput_event_type)
  : option (touch_statics * InputInfoRec * list effect) :=
  let driver_data := private pInfo in
  let m := valuators driver_data in
  let slot := libinput_event_touch_get_slot event in
  match event_type with
  | LIBINPUT_EVENT_TOUCH_CANCEL => Some (st, pInfo, [])
  | _ =>
      '(type, st) ←
        match event_type with
        | LIBINPUT_EVENT_TOUCH_DOWN =>
            ids ← array_set (touchids st) slot (next_touchid st);
            Some (XI_TouchBegin,
                  {| next_touchid := to_uint (next_touchid st + 1);
                     touchids := ids |})
        | LIBINPUT_EVENT_TOUCH_UP => Some (XI_TouchEnd, st)
        | _ => Some (XI_TouchUpdate, st)
        end;
      let m := valuator_mask_zero m in
      let m :=
        match event_type with
        | LIBINPUT_EVENT_TOUCH_UP => m
        | _ =>
            let val := libinput_event_touch_get_x_transformed event TOUCH_AXIS_MAX in
            let m := valuator_mask_set_double m 0 val in
            let val := libinput_event_touch_get_y_transformed event TOUCH_AXIS_MAX in
            valuator_mask_set_double m 1 val
        end in
      id ← array_get (touchids st) slot;
      Some (st, set_private pInfo (set_valuators driver_data m),
            [xf86PostTouchEvent (dev pInfo) id type 0 m])
  end.

(** The state event dispatch runs on: the touch statics and, per libinput
    device, the [InputInfoRec] registered as its user data (absent when
    none is). *)
Record dispatch_state := {
  touch : touch_statics;
  user_data : gmap nat InputInfoRec
}.

Definition xf86libinput_handle_event (HAVE_VMASK_UNACCEL : bool)
    (st : dispatch_state) (event : libinput_event)
  : option (dispatch_state * list effect) :=
  let device := libinput_event_get_device event in
  match user_data st !! device with
  | None => Some (st, [])
  | Some pInfo =>
      if negb (on pInfo) then Some (st, [])
      else
        let store (r : InputInfoRec * list effect) :=
          Some ({| touch := touch st;
                   user_data := <[device := fst r]> (user_data st) |}, snd r) in
        match libinput_event_get_payload event with
        | LIBINPUT_EVENT_NONE
        | LIBINPUT_EVENT_DEVICE_ADDED
        | LIBINPUT_EVENT_DEVICE_REMOVED => Some (st, [])
        | LIBINPUT_EVENT_POINTER_MOTION_ABSOLUTE e =>
            store (xf86libinput_handle_absmotion pInfo e)
        | LIBINPUT_EVENT_POINTER_MOTION e =>
            store (xf86libinput_handle_motion HAVE_VMASK_UNACCEL pInfo e)
        | LIBINPUT_EVENT_POINTER_BUTTON e =>
            store (xf86libinput_handle_button pInfo e)
        | LIBINPUT_EVENT_KEYBOARD_KEY e =>
            store (xf86libinput_handle_key pInfo e)
        | LIBINPUT_EVENT_POINTER_AXIS e =>
            store (xf86libinput_handle_axis pInfo e)
        | LIBINPUT_EVENT_TOUCH_FRAME => Some (st, [])
        | LIBINPUT_EVENT_TOUCH type e =>
            '(t, pInfo', out) ← xf86libinput_handle_touch (touch st) pInfo e type;
            Some ({| touch := t;
                     user_data := <[device := pInfo']> (user_data st) |}, out)
        end
  end.

(** The loop of [xf86libinput_read_input] over the queued events. *)
Fixpoint xf86libinput_read_input (HAVE_VMASK_UNACCEL : bool)
    (st : dispatch_state) (events : list libinput_event)
  : option (dispatch_state * list effect) :=
  match events with
  | [] => Some (st, [])
  | event :: rest =>
      '(st', out) ← xf86libinput_handle_event HAVE_VMASK_UNACCEL st event;
      '(st'', out') ← xf86libinput_read_input HAVE_VMASK_UNACCEL st' rest;
      Some (st'', out ++ out')
  end.

End Driver.

(** ** Conversions between C types *)

(** [BOOL] (an [unsigned char]) from an [int]. *)
Definition to_BOOL (z : Z) : Z := z mod 256.

Definition FALSE : Z := 0.

(** C truth of an integer. *)
Definition truthy (z : Z) : bool := negb (z =? 0).

Definition float_of_double (d : double) : float :=
  match d with
  | S754_finite s m e => binary_round 24 128 s m e
  | _ => d
  end.

Definition double_of_float (f : float) : double :=
  match f with
  | S754_finite s m e => binary_round 53 1024 s m e
  | _ => f
  end.

(** The [float] a 32-bit property item holds. *)
Definition float_of_bits (w : Z) : float :=
  let s := Z.testbit w 31 in
  let e := Z.land (Z.shiftr w 23) 0xff in
  let m := Z.land w 0x7fffff in
  if e =? 0 then
    match m with
    | Zpos p => S754_finite s p (-149)
    | _ => S754_zero s
    end
  else if e =? 0xff then
    if m =? 0 then S754_infinity s else S754_nan
  else
    match m + 0x800000 with
    | Zpos p => S754_finite s p (e - 150)
    | _ => S754_nan
    end.

Definition float_eq (x y : float) : bool := SFeqb x y.
Definition float_lt (x y : float) : bool := SFltb x y.

Definition f0 : float := S754_zero false.
Definition f1 : float := float_of_int 1.

(** [__builtin_popcount] on a 32-bit value. *)
Definition popcount (x : Z) : Z :=
  fold_right (fun i acc => (if Z.testbit x (Z.of_nat i) then 1 else 0) + acc)
             0 (seq 0 32).

(** ** C strings *)

Definition tolower (c : ascii) : ascii :=
  let n := nat_of_ascii c in
  if ((65 <=? n) && (n <=? 90))%nat then ascii_of_nat (n + 32) else c.

(** [strncasecmp(s, t, n) == 0]. *)
Fixpoint strncasecmp_eq (s t : string) (n : nat) : bool :=
  match n with
  | O => true
  | S n' =>
      match s, t with
      | EmptyString, EmptyString => true
      | String a s', String b t' =>
          if Ascii.eqb (tolower a) (tolower b) then strncasecmp_eq s' t' n'
          else false
      | _, _ => false
      end
  end.

(** [strcmp(s, t) == 0]. *)
Definition strcmp_eq (s t : string) : bool := String.eqb s t.

(** ** Updating [struct options] *)

Definition set_tapping (o : struct_options) (v : Z) : struct_options :=
  {| tapping := v; tap_drag_lock := tap_drag_lock o;
     natural_scrolling := natural_scrolling o; left_handed := left_handed o;
     middle_emulation := middle_emulation o; halfkey := halfkey o;
     sendevents := sendevents o; scroll_button := scroll_button o;
     speed := speed o; matrix := matrix o; scroll_method := scroll_method o;
     click_method := click_method o; btnmap := btnmap o |}.

Definition set_tap_drag_lock (o : struct_options) (v : Z) : struct_options :=
  {| tapping := tapping o; tap_drag_lock := v;
     natural_scrolling := natural_scrolling o; left_handed := left_handed o;
     middle_emulation := middle_emulation o; halfkey := halfkey o;
     sendevents := sendevents o; scroll_button := scroll_button o;
     speed := speed o; matrix := matrix o; scroll_method := scroll_method o;
     click_method := click_method o; btnmap := btnmap o |}.

Definition set_natural_scrolling (o : struct_options) (v : Z) : struct_options :=
  {| tapping := tapping o; tap_drag_lock := tap_drag_lock o;
     natural_scrolling := v; left_handed := left_handed o;
     middle_emulation := middle_emulation o; halfkey := halfkey o;
     sendevents := sendevents o; scroll_button := scroll_button o;
     speed := speed o; matrix := matrix o; scroll_method := scroll_method o;
     click_method := click_method o; btnmap := btnmap o |}.

Definition set_left_handed (o : struct_options) (v : Z) : struct_options :=
  {| tapping := tapping o; tap_drag_lock := tap_drag_lock o;
     natural_scrolling := natural_scrolling o; left_handed := v;
     middle_emulation := middle_emulation o; halfkey := halfkey o;
     sendevents := sendevents o; scroll_button := scroll_button o;
     speed := speed o; matrix := matrix o; scroll_method := scroll_method o;
     click_method := click_method o; btnmap := btnmap o |}.

Definition set_middle_emulation (o : struct_options) (v : Z) : struct_options :=
  {| tapping := tapping o; tap_drag_lock := tap_drag_lock o;
     natural_scrolling := natural_scrolling o; left_handed := left_handed o;
     middle_emulation := v; halfkey := halfkey o; sendevents := sendevents o;
     scroll_button := scroll_button o; speed := speed o; matrix := matrix o;
     scroll_method := scroll_method o; click_method := click_method o;
     btnmap := btnmap o |}.

Definition set_halfkey (o : struct_options) (v : Z) : struct_options :=
  {| tapping := tapping o; tap_drag_lock := tap_drag_lock o;
     natural_scrolling := natural_scrolling o; left_handed := left_handed o;
     middle_emulation := middle_emulation o; halfkey := v;
     sendevents := sendevents o; scroll_button := scroll_button o;
     speed := speed o; matrix := matrix o; scroll_method := scroll_method o;
     click_method := click_method o; btnmap := btnmap o |}.

Definition set_sendevents (o : struct_options) (v : Z) : struct_options :=
  {| tapping := tapping o; tap_drag_lock := tap_drag_lock o;
     natural_scrolling := natural_scrolling o; left_handed := left_handed o;
     middle_emulation := middle_emulation o; halfkey := halfkey o;
     sendevents := v; scroll_button := scroll_button o; speed := speed o;
     matrix := matrix o; scroll_method := scroll_method o;
     click_method := click_method o; btnmap := btnmap o |}.

Definition set_scroll_button (o : struct_options) (v : Z) : struct_options :=
  {| tapping := tapping o; tap_drag_lock := tap_drag_lock o;
     natural_scrolling := natural_scrolling o; left_handed := left_handed o;
     middle_emulation := middle_emulation o; halfkey := halfkey o;
     sendevents := sendevents o; scroll_button := v; speed := speed o;
     matrix := matrix o; scroll_method := scroll_method o;
     click_method := click_method o; btnmap := btnmap o |}.

Definition set_speed (o : struct_options) (v : float) : struct_options :=
  {| tapping := tapping o; tap_drag_lock := tap_drag_lock o;
     natural_scrolling := natural_scrolling o; left_handed := left_handed o;
     middle_emulation := middle_emulation o; halfkey := halfkey o;
     sendevents := sendevents o; scroll_button := scroll_button o;
     speed := v; matrix := matrix o; scroll_method := scroll_method o;
     click_method := click_method o; btnmap := btnmap o |}.

Definition set_matrix (o : struct_options) (v : list float) : struct_options :=
  {| tapping := tapping o; tap_drag_lock := tap_drag_lock o;
     natural_scrolling := natural_scrolling o; left_handed := left_handed o;
     middle_emulation := middle_emulation o; halfkey := halfkey o;
     sendevents := sendevents o; scroll_button := scroll_button o;
     speed := speed o; matrix := v; scroll_method := scroll_method o;
     click_method := click_method o; btnmap := btnmap o |}.

Definition set_scroll_method (o : struct_options) (v : Z) : struct_options :=
  {| tapping := tapping o; tap_drag_lock := tap_drag_lock o;
     natural_scrolling := natural_scrolling o; left_handed := left_handed o;
     middle_emulation := middle_emulation o; halfkey := halfkey o;
     sendevents := sendevents o; scroll_button := scroll_button o;
     speed := speed o; matrix := matrix o; scroll_method := v;
     click_method := click_method o; btnmap := btnmap o |}.

Definition set_click_method (o : struct_options) (v : Z) : struct_options :=
  {| tapping := tapping o; tap_drag_lock := tap_drag_lock o;
     natural_scrolling := natural_scrolling o; left_handed := left_handed o;
     middle_emulation := middle_emulation o; halfkey := halfkey o;
     sendevents := sendevents o; scroll_button := scroll_button o;
     speed := speed o; matrix := matrix o; scroll_method := scroll_method o;
     click_method := v; btnmap := btnmap o |}.

Definition set_btnmap (o : struct_options) (v : list Z) : struct_options :=
  {| tapping := tapping o; tap_drag_lock := tap_drag_lock o;
     natural_scrolling := natural_scrolling o; left_handed := left_handed o;
     middle_emulation := middle_emulation o; halfkey := halfkey o;
     sendevents := sendevents o; scroll_button := scroll_button o;
     speed := speed o; matrix := matrix o; scroll_method := scroll_method o;
     click_method := click_method o; btnmap := v |}.

(** Overwrite the first elements of an array with the values given. *)
Definition store_prefix {A} (vals : list A) (arr : list A) : list A :=
  take (length arr) (vals ++ drop (length vals) arr).

(** ** Device properties *)

(** [XIPropertyValueRec]: [data] holds [size] items of [format] bits each. *)
Record XIPropertyValueRec := {
  type : Z;
  format : Z;
  size : Z;
  data : list Z
}.

(** [((T* )val->data)[i]] *)
Definition item (val : XIPropertyValueRec) (i : nat) : Z := nth i (data val) 0.

(** The file-scope [Atom] variables the property code fills in. *)
Record property_atoms := {
  prop_tap : Z;
  prop_tap_default : Z;
  prop_tap_drag_lock : Z;
  prop_tap_drag_lock_default : Z;
  prop_calibration : Z;
  prop_calibration_default : Z;
  prop_accel : Z;
  prop_accel_default : Z;
  prop_natural_scroll : Z;
  prop_natural_scroll_default : Z;
  prop_sendevents_available : Z;
  prop_sendevents_enabled : Z;
  prop_sendevents_default : Z;
  prop_left_handed : Z;
  prop_left_handed_default : Z;
  prop_scroll_methods_available : Z;
  prop_scroll_method_enabled : Z;
  prop_scroll_method_default : Z;
  prop_scroll_button : Z;
  prop_scroll_button_default : Z;
  prop_click_methods_available : Z;
  prop_click_method_enabled : Z;
  prop_click_method_default : Z;
  prop_middle_emulation : Z;
  prop_middle_emulation_default : Z;
  prop_halfkey : Z;
  prop_halfkey_default : Z;
  prop_float : Z;
  prop_device : Z;
  prop_product_id : Z
}.

(** ** Option resolution at device open *)

Section Config.
Context `{Libinput} `{XF86Option} `{LibC}.

(** Code that talks to one libinput device and logs: the device is threaded
    through and the messages are collected in order. *)
Definition M (A : Type) : Type :=
  libinput_device -> A * libinput_device * list effect.

#[local] Instance M_ret : MRet M := fun A (a : A) d => (a, d, []).

#[local] Instance M_bind : MBind M := fun A B (f : A -> M B) (m : M A) d =>
  let '(a, d1, out1) := m d in
  let '(b, d2, out2) := f a d1 in
  (b, d2, out1 ++ out2).

(** A read-only query. *)
Definition query {A} (f : libinput_device -> A) : M A := fun d => (f d, d, []).

(** A setter call. *)
Definition config (f : libinput_device -> Z * libinput_device) : M Z :=
  fun d => let '(rc, d') := f d in (rc, d', []).

Definition says (out : list effect) : M unit := fun d => (tt, d, out).

Definition say (e : effect) : M unit := says [e].

Definition failed (rc : Z) : bool := negb (rc =? LIBINPUT_CONFIG_STATUS_SUCCESS).

Definition xf86libinput_parse_tap_option (pInfo : InputInfoRec) : M Z :=
  n ← query libinput_device_config_tap_get_finger_count;
  if n =? 0 then mret FALSE
  else
    dflt ← query libinput_device_config_tap_get_enabled;
    let tap := to_BOOL (xf86SetBoolOption (pInfo_options pInfo) "Tapping" dflt) in
    rc ← config (fun d => libinput_device_config_tap_set_enabled d tap);
    if failed rc then
      say (xf86IDrvMsg (dev pInfo) X_ERROR "Failed to set Tapping to %d");;
      cur ← query libinput_device_config_tap_get_enabled;
      mret (to_BOOL cur)
    else mret tap.

Definition xf86libinput_parse_tap_drag_lock_option (pInfo : InputInfoRec) : M Z :=
  n ← query libinput_device_config_tap_get_finger_count;
  if n =? 0 then mret FALSE
  else
    dflt ← query libinput_device_config_tap_get_drag_lock_enabled;
    let drag_lock :=
      to_BOOL (xf86SetBoolOption (pInfo_options pInfo) "TappingDragLock" dflt) in
    rc ← config (fun d => libinput_device_config_tap_set_drag_lock_enabled d drag_lock);
    if failed rc then
      say (xf86IDrvMsg (dev pInfo) X_ERROR "Failed to set Tapping Drag Lock to %d");;
      cur ← query libinput_device_config_tap_get_drag_lock_enabled;
      mret (to_BOOL cur)
    else mret drag_lock.

Definition xf86libinput_parse_accel_option (pInfo : InputInfoRec) : M double :=
  avail ← query libinput_device_config_accel_is_available;
  if negb (truthy avail) then mret (S754_zero false)
  else
    dflt ← query libinput_device_config_accel_get_speed;
    let speed := xf86SetRealOption (pInfo_options pInfo) "AccelSpeed" dflt in
    rc ← config (fun d => libinput_device_config_accel_set_speed d speed);
    if failed rc then
      say (xf86IDrvMsg (dev pInfo) X_ERROR "Invalid speed %.2f, using 0 instead");;
      query libinput_device_config_accel_get_speed
    else mret speed.

Definition xf86libinput_parse_natscroll_option (pInfo : InputInfoRec) : M Z :=
  has ← query libinput_device_config_scroll_has_natural_scroll;
  if negb (truthy has) then mret FALSE
  else
    dflt ← query libinput_device_config_scroll_get_natural_scroll_enabled;
    let natural_scroll :=
      to_BOOL (xf86SetBoolOption (pInfo_options pInfo) "NaturalScrolling" dflt) in
    rc ← config (fun d =>
           libinput_device_config_scroll_set_natural_scroll_enabled d natural_scroll);
    if failed rc then
      say (xf86IDrvMsg (dev pInfo) X_ERROR "Failed to set NaturalScrolling to %d");;
      cur ← query libinput_device_config_scroll_get_natural_scroll_enabled;
      mret (to_BOOL cur)
    else mret natural_scroll.

Definition xf86libinput_parse_sendevents_option (pInfo : InputInfoRec) : M Z :=
  modes ← query libinput_device_config_send_events_get_modes;
  if modes =? LIBINPUT_CONFIG_SEND_EVENTS_ENABLED
  then mret LIBINPUT_CONFIG_SEND_EVENTS_ENABLED
  else
    mode ← query libinput_device_config_send_events_get_mode;
    let '(mode, out) :=
      match xf86SetStrOption (pInfo_options pInfo) "SendEventsMode" None with
      | None => (mode, [])
      | Some strmode =>
          if strcmp_eq strmode "enabled"
          then (LIBINPUT_CONFIG_SEND_EVENTS_ENABLED, [])
          else if strcmp_eq strmode "disabled"
          then (LIBINPUT_CONFIG_SEND_EVENTS_DISABLED, [])
          else if strcmp_eq strmode "disabled-on-external-mouse"
          then (LIBINPUT_CONFIG_SEND_EVENTS_DISABLED_ON_EXTERNAL_MOUSE, [])
          else (mode, [xf86IDrvMsg (dev pInfo) X_ERROR "Invalid SendeventsMode: %s"])
      end in
    says out;;
    rc ← config (fun d => libinput_device_config_send_events_set_mode d mode);
    if failed rc then
      say (xf86IDrvMsg (dev pInfo) X_ERROR "Failed to set SendEventsMode %u");;
      query libinput_device_config_send_events_get_mode
    else mret mode.

Definition identity_matrix : list float := [f1; f0; f0; f0; f1; f0; f0; f0; f1].

Definition xf86libinput_parse_calibration_option (pInfo : InputInfoRec)
  : M (list float) :=
  let matrix := identity_matrix in
  let matrix_out := matrix in
  has ← query libinput_device_config_calibration_has_matrix;
  if negb (truthy has) then mret matrix_out
  else
    m6 ← query libinput_device_config_calibration_get_matrix;
    let matrix := store_prefix (take 6 m6) matrix in
    let matrix_out := matrix in
    match xf86CheckStrOption (pInfo_options pInfo) "CalibrationMatrix" None with
    | None => mret matrix_out
    | Some str =>
        let converted := take 9 (sscanf_floats str) in
        let num_calibration := length converted in
        let matrix := store_prefix converted matrix in
        if negb (num_calibration =? 9)%nat then
          say (xf86IDrvMsg (dev pInfo) X_ERROR "Invalid matrix: %s, using default");;
          mret matrix_out
        else
          rc ← config (fun d =>
                 libinput_device_config_calibration_set_matrix d (take 6 matrix));
          if rc =? LIBINPUT_CONFIG_STATUS_SUCCESS then mret matrix
          else
            say (xf86IDrvMsg (dev pInfo) X_ERROR
                   "Failed to apply matrix: %s, using default");;
            mret matrix_out
    end.

Definition xf86libinput_parse_lefthanded_option (pInfo : InputInfoRec) : M Z :=
  avail ← query libinput_device_config_left_handed_is_available;
  if negb (truthy avail) then mret FALSE
  else
    dflt ← query libinput_device_config_left_handed_get;
    let left_handed :=
      to_BOOL (xf86SetBoolOption (pInfo_options pInfo) "LeftHanded" dflt) in
    rc ← config (fun d => libinput_device_config_left_handed_set d left_handed);
    if failed rc then
      say (xf86IDrvMsg (dev pInfo) X_ERROR "Failed to set LeftHanded to %d");;
      cur ← query libinput_device_config_left_handed_get;
      mret (to_BOOL cur)
    else mret left_handed.

Definition xf86libinput_parse_scroll_option (pInfo : InputInfoRec) : M Z :=
  scroll_methods ← query libinput_device_config_scroll_get_methods;
  if scroll_methods =? LIBINPUT_CONFIG_SCROLL_NO_SCROLL
  then mret LIBINPUT_CONFIG_SCROLL_NO_SCROLL
  else
    match xf86SetStrOption (pInfo_options pInfo) "ScrollMethod" None with
    | None => query libinput_device_config_scroll_get_method
    | Some method =>
        if strncasecmp_eq method "twofinger" 9 then mret LIBINPUT_CONFIG_SCROLL_2FG
        else if strncasecmp_eq method "edge" 4 then mret LIBINPUT_CONFIG_SCROLL_EDGE
        else if strncasecmp_eq method "button" 6
        then mret LIBINPUT_CONFIG_SCROLL_ON_BUTTON_DOWN
        else if strncasecmp_eq method "none" 4
        then mret LIBINPUT_CONFIG_SCROLL_NO_SCROLL
        else
          say (xf86IDrvMsg (dev pInfo) X_ERROR
                 "Unknown scroll method '%s'. Using default.");;
          query libinput_device_config_scroll_get_method
    end.

Definition xf86libinput_parse_scrollbutton_option (pInfo : InputInfoRec) : M Z :=
  methods ← query libinput_device_config_scroll_get_methods;
  if Z.land methods LIBINPUT_CONFIG_SCROLL_ON_BUTTON_DOWN =? 0 then mret 0
  else
    cur ← query libinput_device_config_scroll_get_button;
    let b := btn_linux2xorg cur in
    let scroll_button :=
      to_uint (xf86SetIntOption (pInfo_options pInfo) "ScrollButton" (to_int b)) in
    let b := btn_xorg2linux scroll_button in
    rc ← config (fun d => libinput_device_config_scroll_set_button d b);
    if failed rc then
      say (xf86IDrvMsg (dev pInfo) X_ERROR "Failed to set ScrollButton to %u");;
      cur ← query libinput_device_config_scroll_get_button;
      mret (btn_linux2xorg cur)
    else mret scroll_button.

Definition xf86libinput_parse_clickmethod_option (pInfo : InputInfoRec) : M Z :=
  click_methods ← query libinput_device_config_click_get_methods;
  if click_methods =? LIBINPUT_CONFIG_CLICK_METHOD_NONE
  then mret LIBINPUT_CONFIG_CLICK_METHOD_NONE
  else
    match xf86SetStrOption (pInfo_options pInfo) "ClickMethod" None with
    | None => query libinput_device_config_click_get_method
    | Some method =>
        if strncasecmp_eq method "buttonareas" 11
        then mret LIBINPUT_CONFIG_CLICK_METHOD_BUTTON_AREAS
        else if strncasecmp_eq method "clickfinger" 11
        then mret LIBINPUT_CONFIG_CLICK_METHOD_CLICKFINGER
        else if strncasecmp_eq method "none" 4
        then mret LIBINPUT_CONFIG_CLICK_METHOD_NONE
        else
          say (xf86IDrvMsg (dev pInfo) X_ERROR
                 "Unknown click method '%s'. Using default.");;
          query libinput_device_config_click_get_method
    end.

Definition xf86libinput_parse_middleemulation_option (pInfo : InputInfoRec) : M Z :=
  avail ← query libinput_device_config_middle_emulation_is_available;
  if negb (truthy avail) then mret FALSE
  else
    dflt ← query libinput_device_config_middle_emulation_get_default_enabled;
    let enabled :=
      to_BOOL (xf86SetBoolOption (pInfo_options pInfo) "MiddleEmulation" dflt) in
    rc ← config (fun d => libinput_device_config_middle_emulation_set_enabled d enabled);
    if failed rc then
      say (xf86IDrvMsg (dev pInfo) X_ERROR "Failed to set MiddleEmulation to %d");;
      cur ← query libinput_device_config_middle_emulation_get_enabled;
      mret (to_BOOL cur)
    else mret enabled.

Definition xf86libinput_parse_halfkey_option (pInfo : InputInfoRec) : M Z :=
  avail ← query libinput_device_config_halfkey_is_available;
  if negb (truthy avail) then mret FALSE
  else
    dflt ← query libinput_device_config_halfkey_get_default_enabled;
    let enabled := to_BOOL (xf86SetBoolOption (pInfo_options pInfo) "Halfkey" dflt) in
    rc ← config (fun d => libinput_device_config_halfkey_set_enabled d enabled);
    if failed rc then
      say (xf86IDrvMsg (dev pInfo) X_ERROR "Failed to set Halfkey Accessiblity to %d");;
      cur ← query libinput_device_config_halfkey_get_enabled;
      mret (to_BOOL cur)
    else mret enabled.

(** [btnmap[i] = i] for every index of the [unsigned char] array. *)
Definition init_button_map (size : nat) : list Z :=
  map (fun i => Z.of_nat i mod 256) (seq 0 size).

(** The [do ... while] loop of the button-map parser; [more] bounds the
    iterations left after this one (the loop ends when [idx] reaches 32). *)
Fixpoint buttonmap_loop (more : nat) (pInfo : InputInfoRec) (size : nat)
    (map : string) (idx : Z) (btnmap : list Z) : list Z * list effect :=
  let MAXBUTTONS := 32 in
  match strtoul map with
  | Some (btn, s) =>
      if btn >? MAXBUTTONS then
        (init_button_map size,
         [xf86IDrvMsg (dev pInfo) X_ERROR "... Invalid button mapping. Using defaults"])
      else
        let btnmap := <[Z.to_nat idx := btn mod 256]> btnmap in
        let idx := idx + 1 in
        match more with
        | S more' =>
            if negb (String.eqb s "") && (idx <? MAXBUTTONS)
            then buttonmap_loop more' pInfo size s idx btnmap
            else (btnmap, [])
        | O => (btnmap, [])
        end
  | None =>
      (init_button_map size,
       [xf86IDrvMsg (dev pInfo) X_ERROR "... Invalid button mapping. Using defaults"])
  end.

Definition xf86libinput_parse_buttonmap_option (pInfo : InputInfoRec) (size : nat)
  : list Z * list effect :=
  let btnmap := init_button_map size in
  match xf86SetStrOption (pInfo_options pInfo) "ButtonMapping" None with
  | None => (btnmap, [])
  | Some mapping => buttonmap_loop 31 pInfo size mapping 1 btnmap
  end.

Definition xf86libinput_parse_options (pInfo : InputInfoRec) : M struct_options :=
  tapping ← xf86libinput_parse_tap_option pInfo;
  tap_drag_lock ← xf86libinput_parse_tap_drag_lock_option pInfo;
  speed ← xf86libinput_parse_accel_option pInfo;
  natural_scrolling ← xf86libinput_parse_natscroll_option pInfo;
  sendevents ← xf86libinput_parse_sendevents_option pInfo;
  left_handed ← xf86libinput_parse_lefthanded_option pInfo;
  scroll_method ← xf86libinput_parse_scroll_option pInfo;
  scroll_button ← xf86libinput_parse_scrollbutton_option pInfo;
  click_method ← xf86libinput_parse_clickmethod_option pInfo;
  middle_emulation ← xf86libinput_parse_middleemulation_option pInfo;
  halfkey ← xf86libinput_parse_halfkey_option pInfo;
  matrix ← xf86libinput_parse_calibration_option pInfo;
  let '(btnmap, out) :=
    xf86libinput_parse_buttonmap_option pInfo (Z.to_nat (MAX_BUTTONS + 1)) in
  says out;;
  mret {| tapping := tapping; tap_drag_lock := tap_drag_lock;
          natural_scrolling := natural_scrolling; left_handed := left_handed;
          middle_emulation := middle_emulation; halfkey := halfkey;
          sendevents := to_uint sendevents; scroll_button := to_uint scroll_button;
          speed := float_of_double speed; matrix := matrix;
          scroll_method := scroll_method; click_method := click_method;
          btnmap := btnmap |}.

(** [calloc]'ed driver data with the scroll distances [pre_init] sets. *)
Definition zero_options : struct_options :=
  {| tapping := 0; tap_drag_lock := 0; natural_scrolling := 0; left_handed := 0;
     middle_emulation := 0; halfkey := 0; sendevents := 0; scroll_button := 0;
     speed := f0; matrix := replicate 9 f0; scroll_method := 0;
     click_method := 0; btnmap := replicate (Z.to_nat (MAX_BUTTONS + 1)) 0 |}.

Definition empty_mask : ValuatorMask := {| vm_values := ∅; vm_unaccelerated := ∅ |}.


(** ** Pushing the options into the device *)

(** One guarded setter call of [LibinputApplyConfig]: the setter runs only
    when the guard holds, and a failure is logged. *)
Definition apply_one (guard : libinput_device -> bool)
    (setter : libinput_device -> Z * libinput_device) (failure : effect)
  : M unit :=
  fun d =>
    if guard d then
      let '(rc, d') := setter d in
      (tt, d', if failed rc then [failure] else [])
    else (tt, d, []).

Definition LibinputApplyConfig_device (id : nat) (o : struct_options) : M unit :=
  apply_one
    (fun d => negb (libinput_device_config_send_events_get_modes d
                    =? LIBINPUT_CONFIG_SEND_EVENTS_ENABLED))
    (fun d => libinput_device_config_send_events_set_mode d (sendevents o))
    (xf86IDrvMsg id X_ERROR "Failed to set SendEventsMode %u");;
  apply_one
    (fun d => truthy (libinput_device_config_scroll_has_natural_scroll d))
    (fun d => libinput_device_config_scroll_set_natural_scroll_enabled d
                (natural_scrolling o))
    (xf86IDrvMsg id X_ERROR "Failed to set NaturalScrolling to %d");;
  apply_one
    (fun d => truthy (libinput_device_config_accel_is_available d))
    (fun d => libinput_device_config_accel_set_speed d (double_of_float (speed o)))
    (xf86IDrvMsg id X_ERROR "Failed to set speed %.2f");;
  apply_one
    (fun d => 0 <? libinput_device_config_tap_get_finger_count d)
    (fun d => libinput_device_config_tap_set_enabled d (tapping o))
    (xf86IDrvMsg id X_ERROR "Failed to set Tapping to %d");;
  apply_one
    (fun d => 0 <? libinput_device_config_tap_get_finger_count d)
    (fun d => libinput_device_config_tap_set_drag_lock_enabled d (tap_drag_lock o))
    (xf86IDrvMsg id X_ERROR "Failed to set Tapping DragLock to %d");;
  apply_one
    (fun d => truthy (libinput_device_config_calibration_has_matrix d))
    (fun d => libinput_device_config_calibration_set_matrix d (take 6 (matrix o)))
    (xf86IDrvMsg id X_ERROR "Failed to apply matrix: ");;
  apply_one
    (fun d => truthy (libinput_device_config_left_handed_is_available d))
    (fun d => libinput_device_config_left_handed_set d (left_handed o))
    (xf86IDrvMsg id X_ERROR "Failed to set LeftHanded to %d");;
  apply_one
    (fun _ => true)
    (fun d => libinput_device_config_scroll_set_method d (scroll_method o))
    (xf86IDrvMsg id X_ERROR "Failed to set scroll to %s");;
  apply_one
    (fun d => truthy (Z.land (libinput_device_config_scroll_get_methods d)
                             LIBINPUT_CONFIG_SCROLL_ON_BUTTON_DOWN))
    (fun d => libinput_device_config_scroll_set_button d
                (btn_xorg2linux (scroll_button o)))
    (xf86IDrvMsg id X_ERROR "Failed to set ScrollButton to %u");;
  apply_one
    (fun _ => true)
    (fun d => libinput_device_config_click_set_method d (click_method o))
    (xf86IDrvMsg id X_ERROR "Failed to set click method to %s");;
  apply_one
    (fun d => truthy (libinput_device_config_middle_emulation_is_available d))
    (fun d => libinput_device_config_middle_emulation_set_enabled d
                (middle_emulation o))
    (xf86IDrvMsg id X_ERROR "Failed to set MiddleEmulation to %d");;
  apply_one
    (fun d => truthy (libinput_device_config_halfkey_is_available d))
    (fun d => libinput_device_config_halfkey_set_enabled d (halfkey o))
    (xf86IDrvMsg id X_ERROR "Failed to set Halfkey Accessiblity support to %d").

Definition set_device (d : xf86libinput) (device : option libinput_device)
  : xf86libinput :=
  {| path := path d; device := device; scroll := scroll d; scale := scale d;
     has_abs := has_abs d; valuators := valuators d;
     valuators_unaccelerated := valuators_unaccelerated d;
     options := options d |}.

Definition set_options (d : xf86libinput) (o : struct_options) : xf86libinput :=
  {| path := path d; device := device d; scroll := scroll d; scale := scale d;
     has_abs := has_abs d; valuators := valuators d;
     valuators_unaccelerated := valuators_unaccelerated d;
     options := o |}.

(** [LibinputApplyConfig]; the libinput calls dereference the device, so a
    NULL device has no defined outcome ([None]). *)
Definition LibinputApplyConfig (pInfo : InputInfoRec)
  : option (InputInfoRec * list effect) :=
  let driver_data := private pInfo in
  device ← device driver_data;
  let '(_, device, out) :=
    LibinputApplyConfig_device (dev pInfo) (options driver_data) device in
  Some (set_private pInfo (set_device driver_data (Some device)), out).

(** ** Property writes *)

Definition xf86libinput_check_device (pInfo : InputInfoRec) (atom : Z)
  : option libinput_device * list effect :=
  match device (private pInfo) with
  | None =>
      (None,
       (if on pInfo then [BUG_WARN (dev pInfo)] else []) ++
       [xf86IDrvMsg (dev pInfo) X_INFO
          "SetProperty on %u called but device is disabled."])
  | Some device => (Some device, [])
  end.

Definition store_option (pInfo : InputInfoRec) (o : struct_options) : InputInfoRec :=
  set_private pInfo (set_options (private pInfo) o).

Definition bad_format (val : XIPropertyValueRec) (fmt sz ty : Z) : bool :=
  negb (format val =? fmt) || negb (size val =? sz) || negb (type val =? ty).

Definition LibinputSetPropertyTap (pInfo : InputInfoRec) (atom : Z)
    (val : XIPropertyValueRec) (checkonly : bool)
  : Z * InputInfoRec * list effect :=
  let driver_data := private pInfo in
  if bad_format val 8 1 XA_INTEGER then (BadMatch, pInfo, [])
  else
    let data := item val 0 in
    if checkonly then
      if negb (data =? 0) && negb (data =? 1) then (BadValue, pInfo, [])
      else
        match xf86libinput_check_device pInfo atom with
        | (None, out) => (BadMatch, pInfo, out)
        | (Some device, out) =>
            if libinput_device_config_tap_get_finger_count device =? 0
            then (BadMatch, pInfo, out)
            else (Success, pInfo, out)
        end
    else (Success, store_option pInfo (set_tapping (options driver_data) data), []).

Definition LibinputSetPropertyTapDragLock (pInfo : InputInfoRec) (atom : Z)
    (val : XIPropertyValueRec) (checkonly : bool)
  : Z * InputInfoRec * list effect :=
  let driver_data := private pInfo in
  if bad_format val 8 1 XA_INTEGER then (BadMatch, pInfo, [])
  else
    let data := item val 0 in
    if checkonly then
      if negb (data =? 0) && negb (data =? 1) then (BadValue, pInfo, [])
      else
        match xf86libinput_check_device pInfo atom with
        | (None, out) => (BadMatch, pInfo, out)
        | (Some device, out) =>
            if libinput_device_config_tap_get_finger_count device =? 0
            then (BadMatch, pInfo, out)
            else (Success, pInfo, out)
        end
    else
      (Success, store_option pInfo (set_tap_drag_lock (options driver_data) data), []).

Definition LibinputSetPropertyCalibration (props : property_atoms)
    (pInfo : InputInfoRec) (atom : Z)
    (val : XIPropertyValueRec) (checkonly : bool)
  : Z * InputInfoRec * list effect :=
  let driver_data := private pInfo in
  if bad_format val 32 9 (prop_float props) then (BadMatch, pInfo, [])
  else
    let data := fun i => float_of_bits (item val i) in
    if checkonly then
      if negb (float_eq (data 6%nat) (float_of_int 0)) ||
         negb (float_eq (data 7%nat) (float_of_int 0)) ||
         negb (float_eq (data 8%nat) (float_of_int 1))
      then (BadValue, pInfo, [])
      else
        match xf86libinput_check_device pInfo atom with
        | (None, out) => (BadMatch, pInfo, out)
        | (Some device, out) =>
            if negb (truthy (libinput_device_config_calibration_has_matrix device))
            then (BadMatch, pInfo, out)
            else (Success, pInfo, out)
        end
    else
      (Success,
       store_option pInfo
         (set_matrix (options driver_data)
                     (store_prefix (map data (seq 0 9)) (matrix (options driver_data)))),
       []).

Definition LibinputSetPropertyAccel (props : property_atoms)
    (pInfo : InputInfoRec) (atom : Z)
    (val : XIPropertyValueRec) (checkonly : bool)
  : Z * InputInfoRec * list effect :=
  let driver_data := private pInfo in
  if bad_format val 32 1 (prop_float props) then (BadMatch, pInfo, [])
  else
    let data := float_of_bits (item val 0) in
    if checkonly then
      if float_lt data (float_of_int (-1)) || float_lt (float_of_int 1) data
      then (BadValue, pInfo, [])
      else
        match xf86libinput_check_device pInfo atom with
        | (None, out) => (BadMatch, pInfo, out)
        | (Some device, out) =>
            if libinput_device_config_accel_is_available device =? 0
            then (BadMatch, pInfo, out)
            else (Success, pInfo, out)
        end
    else (Success, store_option pInfo (set_speed (options driver_data) data), []).

Definition LibinputSetPropertyNaturalScroll (pInfo : InputInfoRec) (atom : Z)
    (val : XIPropertyValueRec) (checkonly : bool)
  : Z * InputInfoRec * list effect :=
  let driver_data := private pInfo in
  if bad_format val 8 1 XA_INTEGER then (BadMatch, pInfo, [])
  else
    let data := item val 0 in
    if checkonly then
      if negb (data =? 0) && negb (data =? 1) then (BadValue, pInfo, [])
      else
        match xf86libinput_check_device pInfo atom with
        | (None, out) => (BadMatch, pInfo, out)
        | (Some device, out) =>
            if libinput_device_config_scroll_has_natural_scroll device =? 0
            then (BadMatch, pInfo, out)
            else (Success, pInfo, out)
        end
    else
      (Success,
       store_option pInfo (set_natural_scrolling (options driver_data) data), []).

Definition LibinputSetPropertySendEvents (pInfo : InputInfoRec) (atom : Z)
    (val : XIPropertyValueRec) (checkonly : bool)
  : Z * InputInfoRec * list effect :=
  let driver_data := private pInfo in
  if bad_format val 8 2 XA_INTEGER then (BadMatch, pInfo, [])
  else
    let modes := 0 in
    let modes := if truthy (item val 0)
                 then Z.lor modes LIBINPUT_CONFIG_SEND_EVENTS_DISABLED else modes in
    let modes := if truthy (item val 1)
                 then Z.lor modes LIBINPUT_CONFIG_SEND_EVENTS_DISABLED_ON_EXTERNAL_MOUSE
                 else modes in
    if checkonly then
      match xf86libinput_check_device pInfo atom with
      | (None, out) => (BadMatch, pInfo, out)
      | (Some device, out) =>
          let supported := libinput_device_config_send_events_get_modes device in
          if negb (Z.lor modes supported =? supported)
          then (BadValue, pInfo, out)
          else (Success, pInfo, out)
      end
    else (Success, store_option pInfo (set_sendevents (options driver_data) modes), []).

Definition LibinputSetPropertyLeftHanded (pInfo : InputInfoRec) (atom : Z)
    (val : XIPropertyValueRec) (checkonly : bool)
  : Z * InputInfoRec * list effect :=
  let driver_data := private pInfo in
  if bad_format val 8 1 XA_INTEGER then (BadMatch, pInfo, [])
  else
    let data := item val 0 in
    if checkonly then
      let left_handed := data in
      match xf86libinput_check_device pInfo atom with
      | (None, out) => (BadMatch, pInfo, out)
      | (Some device, out) =>
          let supported := libinput_device_config_left_handed_is_available device in
          if negb (truthy supported) && truthy left_handed
          then (BadValue, pInfo, out)
          else (Success, pInfo, out)
      end
    else
      (Success, store_option pInfo (set_left_handed (options driver_data) data), []).

Definition LibinputSetPropertyScrollMethods (pInfo : InputInfoRec) (atom : Z)
    (val : XIPropertyValueRec) (checkonly : bool)
  : Z * InputInfoRec * list effect :=
  let driver_data := private pInfo in
  if bad_format val 8 3 XA_INTEGER then (BadMatch, pInfo, [])
  else
    let modes := 0 in
    let modes := if truthy (item val 0)
                 then Z.lor modes LIBINPUT_CONFIG_SCROLL_2FG else modes in
    let modes := if truthy (item val 1)
                 then Z.lor modes LIBINPUT_CONFIG_SCROLL_EDGE else modes in
    let modes := if truthy (item val 2)
                 then Z.lor modes LIBINPUT_CONFIG_SCROLL_ON_BUTTON_DOWN else modes in
    if checkonly then
      if popcount modes >? 1 then (BadValue, pInfo, [])
      else
        match xf86libinput_check_device pInfo atom with
        | (None, out) => (BadMatch, pInfo, out)
        | (Some device, out) =>
            let supported := libinput_device_config_scroll_get_methods device in
            if truthy modes && (Z.land modes supported =? 0)
            then (BadValue, pInfo, out)
            else (Success, pInfo, out)
        end
    else
      (Success, store_option pInfo (set_scroll_method (options driver_data) modes), []).

Definition LibinputSetPropertyScrollButton (pInfo : InputInfoRec) (atom : Z)
    (val : XIPropertyValueRec) (checkonly : bool)
  : Z * InputInfoRec * list effect :=
  let driver_data := private pInfo in
  if bad_format val 32 1 XA_CARDINAL then (BadMatch, pInfo, [])
  else
    let data := item val 0 in
    if checkonly then
      let button := data in
      match xf86libinput_check_device pInfo atom with
      | (None, out) => (BadMatch, pInfo, out)
      | (Some device, out) =>
          let supported :=
            to_uint (libinput_device_pointer_has_button device (btn_xorg2linux button)) in
          if truthy button && negb (truthy supported)
          then (BadValue, pInfo, out)
          else (Success, pInfo, out)
      end
    else
      (Success, store_option pInfo (set_scroll_button (options driver_data) data), []).

Definition LibinputSetPropertyClickMethod (pInfo : InputInfoRec) (atom : Z)
    (val : XIPropertyValueRec) (checkonly : bool)
  : Z * InputInfoRec * list effect :=
  let driver_data := private pInfo in
  if bad_format val 8 2 XA_INTEGER then (BadMatch, pInfo, [])
  else
    let modes := 0 in
    let modes := if truthy (item val 0)
                 then Z.lor modes LIBINPUT_CONFIG_CLICK_METHOD_BUTTON_AREAS
                 else modes in
    let modes := if truthy (item val 1)
                 then Z.lor modes LIBINPUT_CONFIG_CLICK_METHOD_CLICKFINGER
                 else modes in
    if checkonly then
      if popcount modes >? 1 then (BadValue, pInfo, [])
      else
        match xf86libinput_check_device pInfo atom with
        | (None, out) => (BadMatch, pInfo, out)
        | (Some device, out) =>
            let supported := libinput_device_config_click_get_methods device in
            if truthy modes && (Z.land modes supported =? 0)
            then (BadValue, pInfo, out)
            else (Success, pInfo, out)
        end
    else
      (Success, store_option pInfo (set_click_method (options driver_data) modes), []).

Definition LibinputSetPropertyMiddleEmulation (pInfo : InputInfoRec) (atom : Z)
    (val : XIPropertyValueRec) (checkonly : bool)
  : Z * InputInfoRec * list effect :=
  let driver_data := private pInfo in
  if bad_format val 8 1 XA_INTEGER then (BadMatch, pInfo, [])
  else
    let data := item val 0 in
    if checkonly then
      if negb (data =? 0) && negb (data =? 1) then (BadValue, pInfo, [])
      else
        match xf86libinput_check_device pInfo atom with
        | (None, out) => (BadMatch, pInfo, out)
        | (Some device, out) =>
            if negb (truthy (libinput_device_config_middle_emulation_is_available device))
            then (BadMatch, pInfo, out)
            else (Success, pInfo, out)
        end
    else
      (Success,
       store_option pInfo (set_middle_emulation (options driver_data) data), []).

Definition LibinputSetPropertyHalfkey (pInfo : InputInfoRec) (atom : Z)
    (val : XIPropertyValueRec) (checkonly : bool)
  : Z * InputInfoRec * list effect :=
  let driver_data := private pInfo in
  if bad_format val 8 1 XA_INTEGER then (BadMatch, pInfo, [])
  else
    let data := item val 0 in
    if checkonly then
      if negb (data =? 0) && negb (data =? 1) then (BadValue, pInfo, [])
      else
        match xf86libinput_check_device pInfo atom with
        | (None, out) => (BadMatch, pInfo, out)
        | (Some device, out) =>
            if negb (truthy (libinput_device_config_halfkey_is_available device))
            then (BadMatch, pInfo, out)
            else (Success, pInfo, out)
        end
    else (Success, store_option pInfo (set_halfkey (options driver_data) data), []).

(** The atoms of the read-only trailer of [LibinputSetProperty]. *)
Definition read_only_atom (props : property_atoms) (atom : Z) : bool :=
  (atom =? prop_device props) || (atom =? prop_product_id props) ||
  (atom =? prop_tap_default props) ||
  (atom =? prop_tap_drag_lock_default props) ||
  (atom =? prop_calibration_default props) ||
  (atom =? prop_accel_default props) ||
  (atom =? prop_natural_scroll_default props) ||
  (atom =? prop_sendevents_default props) ||
  (atom =? prop_left_handed_default props) ||
  (atom =? prop_scroll_method_default props) ||
  (atom =? prop_scroll_button_default props) ||
  (atom =? prop_click_method_default props) ||
  (atom =? prop_middle_emulation_default props) ||
  (atom =? prop_halfkey_default props).

(** The handler a writable atom selects, [inl rc] where the chain returns
    at once. *)
Definition select_handler (props : property_atoms) (atom : Z)
  : Z + (InputInfoRec -> Z -> XIPropertyValueRec -> bool ->
         Z * InputInfoRec * list effect) :=
  if atom =? prop_tap props then inr LibinputSetPropertyTap
  else if atom =? prop_tap_drag_lock props then inr LibinputSetPropertyTapDragLock
  else if atom =? prop_calibration props
  then inr (LibinputSetPropertyCalibration props)
  else if atom =? prop_accel props then inr (LibinputSetPropertyAccel props)
  else if atom =? prop_natural_scroll props
  then inr LibinputSetPropertyNaturalScroll
  else if atom =? prop_sendevents_available props then inl BadAccess
  else if atom =? prop_sendevents_enabled props
  then inr LibinputSetPropertySendEvents
  else if atom =? prop_left_handed props then inr LibinputSetPropertyLeftHanded
  else if atom =? prop_scroll_methods_available props then inl BadAccess
  else if atom =? prop_scroll_method_enabled props
  then inr LibinputSetPropertyScrollMethods
  else if atom =? prop_scroll_button props then inr LibinputSetPropertyScrollButton
  else if atom =? prop_click_methods_available props then inl BadAccess
  else if atom =? prop_click_method_enabled props
  then inr LibinputSetPropertyClickMethod
  else if atom =? prop_middle_emulation props
  then inr LibinputSetPropertyMiddleEmulation
  else if atom =? prop_halfkey props then inr LibinputSetPropertyHalfkey
  else if read_only_atom props atom then inl BadAccess
  else inl Success.

(** [LibinputSetProperty]: [None] only where [LibinputApplyConfig] would
    dereference a NULL device. *)
Definition LibinputSetProperty (props : property_atoms) (pInfo : InputInfoRec)
    (atom : Z) (val : XIPropertyValueRec) (checkonly : bool)
  : option (Z * InputInfoRec * list effect) :=
  match select_handler props atom with
  | inl rc => Some (rc, pInfo, [])
  | inr handler =>
      let '(rc, pInfo, out) := handler pInfo atom val checkonly in
      if negb checkonly && (rc =? Success) then
        '(pInfo, out') ← LibinputApplyConfig pInfo;
        Some (rc, pInfo, out ++ out')
      else Some (rc, pInfo, out)
  end.

(** A write request repeated [n] times in check mode, each on the state the
    previous one left. *)
Fixpoint check_repeatedly (n : nat) (props : property_atoms) (pInfo : InputInfoRec)
    (atom : Z) (val : XIPropertyValueRec)
  : option (list Z * InputInfoRec) :=
  match n with
  | O => Some ([], pInfo)
  | S n' =>
      '(rc, pInfo, _) ← LibinputSetProperty props pInfo atom val true;
      '(rcs, pInfo) ← check_repeatedly n' props pInfo atom val;
      Some (rc :: rcs, pInfo)
  end.

End Config.

(** ** A reference environment

    One concrete libinput device, option list and C library, on which the
    driver can be run: the device keeps its capabilities and its integer
    settings in two tables and accepts a setting exactly when the
    capability for it is there. *)

Record sim_device := {
  sim_caps : gmap string Z;
  sim_conf : gmap string Z;
  sim_speed : double;
  sim_matrix : list float;
  sim_buttons : list Z
}.

Definition sim_cap (d : sim_device) (k : string) : Z := default 0 (sim_caps d !! k).
Definition sim_get (d : sim_device) (k : string) : Z := default 0 (sim_conf d !! k).

Definition sim_set (ok : bool) (k : string) (v : Z) (d : sim_device)
  : Z * sim_device :=
  if ok then
    (0, {| sim_caps := sim_caps d; sim_conf := <[k := v]> (sim_conf d);
           sim_speed := sim_speed d; sim_matrix := sim_matrix d;
           sim_buttons := sim_buttons d |})
  else (1, d).

Definition sim_set_speed (d : sim_device) (v : double) : Z * sim_device :=
  if truthy (sim_cap d "accel") then
    if SFleb (double_of_int (-1)) v && SFleb v (double_of_int 1) then
      (0, {| sim_caps := sim_caps d; sim_conf := sim_conf d; sim_speed := v;
             sim_matrix := sim_matrix d; sim_buttons := sim_buttons d |})
    else (2, d)
  else (1, d).

Definition sim_set_matrix (d : sim_device) (m : list float) : Z * sim_device :=
  if truthy (sim_cap d "calibration") then
    (0, {| sim_caps := sim_caps d; sim_conf := sim_conf d;
           sim_speed := sim_speed d; sim_matrix := take 6 m;
           sim_buttons := sim_buttons d |})
  else (1, d).

Definition sim_one_of (supported v : Z) : bool :=
  (v =? 0) || negb (Z.land supported v =? 0).

#[export] Instance sim_libinput : Libinput := {|
  libinput_device := sim_device;
  libinput_device_config_send_events_get_modes d := sim_cap d "sendevents";
  libinput_device_config_send_events_get_mode d := sim_get d "sendevents";
  libinput_device_config_send_events_set_mode d v :=
    sim_set (Z.lor v (sim_cap d "sendevents") =? sim_cap d "sendevents")
            "sendevents" v d;
  libinput_device_config_scroll_has_natural_scroll d := sim_cap d "natural_scroll";
  libinput_device_config_scroll_get_natural_scroll_enabled d :=
    sim_get d "natural_scroll";
  libinput_device_config_scroll_set_natural_scroll_enabled d v :=
    sim_set (truthy (sim_cap d "natural_scroll")) "natural_scroll" v d;
  libinput_device_config_accel_is_available d := sim_cap d "accel";
  libinput_device_config_accel_get_speed d := sim_speed d;
  libinput_device_config_accel_set_speed := sim_set_speed;
  libinput_device_config_tap_get_finger_count d := sim_cap d "tap";
  libinput_device_config_tap_get_enabled d := sim_get d "tap";
  libinput_device_config_tap_set_enabled d v :=
    sim_set (0 <? sim_cap d "tap") "tap" v d;
  libinput_device_config_tap_get_drag_lock_enabled d := sim_get d "drag_lock";
  libinput_device_config_tap_set_drag_lock_enabled d v :=
    sim_set (0 <? sim_cap d "tap") "drag_lock" v d;
  libinput_device_config_calibration_has_matrix d := sim_cap d "calibration";
  libinput_device_config_calibration_get_matrix d := sim_matrix d;
  libinput_device_config_calibration_set_matrix := sim_set_matrix;
  libinput_device_config_left_handed_is_available d := sim_cap d "left_handed";
  libinput_device_config_left_handed_get d := sim_get d "left_handed";
  libinput_device_config_left_handed_set d v :=
    sim_set (truthy (sim_cap d "left_handed")) "left_handed" v d;
  libinput_device_config_scroll_get_methods d := sim_cap d "scroll";
  libinput_device_config_scroll_get_method d := sim_get d "scroll";
  libinput_device_config_scroll_set_method d v :=
    sim_set (sim_one_of (sim_cap d "scroll") v) "scroll" v d;
  libinput_device_config_scroll_get_button d := sim_get d "scroll_button";
  libinput_device_config_scroll_set_button d v :=
    sim_set (truthy (Z.land (sim_cap d "scroll")
                            LIBINPUT_CONFIG_SCROLL_ON_BUTTON_DOWN) &&
             ((v =? 0) || bool_decide (v ∈ sim_buttons d)))
            "scroll_button" v d;
  libinput_device_config_click_get_methods d := sim_cap d "click";
  libinput_device_config_click_get_method d := sim_get d "click";
  libinput_device_config_click_set_method d v :=
    sim_set (sim_one_of (sim_cap d "click") v) "click" v d;
  libinput_device_config_middle_emulation_is_available d := sim_cap d "middle";
  libinput_device_config_middle_emulation_get_default_enabled d :=
    sim_cap d "middle_default";
  libinput_device_config_middle_emulation_get_enabled d := sim_get d "middle";
  libinput_device_config_middle_emulation_set_enabled d v :=
    sim_set (truthy (sim_cap d "middle")) "middle" v d;
  libinput_device_config_halfkey_is_available d := sim_cap d "halfkey";
  libinput_device_config_halfkey_get_default_enabled d := sim_cap d "halfkey_default";
  libinput_device_config_halfkey_get_enabled d := sim_get d "halfkey";
  libinput_device_config_halfkey_set_enabled d v :=
    sim_set (truthy (sim_cap d "halfkey")) "halfkey" v d;
  libinput_device_pointer_has_button d b := if bool_decide (b ∈ sim_buttons d) then 1 else 0
|}.

(** Decimal literals: an optional sign, digits, an optional fraction. *)
Definition digit_of (c : ascii) : option Z :=
  let n := nat_of_ascii c in
  if ((48 <=? n) && (n <=? 57))%nat then Some (Z.of_nat n - 48) else None.

Definition is_space (c : ascii) : bool :=
  let n := nat_of_ascii c in ((n =? 32) || ((9 <=? n) && (n <=? 13)))%nat.

Fixpoint skip_spaces (s : string) : string :=
  match s with
  | String c s' => if is_space c then skip_spaces s' else s
  | EmptyString => s
  end.

Fixpoint read_digits (s : string) (acc : Z) (cnt : nat) : Z * nat * string :=
  match s with
  | String c s' =>
      match digit_of c with
      | Some d => read_digits s' (10 * acc + d) (S cnt)
      | None => (acc, cnt, s)
      end
  | EmptyString => (acc, cnt, s)
  end.

(** Sign, digits with the decimal point removed, number of fraction
    digits, and the rest of the string. *)
Definition scan_decimal (s : string) : option (bool * Z * nat * string) :=
  let '(neg, s) :=
    match s with
    | String "-" s' => (true, s')
    | String "+" s' => (false, s')
    | _ => (false, s)
    end in
  let '(m, n, s) := read_digits s 0 0 in
  match s with
  | String "." s' =>
      let '(m', k, s'') := read_digits s' m 0 in
      if ((n + k) =? 0)%nat then None else Some (neg, m', k, s'')
  | _ => if (n =? 0)%nat then None else Some (neg, m, 0%nat, s)
  end.

Definition decimal_value (prec emax : Z) (neg : bool) (m : Z) (k : nat) : spec_float :=
  if m =? 0 then S754_zero neg
  else SFdiv prec emax
         (binary_normalize prec emax (if neg then - m else m) 0 false)
         (binary_normalize prec emax (10 ^ Z.of_nat k) 0 false).

Fixpoint scan_floats (n : nat) (s : string) : list float :=
  match n with
  | O => []
  | S n' =>
      match scan_decimal (skip_spaces s) with
      | Some (neg, m, k, rest) => decimal_value 24 128 neg m k :: scan_floats n' rest
      | None => []
      end
  end.

#[export] Instance sim_libc : LibC := {|
  sscanf_floats := scan_floats 9;
  strtoul s :=
    match read_digits (skip_spaces s) 0 0 with
    | (_, O, _) => None
    | (v, _, rest) => Some (v, rest)
    end
|}.

Fixpoint sim_lookup (opts : list (string * string)) (name : string) : option string :=
  match opts with
  | [] => None
  | (k, v) :: rest => if String.eqb k name then Some v else sim_lookup rest name
  end.

Definition sim_bool (v : string) : option Z :=
  if (String.eqb v "1" || String.eqb v "on" || String.eqb v "true" || String.eqb v "yes")
  then Some 1
  else if (String.eqb v "0" || String.eqb v "off" || String.eqb v "false"
           || String.eqb v "no")
  then Some 0
  else None.

Definition sim_int (v : string) : option Z :=
  match scan_decimal v with
  | Some (neg, m, O, EmptyString) => Some (if neg : bool then - m else m)
  | _ => None
  end.

Definition sim_real (v : string) : option double :=
  match scan_decimal v with
  | Some (neg, m, k, EmptyString) => Some (decimal_value 53 1024 neg m k)
  | _ => None
  end.

(** The option list as name/value pairs; replacing an option puts the new
    pair in front (the driver never reads back the two it replaces). *)
#[export] Instance sim_options : XF86Option := {|
  XF86OptionPtr := list (string * string);
  xf86SetBoolOption opts name dflt := default dflt (sim_lookup opts name ≫= sim_bool);
  xf86SetIntOption opts name dflt := default dflt (sim_lookup opts name ≫= sim_int);
  xf86SetRealOption opts name dflt := default dflt (sim_lookup opts name ≫= sim_real);
  xf86SetStrOption opts name dflt :=
    match sim_lookup opts name with Some v => Some v | None => dflt end;
  xf86CheckStrOption opts name dflt :=
    match sim_lookup opts name with Some v => Some v | None => dflt end;
  xf86ReplaceIntOption opts name v := (name, pretty v) :: opts;
  xf86ReplaceStrOption opts name v := (name, v) :: opts
|}.

(** ** Specification-side definitions *)

(** The button numbering in the words of the specification: code 0 is 0,
    left, middle and right are 1, 2 and 3, and every other code is 8 plus its
    offset from the side-button base code. *)
Definition spec_button_number (c : Z) : Z :=
  if c =? 0 then 0
  else if c =? BTN_LEFT then 1
  else if c =? BTN_MIDDLE then 2
  else if c =? BTN_RIGHT then 3
  else 8 + (c - BTN_SIDE).

Definition spec_is_press (s : libinput_button_state) : bool :=
  match s with
  | LIBINPUT_BUTTON_STATE_PRESSED => true
  | LIBINPUT_BUTTON_STATE_RELEASED => false
  end.

(** The consumer button numbers and native codes the two conversions are
    meant for. *)
Definition xorg_button_domain (b : Z) : Prop :=
  b = 0 \/ b = 1 \/ b = 2 \/ b = 3 \/ 8 <= b.

Definition linux_button_domain (c : Z) : Prop :=
  c = 0 \/ c = BTN_LEFT \/ c = BTN_MIDDLE \/ c = BTN_RIGHT \/ BTN_SIDE <= c.

(** What the consumer sees of a touch call: device, identity and phase. *)
Definition touch_posts (out : list effect) : list (nat * Z * Z) :=
  flat_map (fun e =>
    match e with
    | xf86PostTouchEvent dev touchid type _ _ => [(dev, touchid, type)]
    | _ => []
    end) out.





(** How many of the first [n] items of a value are set. *)
Definition flags_set (val : XIPropertyValueRec) (n : nat) : Z :=
  fold_right (fun i acc => (if truthy (item val i) then 1 else 0) + acc) 0 (seq 0 n).

(** The bits a value selects: item [i] set selects the [i]-th flag. *)
Definition selected (val : XIPropertyValueRec) (flags : list Z) : Z :=
  fold_right (fun '(i, f) acc => if truthy (item val i) then Z.lor f acc else acc)
             0 (combine (seq 0 (length flags)) flags).

(** What is left to decide once the multi-selection check has passed: the
    device has to be there, and a selection has to be among the methods
    the device supports. *)
Definition spec_support_check {D} (device : option D) (supported : D -> Z)
    (modes : Z) : Z :=
  match device with
  | None => BadMatch
  | Some d =>
      if truthy modes && (Z.land modes (supported d) =? 0) then BadValue
      else Success
  end.

Definition rc_of {A B} (r : Z * A * B) : Z := r.1.1.








(** The options resolved at device open that depend on a capability. *)
Inductive resolved_option :=
  | O_tapping | O_tap_drag_lock | O_speed | O_natural_scrolling | O_sendevents
  | O_left_handed | O_scroll_method | O_scroll_button | O_click_method
  | O_middle_emulation | O_halfkey | O_matrix.

Inductive option_value :=
  | V_int (z : Z)
  | V_real (x : double)
  | V_matrix (m : list float).

Definition tagged {A D} (tag : A -> option_value)
    (r : A * D * list effect) : option_value * D * list effect :=
  (tag r.1.1, r.1.2, r.2).

(** The parser that resolves an option. *)
Definition resolve `{Libinput} `{XF86Option} `{LibC} (o : resolved_option)
    (pInfo : InputInfoRec) (d : libinput_device)
  : option_value * libinput_device * list effect :=
  match o with
  | O_tapping => tagged V_int (xf86libinput_parse_tap_option pInfo d)
  | O_tap_drag_lock => tagged V_int (xf86libinput_parse_tap_drag_lock_option pInfo d)
  | O_speed => tagged V_real (xf86libinput_parse_accel_option pInfo d)
  | O_natural_scrolling => tagged V_int (xf86libinput_parse_natscroll_option pInfo d)
  | O_sendevents => tagged V_int (xf86libinput_parse_sendevents_option pInfo d)
  | O_left_handed => tagged V_int (xf86libinput_parse_lefthanded_option pInfo d)
  | O_scroll_method => tagged V_int (xf86libinput_parse_scroll_option pInfo d)
  | O_scroll_button => tagged V_int (xf86libinput_parse_scrollbutton_option pInfo d)
  | O_click_method => tagged V_int (xf86libinput_parse_clickmethod_option pInfo d)
  | O_middle_emulation =>
      tagged V_int (xf86libinput_parse_middleemulation_option pInfo d)
  | O_halfkey => tagged V_int (xf86libinput_parse_halfkey_option pInfo d)
  | O_matrix => tagged V_matrix (xf86libinput_parse_calibration_option pInfo d)
  end.

(** The capability set of the device does not support the option. *)
Definition unsupported `{Libinput} (o : resolved_option) (d : libinput_device) : bool :=
  match o with
  | O_tapping | O_tap_drag_lock => libinput_device_config_tap_get_finger_count d =? 0
  | O_speed => libinput_device_config_accel_is_available d =? 0
  | O_natural_scrolling => libinput_device_config_scroll_has_natural_scroll d =? 0
  | O_sendevents => libinput_device_config_send_events_get_modes d =? 0
  | O_left_handed => libinput_device_config_left_handed_is_available d =? 0
  | O_scroll_method => libinput_device_config_scroll_get_methods d =? 0
  | O_scroll_button =>
      Z.land (libinput_device_config_scroll_get_methods d)
             LIBINPUT_CONFIG_SCROLL_ON_BUTTON_DOWN =? 0
  | O_click_method => libinput_device_config_click_get_methods d =? 0
  | O_middle_emulation => libinput_device_config_middle_emulation_is_available d =? 0
  | O_halfkey => libinput_device_config_halfkey_is_available d =? 0
  | O_matrix => libinput_device_config_calibration_has_matrix d =? 0
  end.

(** The fixed value of an unsupported option: false, speed 0.0, the zero
    of the enumeration, button 0, the identity matrix. *)
Definition disabled_value (o : resolved_option) : option_value :=
  match o with
  | O_speed => V_real (S754_zero false)
  | O_matrix => V_matrix identity_matrix
  | _ => V_int 0
  end.

(** What the device reports about its capabilities. *)
Definition capabilities `{Libinput} (d : libinput_device) : list Z :=
  [ libinput_device_config_tap_get_finger_count d;
    libinput_device_config_accel_is_available d;
    libinput_device_config_scroll_has_natural_scroll d;
    libinput_device_config_send_events_get_modes d;
    libinput_device_config_left_handed_is_available d;
    libinput_device_config_scroll_get_methods d;
    libinput_device_config_click_get_methods d;
    libinput_device_config_middle_emulation_is_available d;
    libinput_device_config_halfkey_is_available d;
    libinput_device_config_calibration_has_matrix d ].

(** A setter that leaves the answers of the capability queries alone. *)
Definition keeps_capabilities `{Libinput} {A}
    (setter : libinput_device -> A -> Z * libinput_device) : Prop :=
  forall d a, capabilities (setter d a).2 = capabilities d.

(** The capability set of a device handle is immutable: no setter the
    option parsers call changes it. *)
Definition capabilities_stable `{Libinput} : Prop :=
  keeps_capabilities libinput_device_config_tap_set_enabled /\
  keeps_capabilities libinput_device_config_tap_set_drag_lock_enabled /\
  keeps_capabilities libinput_device_config_accel_set_speed /\
  keeps_capabilities libinput_device_config_scroll_set_natural_scroll_enabled /\
  keeps_capabilities libinput_device_config_send_events_set_mode /\
  keeps_capabilities libinput_device_config_left_handed_set /\
  keeps_capabilities libinput_device_config_scroll_set_button /\
  keeps_capabilities libinput_device_config_middle_emulation_set_enabled /\
  keeps_capabilities libinput_device_config_halfkey_set_enabled /\
  keeps_capabilities libinput_device_config_calibration_set_matrix.

(** The field of [struct options] an option is resolved into. *)
Definition option_field (o : resolved_option) (opts : struct_options)
  : option_value :=
  match o with
  | O_tapping => V_int (tapping opts)
  | O_tap_drag_lock => V_int (tap_drag_lock opts)
  | O_speed => V_real (speed opts)
  | O_natural_scrolling => V_int (natural_scrolling opts)
  | O_sendevents => V_int (sendevents opts)
  | O_left_handed => V_int (left_handed opts)
  | O_scroll_method => V_int (scroll_method opts)
  | O_scroll_button => V_int (scroll_button opts)
  | O_click_method => V_int (click_method opts)
  | O_middle_emulation => V_int (middle_emulation opts)
  | O_halfkey => V_int (halfkey opts)
  | O_matrix => V_matrix (matrix opts)
  end.

(** An error message among the effects. *)
Definition error_logged (out : list effect) : Prop :=
  exists dev format, xf86IDrvMsg dev X_ERROR format ∈ out.





(** The touch identities of the specification for one device: a counter,
    the identity given at the most recent touch-down of each slot, and the
    identities of the open touches by slot.  A touch-down gives the slot
    the counter's value and opens it, a touch-up closes it, and an up or a
    motion carries the identity of the slot's most recent down, 0 when the
    slot has had none. *)
Record spec_tracker := {
  spec_next : Z;
  spec_last : gmap Z Z;
  spec_open : gmap Z Z
}.

Definition spec_identity (t : spec_tracker) (slot : Z) : Z :=
  default 0 (spec_last t !! slot).

Definition spec_touch (t : spec_tracker) (type : libinput_event_type) (slot : Z)
  : spec_tracker * list (Z * Z) :=
  match type with
  | LIBINPUT_EVENT_TOUCH_DOWN =>
      ({| spec_next := spec_next t + 1;
          spec_last := <[slot := spec_next t]> (spec_last t);
          spec_open := <[slot := spec_next t]> (spec_open t) |},
       [(spec_next t, XI_TouchBegin)])
  | LIBINPUT_EVENT_TOUCH_UP =>
      ({| spec_next := spec_next t; spec_last := spec_last t;
          spec_open := delete slot (spec_open t) |},
       [(spec_identity t slot, XI_TouchEnd)])
  | LIBINPUT_EVENT_TOUCH_MOTION => (t, [(spec_identity t slot, XI_TouchUpdate)])
  | LIBINPUT_EVENT_TOUCH_CANCEL => (t, [])
  end.

Fixpoint spec_touches (t : spec_tracker)
    (events : list (libinput_event_type * libinput_event_touch))
  : spec_tracker * list (Z * Z) :=
  match events with
  | [] => (t, [])
  | (type, e) :: rest =>
      let '(t', posts) := spec_touch t type (libinput_event_touch_get_slot e) in
      let '(t'', posts') := spec_touches t' rest in
      (t'', posts ++ posts')
  end.

(** An open touch has the identity of its slot's most recent down;
    identities of open touches are below the counter, no two the same. *)
Definition tracker_ok (t : spec_tracker) : Prop :=
  0 <= spec_next t /\
  (forall s id, spec_open t !! s = Some id ->
                spec_last t !! s = Some id /\ 0 <= id < spec_next t) /\
  (forall s1 s2 id, spec_open t !! s1 = Some id -> spec_open t !! s2 = Some id ->
                    s1 = s2).

(** The slots of the events fit the table. *)
Definition slots_in_range
    (events : list (libinput_event_type * libinput_event_touch)) : Prop :=
  Forall (fun '(type, e) =>
            0 <= libinput_event_touch_get_slot e < TOUCH_MAX_SLOTS) events.

(** The driver's statics hold what the tracker holds. *)
Definition statics_track (st : touch_statics) (t : spec_tracker) : Prop :=
  next_touchid st = spec_next t /\
  length (touchids st) = Z.to_nat TOUCH_MAX_SLOTS /\
  forall s, 0 <= s < TOUCH_MAX_SLOTS ->
            array_get (touchids st) s = Some (spec_identity t s).

(** The tracker's posts as calls naming the device. *)
Definition on_device `{Libinput} `{XF86Option} (pInfo : InputInfoRec)
    (posts : list (Z * Z)) : list (nat * Z * Z) :=
  map (fun '(id, type) => (dev pInfo, id, type)) posts.

(** The atoms of the writable properties and of the read-only ones. *)
Definition writable_atoms (props : property_atoms) : list Z :=
  [ prop_tap props; prop_tap_drag_lock props; prop_calibration props;
    prop_accel props; prop_natural_scroll props; prop_sendevents_enabled props;
    prop_left_handed props; prop_scroll_method_enabled props;
    prop_scroll_button props; prop_click_method_enabled props;
    prop_middle_emulation props; prop_halfkey props ].

Definition read_only_atoms (props : property_atoms) : list Z :=
  [ prop_sendevents_available props; prop_scroll_methods_available props;
    prop_click_methods_available props; prop_device props; prop_product_id props;
    prop_tap_default props; prop_tap_drag_lock_default props;
    prop_calibration_default props; prop_accel_default props;
    prop_natural_scroll_default props; prop_sendevents_default props;
    prop_left_handed_default props; prop_scroll_method_default props;
    prop_scroll_button_default props; prop_click_method_default props;
    prop_middle_emulation_default props; prop_halfkey_default props ].

Definition spec_key_is_press (s : libinput_key_state) : bool :=
  match s with
  | LIBINPUT_KEY_STATE_PRESSED => true
  | LIBINPUT_KEY_STATE_RELEASED => false
  end.

(** ** Fixtures on the reference environment *)

Definition sim_plain_device : sim_device :=
  {| sim_caps := ∅; sim_conf := ∅; sim_speed := S754_zero false;
     sim_matrix := [f1; f0; f0; f0; f1; f0]; sim_buttons := [] |}.

(** A tablet-like device: calibration only, identity matrix. *)
Definition sim_calibrated_device : sim_device :=
  {| sim_caps := {["calibration" := 1]}; sim_conf := ∅;
     sim_speed := S754_zero false;
     sim_matrix := [f1; f0; f0; f0; f1; f0]; sim_buttons := [] |}.

Definition sim_driver_data (d : option sim_device) : xf86libinput :=
  {| path := "/dev/input/event0"; device := d;
     scroll := {| vdist := 15; hdist := 15;
                  vdist_remainder := 0; hdist_remainder := 0 |};
     scale := {| scale_x := f0; scale_y := f0; x_remainder := f0; y_remainder := f0 |};
     has_abs := false; valuators := empty_mask;
     valuators_unaccelerated := empty_mask; options := zero_options |}.

Definition sim_pInfo (id : nat) (opts : list (string * string))
    (d : option sim_device) : InputInfoRec :=
  {| dev := id; on := true; private := sim_driver_data d; pInfo_options := opts |}.

(** A touchpad: three-finger tap, two-finger and edge scrolling, both click
    methods, natural scrolling, no scroll button, no calibration. *)
Definition sim_touchpad : sim_device :=
  {| sim_caps := {["tap" := 3; "scroll" := 3; "click" := 3; "natural_scroll" := 1;
                   "accel" := 1; "sendevents" := 3; "left_handed" := 1]};
     sim_conf := ∅; sim_speed := S754_zero false;
     sim_matrix := [f1; f0; f0; f0; f1; f0]; sim_buttons := [0x110; 0x111] |}.

(** An 8-bit integer property value with the items given. *)
Definition bool_items (items : list Z) : XIPropertyValueRec :=
  {| type := XA_INTEGER; format := 8; size := Z.of_nat (length items);
     data := items |}.

(** Distinct atoms, in the order the driver creates the properties. *)
Definition sim_atoms : property_atoms :=
  {| prop_tap := 301; prop_tap_default := 302; prop_tap_drag_lock := 303;
     prop_tap_drag_lock_default := 304; prop_calibration := 305;
     prop_calibration_default := 306; prop_accel := 307; prop_accel_default := 308;
     prop_natural_scroll := 309; prop_natural_scroll_default := 310;
     prop_sendevents_available := 311; prop_sendevents_enabled := 312;
     prop_sendevents_default := 313; prop_left_handed := 314;
     prop_left_handed_default := 315; prop_scroll_methods_available := 316;
     prop_scroll_method_enabled := 317; prop_scroll_method_default := 318;
     prop_scroll_button := 319; prop_scroll_button_default := 320;
     prop_click_methods_available := 321; prop_click_method_enabled := 322;
     prop_click_method_default := 323; prop_middle_emulation := 324;
     prop_middle_emulation_default := 325; prop_halfkey := 326;
     prop_halfkey_default := 327; prop_float := 300; prop_device := 328;
     prop_product_id := 329 |}.

Definition f_half : float := S754_finite false 8388608 (-24).
Definition f5 : float := float_of_int 5.

(** A device section with a calibration matrix. *)
Definition sim_calibration_section (text : string) : @XF86OptionPtr sim_options :=
  [("Device", "/dev/input/event0"); ("CalibrationMatrix", text)].

(** The matrix resolved on the calibrated reference device for a given
    option text. *)
Definition sim_resolved_matrix (text : string) : list float :=
  (xf86libinput_parse_calibration_option
     (sim_pInfo 100 (sim_calibration_section text) (Some sim_calibrated_device))
     sim_calibrated_device).1.1.

(** The touchpad, enabled, with the options given. *)
Definition sim_touchpad_pInfo (opts : list (string * string)) : InputInfoRec :=
  sim_pInfo 100 opts (Some sim_touchpad).


Definition key_event (code : Z) (state : libinput_key_state)
  : libinput_event_keyboard :=
  {| libinput_event_keyboard_get_key := code;
     libinput_event_keyboard_get_key_state := state |}.

Definition touch_at (slot : Z) : libinput_event_touch :=
  {| libinput_event_touch_get_slot := slot;
     libinput_event_touch_get_x_transformed := fun _ => S754_zero false;
     libinput_event_touch_get_y_transformed := fun _ => S754_zero false |}.

Definition touch_ev (d : nat) (type : libinput_event_type) (e : libinput_event_touch)
  : libinput_event :=
  {| libinput_event_get_device := d;
     libinput_event_get_payload := LIBINPUT_EVENT_TOUCH type e |}.

(** Two enabled touch devices, libinput devices 0 and 1, at process start. *)
Definition two_touchscreens : dispatch_state :=
  {| touch := touch_statics_init;
     user_data := {[ 0%nat := sim_pInfo 100 [] (Some sim_plain_device);
                     1%nat := sim_pInfo 101 [] (Some sim_plain_device) ]} |}.

Definition button_event (code : Z) (state : libinput_button_state)
  : libinput_event_pointer :=
  {| libinput_event_pointer_get_dx := S754_zero false;
     libinput_event_pointer_get_dy := S754_zero false;
     libinput_event_pointer_get_dx_unaccelerated := S754_zero false;
     libinput_event_pointer_get_dy_unaccelerated := S754_zero false;
     libinput_event_pointer_get_absolute_x_transformed := fun _ => S754_zero false;
     libinput_event_pointer_get_absolute_y_transformed := fun _ => S754_zero false;
     libinput_event_pointer_get_button := code;
     libinput_event_pointer_get_button_state := state;
     libinput_event_pointer_get_axis_source := LIBINPUT_POINTER_AXIS_SOURCE_WHEEL;
     libinput_event_pointer_has_axis := fun _ => false;
     libinput_event_pointer_get_axis_value := fun _ => S754_zero false;
     libinput_event_pointer_get_axis_value_discrete := fun _ => S754_zero false |}.

(** A vertical wheel event of [n] detents. *)
Definition wheel_event (n : Z) : libinput_event_pointer :=
  {| libinput_event_pointer_get_dx := S754_zero false;
     libinput_event_pointer_get_dy := S754_zero false;
     libinput_event_pointer_get_dx_unaccelerated := S754_zero false;
     libinput_event_pointer_get_dy_unaccelerated := S754_zero false;
     libinput_event_pointer_get_absolute_x_transformed := fun _ => S754_zero false;
     libinput_event_pointer_get_absolute_y_transformed := fun _ => S754_zero false;
     libinput_event_pointer_get_button := 0;
     libinput_event_pointer_get_button_state := LIBINPUT_BUTTON_STATE_RELEASED;
     libinput_event_pointer_get_axis_source := LIBINPUT_POINTER_AXIS_SOURCE_WHEEL;
     libinput_event_pointer_has_axis := fun a =>
       match a with LIBINPUT_POINTER_AXIS_SCROLL_VERTICAL => true | _ => false end;
     libinput_event_pointer_get_axis_value := fun _ => double_of_int 10;
     libinput_event_pointer_get_axis_value_discrete := fun _ => double_of_int n |}.

(** ** Device set-up and control

    The entry points the server reaches through [device_control], the
    descriptors the server hands over, and the properties the driver
    publishes at [DEVICE_INIT]. *)

(** <linux/input.h> *)
Definition BTN_BACK : Z := 0x116.
Definition BTN_JOYSTICK : Z := 0x120.

(** <xf86Xinput.h>, <input.h>, <X11/Xatom.h>, <X11/X.h>, <X11/extensions/XI2.h> *)
Definition XI86_SERVER_FD : Z := 0x20.
Definition DEVICE_INIT : Z := 0.
Definition DEVICE_ON : Z := 1.
Definition DEVICE_OFF : Z := 2.
Definition DEVICE_CLOSE : Z := 3.
Definition XA_STRING : Z := 31.
Definition PropModeReplace : Z := 0.
Definition XIDirectTouch : Z := 1.
Definition TRUE : Z := 1.

(** <libinput.h> *)
Definition LIBINPUT_DEVICE_CAP_KEYBOARD : Z := 0.
Definition LIBINPUT_DEVICE_CAP_POINTER : Z := 1.
Definition LIBINPUT_DEVICE_CAP_TOUCH : Z := 2.
Definition LIBINPUT_LED_NUM_LOCK : Z := 1.
Definition LIBINPUT_LED_CAPS_LOCK : Z := 2.
Definition LIBINPUT_LED_SCROLL_LOCK : Z := 4.

Definition TOUCHPAD_NUM_AXES : Z := 4.

Definition INT_MAX : Z := 2 ^ 31 - 1.
Definition INT_MIN : Z := - 2 ^ 31.

(** The rest of the libinput interface: the path context (a mutable object,
    so the calls that change it return it afterwards), the capabilities,
    the LEDs, the identifiers and the defaults of the settings.  Reference
    counts are the library's business and are not tracked. *)
Class LibinputContext `{Libinput} := {
  struct_libinput : Type;
  libinput_path_add_device :
    struct_libinput -> string -> option libinput_device * struct_libinput;
  libinput_path_remove_device : struct_libinput -> libinput_device -> struct_libinput;
  libinput_get_fd : struct_libinput -> Z;
  libinput_device_has_capability : libinput_device -> Z -> Z;
  libinput_device_led_update : libinput_device -> Z -> libinput_device;
  libinput_device_get_id_vendor : libinput_device -> Z;
  libinput_device_get_id_product : libinput_device -> Z;
  libinput_device_config_tap_get_default_enabled : libinput_device -> Z;
  (** fills [float matrix[6]] *)
  libinput_device_config_calibration_get_default_matrix : libinput_device -> list float;
  libinput_device_config_accel_get_default_speed : libinput_device -> double;
  libinput_device_config_scroll_get_default_natural_scroll_enabled :
    libinput_device -> Z;
  libinput_device_config_send_events_get_default_mode : libinput_device -> Z;
  libinput_device_config_left_handed_get_default : libinput_device -> Z;
  libinput_device_config_scroll_get_default_method : libinput_device -> Z;
  libinput_device_config_scroll_get_default_button : libinput_device -> Z;
  libinput_device_config_click_get_default_method : libinput_device -> Z
}.

(** The names the driver asks atoms for: the macros of
    <libinput-properties.h> and <xserver-properties.h>, and the literal
    [FLOAT]. *)
Inductive property_name :=
  | LIBINPUT_PROP_TAP
  | LIBINPUT_PROP_TAP_DEFAULT
  | LIBINPUT_PROP_TAP_DRAG_LOCK
  | LIBINPUT_PROP_TAP_DRAG_LOCK_DEFAULT
  | LIBINPUT_PROP_CALIBRATION
  | LIBINPUT_PROP_CALIBRATION_DEFAULT
  | LIBINPUT_PROP_ACCEL
  | LIBINPUT_PROP_ACCEL_DEFAULT
  | LIBINPUT_PROP_NATURAL_SCROLL
  | LIBINPUT_PROP_NATURAL_SCROLL_DEFAULT
  | LIBINPUT_PROP_SENDEVENTS_AVAILABLE
  | LIBINPUT_PROP_SENDEVENTS_ENABLED
  | LIBINPUT_PROP_SENDEVENTS_ENABLED_DEFAULT
  | LIBINPUT_PROP_LEFT_HANDED
  | LIBINPUT_PROP_LEFT_HANDED_DEFAULT
  | LIBINPUT_PROP_SCROLL_METHODS_AVAILABLE
  | LIBINPUT_PROP_SCROLL_METHOD_ENABLED
  | LIBINPUT_PROP_SCROLL_METHOD_ENABLED_DEFAULT
  | LIBINPUT_PROP_SCROLL_BUTTON
  | LIBINPUT_PROP_SCROLL_BUTTON_DEFAULT
  | LIBINPUT_PROP_CLICK_METHODS_AVAILABLE
  | LIBINPUT_PROP_CLICK_METHOD_ENABLED
  | LIBINPUT_PROP_CLICK_METHOD_ENABLED_DEFAULT
  | LIBINPUT_PROP_MIDDLE_EMULATION_ENABLED
  | LIBINPUT_PROP_MIDDLE_EMULATION_ENABLED_DEFAULT
  | LIBINPUT_PROP_HALFKEY_ENABLED
  | LIBINPUT_PROP_HALFKEY_ENABLED_DEFAULT
  | XI_PROP_DEVICE_NODE
  | XI_PROP_PRODUCT_ID.

Inductive known_property :=
  | BTN_LABEL_PROP_BTN_LEFT
  | BTN_LABEL_PROP_BTN_MIDDLE
  | BTN_LABEL_PROP_BTN_RIGHT
  | BTN_LABEL_PROP_BTN_WHEEL_UP
  | BTN_LABEL_PROP_BTN_WHEEL_DOWN
  | BTN_LABEL_PROP_BTN_HWHEEL_LEFT
  | BTN_LABEL_PROP_BTN_HWHEEL_RIGHT
  | BTN_LABEL_PROP_BTN_SIDE
  | BTN_LABEL_PROP_BTN_EXTRA
  | BTN_LABEL_PROP_BTN_FORWARD
  | BTN_LABEL_PROP_BTN_BACK
  | AXIS_LABEL_PROP_REL_X
  | AXIS_LABEL_PROP_REL_Y
  | AXIS_LABEL_PROP_REL_HSCROLL
  | AXIS_LABEL_PROP_REL_VSCROLL
  | AXIS_LABEL_PROP_ABS_X
  | AXIS_LABEL_PROP_ABS_Y
  | FLOAT.

(** [XkbRMLVOSet]; a NULL string is [None]. *)
Record XkbRMLVOSet := {
  rmlvo_rules : option string;
  rmlvo_model : option string;
  rmlvo_layout : option string;
  rmlvo_variant : option string;
  rmlvo_options : option string
}.

(** What the driver asks of the X server during set-up.  The status of
    [XIChangeDeviceProperty] is the server's to decide and is an input
    here. *)
Class XServer := {
  MakeAtom : property_name -> Z;
  XIGetKnownProperty : known_property -> Z;
  GetMotionHistorySize : Z;
  XkbGetRulesDflts : XkbRMLVOSet;
  XIChangeDeviceProperty_status : nat -> Z -> Z
}.

(** The items a property is created with. *)
Inductive prop_data :=
  | data_8 (items : list Z)
  | data_32 (items : list Z)
  | data_float (items : list float)
  | data_string (s : string).

Inductive ScrollType := SCROLL_TYPE_VERTICAL | SCROLL_TYPE_HORIZONTAL.

(** The calls into the X server that set-up and control make, with the
    driver's own messages in between. *)
Inductive server_call :=
  | AddEnabledDevice (fd : Z)
  | RemoveEnabledDevice (fd : Z)
  | InitKeyboardDeviceStruct (dev : nat) (rmlvo : XkbRMLVOSet)
  | InitPointerDeviceStruct (dev : nat) (map : list Z) (numButtons : Z)
      (btn_labels : list Z) (numMotionEvents : Z) (numAxes : Z)
      (axes_labels : list Z)
  | xf86InitValuatorAxisStruct (dev : nat) (axnum : Z) (label : Z)
      (minval maxval resolution min_res max_res : Z) (mode : AxisMode)
  | SetScrollValuator (dev : nat) (axnum : Z) (type : ScrollType)
      (increment : double) (flags : Z)
  | InitTouchClassDeviceStruct (dev : nat) (max_touches mode num_axes : Z)
  | XIChangeDeviceProperty (dev : nat) (property type format mode len : Z)
      (value : prop_data) (sendevent : Z)
  | XISetDevicePropertyDeletable (dev : nat) (property : Z) (deletable : Z)
  | XIRegisterPropertyHandler (dev : nat)
  | driver_message (e : effect).

(** *** Descriptors handed over by the server *)

(** [struct serverfd]; [sfd_path] is [None] for a NULL string. *)
Record serverfd := {
  sfd_fd : Z;
  sfd_path : option string
}.

(** The four list functions work on [context->server_fds] alone, which is
    what they take here.  [xorg_list_add] links the new entry directly
    behind the list head and [xorg_list_for_each_entry] walks from the head,
    so the entry pushed last is visited first. *)
Definition fd_push (server_fds : list serverfd) (fd : Z) (path : option string)
  : list serverfd :=
  {| sfd_fd := fd; sfd_path := path |} :: server_fds.

(** [strcmp] on a NULL [sfd->path] has no defined outcome ([None]). *)
Fixpoint fd_get (server_fds : list serverfd) (path : string) : option Z :=
  match server_fds with
  | [] => Some (-1)
  | sfd :: rest =>
      p ← sfd_path sfd;
      if strcmp_eq path p then Some (sfd_fd sfd) else fd_get rest path
  end.

Fixpoint fd_pop (server_fds : list serverfd) (fd : Z) : list serverfd :=
  match server_fds with
  | [] => []
  | sfd :: rest =>
      if negb (fd =? sfd_fd sfd) then sfd :: fd_pop rest fd
      else rest
  end.

Fixpoint fd_find (server_fds : list serverfd) (fd : Z) : Z :=
  match server_fds with
  | [] => -1
  | sfd :: rest => if fd =? sfd_fd sfd then fd else fd_find rest fd
  end.

(** The C library calls of the two interface callbacks. *)
Inductive syscall :=
  | open (path : string) (flags : Z)
  | close (fd : Z).

(** [open_restricted]; [sys_open] is what [open] answers, the descriptor
    (negative on failure) and [errno] afterwards, and [errno] is its value
    on entry. *)
Definition open_restricted (sys_open : string -> Z -> Z * Z) (errno : Z)
    (server_fds : list serverfd) (path : string) (flags : Z)
  : option (Z * list syscall) :=
  fd ← fd_get server_fds path;
  let '(fd, errno, calls) :=
    if fd =? -1 then
      let '(fd, errno) := sys_open path flags in (fd, errno, [open path flags])
    else (fd, errno, []) in
  Some (if fd <? 0 then - errno else fd, calls).

Definition close_restricted (server_fds : list serverfd) (fd : Z) : list syscall :=
  if fd_find server_fds fd =? -1 then [close fd] else [].

Section Control.
Context `{LibinputContext} `{XF86Option} `{XServer}.

(** *** Keyboard LEDs *)

Definition CAPSFLAG : Z := 1.
Definition NUMFLAG : Z := 2.
Definition SCROLLFLAG : Z := 4.

(** The static table [bits] of [xf86libinput_kbd_ctrl], terminator
    included. *)
Definition bits : list (Z * Z) :=
  [(CAPSFLAG, LIBINPUT_LED_CAPS_LOCK);
   (NUMFLAG, LIBINPUT_LED_NUM_LOCK);
   (SCROLLFLAG, LIBINPUT_LED_SCROLL_LOCK);
   (0, 0)].

(** The [while (bits[i].xbit)] loop from entry [i] on; running off the end
    of the table has no defined outcome. *)
Fixpoint kbd_ctrl_loop (rest : list (Z * Z)) (ctrl_leds : Z) (leds : Z) : option Z :=
  match rest with
  | [] => None
  | (xbit, code) :: rest =>
      if truthy xbit then
        let leds := if truthy (Z.land ctrl_leds xbit) then Z.lor leds code else leds in
        kbd_ctrl_loop rest ctrl_leds leds
      else Some leds
  end.

(** [xf86libinput_kbd_ctrl]: the device after the LED update; updating a
    NULL device has no defined outcome. *)
Definition xf86libinput_kbd_ctrl (pInfo : InputInfoRec) (ctrl_leds : Z)
  : option InputInfoRec :=
  let driver_data := private pInfo in
  leds ← kbd_ctrl_loop bits ctrl_leds 0;
  ldevice ← device driver_data;
  Some (set_private pInfo
          (set_device driver_data (Some (libinput_device_led_update ldevice leds)))).

(** *** Device classes *)

Definition init_button_labels (size : nat) : option (list Z) :=
  if (10 <? size)%nat then
    Some (take size
            (map XIGetKnownProperty
               [BTN_LABEL_PROP_BTN_LEFT; BTN_LABEL_PROP_BTN_MIDDLE;
                BTN_LABEL_PROP_BTN_RIGHT; BTN_LABEL_PROP_BTN_WHEEL_UP;
                BTN_LABEL_PROP_BTN_WHEEL_DOWN; BTN_LABEL_PROP_BTN_HWHEEL_LEFT;
                BTN_LABEL_PROP_BTN_HWHEEL_RIGHT; BTN_LABEL_PROP_BTN_SIDE;
                BTN_LABEL_PROP_BTN_EXTRA; BTN_LABEL_PROP_BTN_FORWARD;
                BTN_LABEL_PROP_BTN_BACK]
             ++ replicate (size - 11) 0))
  else None.

(** Writing four labels into a shorter array has no defined outcome. *)
Definition init_axis_labels (size : nat) : option (list Z) :=
  if (4 <=? size)%nat then
    Some (map XIGetKnownProperty
            [AXIS_LABEL_PROP_REL_X; AXIS_LABEL_PROP_REL_Y;
             AXIS_LABEL_PROP_REL_HSCROLL; AXIS_LABEL_PROP_REL_VSCROLL]
          ++ replicate (size - 4) 0)
  else None.

(** The loop [for (i = top; i >= BTN_SIDE; i--)] that looks for the highest
    extra button, with [k] the number of codes from [BTN_SIDE] up to [i]
    still to try, so that [i = BTN_SIDE + k - 1]. *)
Fixpoint nbuttons_loop (device : libinput_device) (k : nat) (nbuttons : Z) : Z :=
  match k with
  | O => nbuttons
  | S k' =>
      let i := BTN_SIDE + Z.of_nat k' in
      if truthy (libinput_device_pointer_has_button device i)
      then nbuttons + (i - BTN_SIDE + 1)
      else nbuttons_loop device k' nbuttons
  end.

Definition xf86libinput_init_pointer (pInfo : InputInfoRec)
  : option (Z * InputInfoRec * list server_call) :=
  let driver_data := private pInfo in
  let nbuttons := 7 in
  device ← device driver_data;
  let nbuttons :=
    nbuttons_loop device (Z.to_nat (BTN_JOYSTICK - 1 - BTN_SIDE + 1)) nbuttons in
  btnlabels ← init_button_labels (Z.to_nat MAX_BUTTONS);
  axislabels ← init_axis_labels (Z.to_nat TOUCHPAD_NUM_AXES);
  let min := -1 in
  let max := -1 in
  let res := 0 in
  Some (Success, pInfo,
        [InitPointerDeviceStruct (dev pInfo) (btnmap (options driver_data)) nbuttons
           btnlabels GetMotionHistorySize TOUCHPAD_NUM_AXES axislabels;
         xf86InitValuatorAxisStruct (dev pInfo) 0
           (XIGetKnownProperty AXIS_LABEL_PROP_REL_X)
           min max (res * 1000) 0 (res * 1000) Relative;
         xf86InitValuatorAxisStruct (dev pInfo) 1
           (XIGetKnownProperty AXIS_LABEL_PROP_REL_Y)
           min max (res * 1000) 0 (res * 1000) Relative;
         SetScrollValuator (dev pInfo) 2 SCROLL_TYPE_HORIZONTAL
           (double_of_int (hdist (scroll driver_data))) 0;
         SetScrollValuator (dev pInfo) 3 SCROLL_TYPE_VERTICAL
           (double_of_int (vdist (scroll driver_data))) 0]).

Definition set_has_abs (d : xf86libinput) (v : bool) : xf86libinput :=
  {| path := path d; device := device d; scroll := scroll d; scale := scale d;
     has_abs := v; valuators := valuators d;
     valuators_unaccelerated := valuators_unaccelerated d;
     options := options d |}.

Definition xf86libinput_init_pointer_absolute (pInfo : InputInfoRec)
  : option (Z * InputInfoRec * list server_call) :=
  let driver_data := private pInfo in
  let nbuttons := 7 in
  device ← device driver_data;
  let nbuttons :=
    nbuttons_loop device (Z.to_nat (BTN_BACK - BTN_SIDE + 1)) nbuttons in
  btnlabels ← init_button_labels (Z.to_nat MAX_BUTTONS);
  axislabels ← init_axis_labels (Z.to_nat TOUCHPAD_NUM_AXES);
  let min := 0 in
  let max := TOUCH_AXIS_MAX in
  let res := 0 in
  Some (Success, set_private pInfo (set_has_abs driver_data true),
        [InitPointerDeviceStruct (dev pInfo) (btnmap (options driver_data)) nbuttons
           btnlabels GetMotionHistorySize TOUCHPAD_NUM_AXES axislabels;
         xf86InitValuatorAxisStruct (dev pInfo) 0
           (XIGetKnownProperty AXIS_LABEL_PROP_ABS_X)
           min max (res * 1000) 0 (res * 1000) Absolute;
         xf86InitValuatorAxisStruct (dev pInfo) 1
           (XIGetKnownProperty AXIS_LABEL_PROP_ABS_Y)
           min max (res * 1000) 0 (res * 1000) Absolute;
         SetScrollValuator (dev pInfo) 2 SCROLL_TYPE_HORIZONTAL
           (double_of_int (hdist (scroll driver_data))) 0;
         SetScrollValuator (dev pInfo) 3 SCROLL_TYPE_VERTICAL
           (double_of_int (vdist (scroll driver_data))) 0]).

Definition xf86libinput_init_keyboard (pInfo : InputInfoRec) : list server_call :=
  let defaults := XkbGetRulesDflts in
  let rmlvo :=
    {| rmlvo_rules :=
         xf86SetStrOption (pInfo_options pInfo) "xkb_rules" (rmlvo_rules defaults);
       rmlvo_model :=
         xf86SetStrOption (pInfo_options pInfo) "xkb_model" (rmlvo_model defaults);
       rmlvo_layout :=
         xf86SetStrOption (pInfo_options pInfo) "xkb_layout" (rmlvo_layout defaults);
       rmlvo_variant :=
         xf86SetStrOption (pInfo_options pInfo) "xkb_variant" (rmlvo_variant defaults);
       rmlvo_options :=
         xf86SetStrOption (pInfo_options pInfo) "xkb_options" (rmlvo_options defaults)
    |} in
  [InitKeyboardDeviceStruct (dev pInfo) rmlvo].

(** The local [btnmap] that [xf86libinput_init_touch] fills is never passed
    on: the pointer class gets the button map of the options. *)
Definition xf86libinput_init_touch (pInfo : InputInfoRec)
  : option (list server_call) :=
  let driver_data := private pInfo in
  let nbuttons := 7 in
  let btnmap' := init_button_map (Z.to_nat (MAX_BUTTONS + 1)) in
  btnlabels ← init_button_labels (Z.to_nat MAX_BUTTONS);
  axislabels ← init_axis_labels (Z.to_nat TOUCHPAD_NUM_AXES);
  let min := 0 in
  let max := TOUCH_AXIS_MAX in
  let res := 0 in
  Some [InitPointerDeviceStruct (dev pInfo) (btnmap (options driver_data)) nbuttons
          btnlabels GetMotionHistorySize TOUCHPAD_NUM_AXES axislabels;
        xf86InitValuatorAxisStruct (dev pInfo) 0
          (XIGetKnownProperty AXIS_LABEL_PROP_ABS_X)
          min max (res * 1000) 0 (res * 1000) Absolute;
        xf86InitValuatorAxisStruct (dev pInfo) 1
          (XIGetKnownProperty AXIS_LABEL_PROP_ABS_Y)
          min max (res * 1000) 0 (res * 1000) Absolute;
        InitTouchClassDeviceStruct (dev pInfo) TOUCH_MAX_SLOTS XIDirectTouch 2].

(** *** Publishing the properties *)

(** [None], the atom that is no atom. *)
Definition NoAtom : Z := 0.

Definition LibinputMakeProperty (dev : nat) (prop_name : property_name)
    (type format len : Z) (data : prop_data) : Z * list server_call :=
  let prop := MakeAtom prop_name in
  let rc := XIChangeDeviceProperty_status dev prop in
  let change :=
    XIChangeDeviceProperty dev prop type format PropModeReplace len data FALSE in
  if negb (rc =? Success) then (NoAtom, [change])
  else (prop, [change; XISetDevicePropertyDeletable dev prop FALSE]).

(** Each [LibinputInit...Property] function returns what it assigns to its
    file-scope atoms, in the order it assigns them: [None] where the
    assignment is not reached and the atom keeps its value. *)
Definition LibinputInitTapProperty (dev : nat) (driver_data : xf86libinput)
    (device : libinput_device) : option Z * option Z * list server_call :=
  let tap := tapping (options driver_data) in
  if libinput_device_config_tap_get_finger_count device =? 0 then (None, None, [])
  else
    let '(prop_tap, out) :=
      LibinputMakeProperty dev LIBINPUT_PROP_TAP XA_INTEGER 8 1 (data_8 [tap]) in
    if prop_tap =? NoAtom then (Some prop_tap, None, out)
    else
      let tap := to_BOOL (libinput_device_config_tap_get_default_enabled device) in
      let '(prop_tap_default, out') :=
        LibinputMakeProperty dev LIBINPUT_PROP_TAP_DEFAULT XA_INTEGER 8 1
          (data_8 [tap]) in
      (Some prop_tap, Some prop_tap_default, out ++ out').

Definition LibinputInitTapDragLockProperty (dev : nat) (driver_data : xf86libinput)
    (device : libinput_device) : option Z * option Z * list server_call :=
  let drag_lock := tap_drag_lock (options driver_data) in
  if libinput_device_config_tap_get_finger_count device =? 0 then (None, None, [])
  else
    let '(prop_tap_drag_lock, out) :=
      LibinputMakeProperty dev LIBINPUT_PROP_TAP_DRAG_LOCK XA_INTEGER 8 1
        (data_8 [drag_lock]) in
    if prop_tap_drag_lock =? NoAtom then (Some prop_tap_drag_lock, None, out)
    else
      let drag_lock :=
        to_BOOL (libinput_device_config_tap_get_default_enabled device) in
      let '(prop_tap_drag_lock_default, out') :=
        LibinputMakeProperty dev LIBINPUT_PROP_TAP_DRAG_LOCK_DEFAULT XA_INTEGER 8 1
          (data_8 [drag_lock]) in
      (Some prop_tap_drag_lock, Some prop_tap_drag_lock_default, out ++ out').

(** [calibration] is what the local array holds on entry, and [prop_float]
    the atom [LibinputInitProperty] has just stored. *)
Definition LibinputInitCalibrationProperty (prop_float : Z) (dev : nat)
    (driver_data : xf86libinput) (device : libinput_device)
    (calibration : list float) : option Z * option Z * list server_call :=
  if negb (truthy (libinput_device_config_calibration_has_matrix device))
  then (None, None, [])
  else
    let calibration :=
      store_prefix (take 6 (libinput_device_config_calibration_get_matrix device))
                   calibration in
    let calibration := <[6%nat := float_of_int 0]> calibration in
    let calibration := <[7%nat := float_of_int 0]> calibration in
    let calibration := <[8%nat := float_of_int 1]> calibration in
    let '(prop_calibration, out) :=
      LibinputMakeProperty dev LIBINPUT_PROP_CALIBRATION prop_float 32 9
        (data_float calibration) in
    if prop_calibration =? NoAtom then (Some prop_calibration, None, out)
    else
      let calibration :=
        store_prefix
          (take 6 (libinput_device_config_calibration_get_default_matrix device))
          calibration in
      let '(prop_calibration_default, out') :=
        LibinputMakeProperty dev LIBINPUT_PROP_CALIBRATION_DEFAULT prop_float
          32 9 (data_float calibration) in
      (Some prop_calibration, Some prop_calibration_default, out ++ out').

Definition LibinputInitAccelProperty (prop_float : Z) (dev : nat)
    (driver_data : xf86libinput) (device : libinput_device)
  : option Z * option Z * list server_call :=
  let speed := speed (options driver_data) in
  if negb (truthy (libinput_device_config_accel_is_available device))
  then (None, None, [])
  else
    let '(prop_accel, out) :=
      LibinputMakeProperty dev LIBINPUT_PROP_ACCEL prop_float 32 1
        (data_float [speed]) in
    if prop_accel =? NoAtom then (Some prop_accel, None, out)
    else
      let speed :=
        float_of_double (libinput_device_config_accel_get_default_speed device) in
      let '(prop_accel_default, out') :=
        LibinputMakeProperty dev LIBINPUT_PROP_ACCEL_DEFAULT prop_float 32 1
          (data_float [speed]) in
      (Some prop_accel, Some prop_accel_default, out ++ out').

Definition LibinputInitNaturalScrollProperty (dev : nat) (driver_data : xf86libinput)
    (device : libinput_device) : option Z * option Z * list server_call :=
  let natural_scroll := natural_scrolling (options driver_data) in
  if negb (truthy (libinput_device_config_scroll_has_natural_scroll device))
  then (None, None, [])
  else
    let '(prop_natural_scroll, out) :=
      LibinputMakeProperty dev LIBINPUT_PROP_NATURAL_SCROLL XA_INTEGER 8 1
        (data_8 [natural_scroll]) in
    if prop_natural_scroll =? NoAtom then (Some prop_natural_scroll, None, out)
    else
      let natural_scroll :=
        to_BOOL
          (libinput_device_config_scroll_get_default_natural_scroll_enabled device) in
      let '(prop_natural_scroll_default, out') :=
        LibinputMakeProperty dev LIBINPUT_PROP_NATURAL_SCROLL_DEFAULT XA_INTEGER 8 1
          (data_8 [natural_scroll]) in
      (Some prop_natural_scroll, Some prop_natural_scroll_default, out ++ out').

Definition LibinputInitSendEventsProperty (dev : nat) (driver_data : xf86libinput)
    (device : libinput_device)
  : option Z * option Z * option Z * list server_call :=
  let sendevent_modes := libinput_device_config_send_events_get_modes device in
  if sendevent_modes =? LIBINPUT_CONFIG_SEND_EVENTS_ENABLED
  then (None, None, None, [])
  else
    let modes0 :=
      if truthy (Z.land sendevent_modes LIBINPUT_CONFIG_SEND_EVENTS_DISABLED)
      then TRUE else FALSE in
    let modes1 :=
      if truthy (Z.land sendevent_modes
                        LIBINPUT_CONFIG_SEND_EVENTS_DISABLED_ON_EXTERNAL_MOUSE)
      then TRUE else FALSE in
    let '(prop_sendevents_available, out) :=
      LibinputMakeProperty dev LIBINPUT_PROP_SENDEVENTS_AVAILABLE XA_INTEGER 8 2
        (data_8 [modes0; modes1]) in
    if prop_sendevents_available =? NoAtom
    then (Some prop_sendevents_available, None, None, out)
    else
      let sendevents := sendevents (options driver_data) in
      let modes0 :=
        if sendevents =? LIBINPUT_CONFIG_SEND_EVENTS_DISABLED then TRUE else FALSE in
      let modes1 :=
        if sendevents =? LIBINPUT_CONFIG_SEND_EVENTS_DISABLED_ON_EXTERNAL_MOUSE
        then TRUE else FALSE in
      let '(prop_sendevents_enabled, out') :=
        LibinputMakeProperty dev LIBINPUT_PROP_SENDEVENTS_ENABLED XA_INTEGER 8 2
          (data_8 [modes0; modes1]) in
      if prop_sendevents_enabled =? NoAtom
      then (Some prop_sendevents_available, Some prop_sendevents_enabled, None,
            out ++ out')
      else
        let sendevent_modes :=
          libinput_device_config_send_events_get_default_mode device in
        let modes0 :=
          if truthy (Z.land sendevent_modes LIBINPUT_CONFIG_SEND_EVENTS_DISABLED)
          then TRUE else FALSE in
        let modes1 :=
          if truthy (Z.land sendevent_modes
                            LIBINPUT_CONFIG_SEND_EVENTS_DISABLED_ON_EXTERNAL_MOUSE)
          then TRUE else FALSE in
        let '(prop_sendevents_default, out'') :=
          LibinputMakeProperty dev LIBINPUT_PROP_SENDEVENTS_ENABLED_DEFAULT
            XA_INTEGER 8 2 (data_8 [modes0; modes1]) in
        (Some prop_sendevents_available, Some prop_sendevents_enabled,
         Some prop_sendevents_default, out ++ out' ++ out'').

Definition LibinputInitLeftHandedProperty (dev : nat) (driver_data : xf86libinput)
    (device : libinput_device) : option Z * option Z * list server_call :=
  let left_handed := left_handed (options driver_data) in
  if negb (truthy (libinput_device_config_left_handed_is_available device))
  then (None, None, [])
  else
    let '(prop_left_handed, out) :=
      LibinputMakeProperty dev LIBINPUT_PROP_LEFT_HANDED XA_INTEGER 8 1
        (data_8 [left_handed]) in
    if prop_left_handed =? NoAtom then (Some prop_left_handed, None, out)
    else
      let left_handed :=
        to_BOOL (libinput_device_config_left_handed_get_default device) in
      let '(prop_left_handed_default, out') :=
        LibinputMakeProperty dev LIBINPUT_PROP_LEFT_HANDED_DEFAULT XA_INTEGER 8 1
          (data_8 [left_handed]) in
      (Some prop_left_handed, Some prop_left_handed_default, out ++ out').

(** The five atoms are those of the available methods, the enabled method,
    the default method, the scroll button and the default scroll button. *)
Definition LibinputInitScrollMethodsProperty (dev : nat) (driver_data : xf86libinput)
    (device : libinput_device)
  : option Z * option Z * option Z * option Z * option Z * list server_call :=
  let scroll_methods := libinput_device_config_scroll_get_methods device in
  if scroll_methods =? LIBINPUT_CONFIG_SCROLL_NO_SCROLL
  then (None, None, None, None, None, [])
  else
    let methods0 :=
      if truthy (Z.land scroll_methods LIBINPUT_CONFIG_SCROLL_2FG)
      then TRUE else FALSE in
    let methods1 :=
      if truthy (Z.land scroll_methods LIBINPUT_CONFIG_SCROLL_EDGE)
      then TRUE else FALSE in
    let methods2 :=
      if truthy (Z.land scroll_methods LIBINPUT_CONFIG_SCROLL_ON_BUTTON_DOWN)
      then TRUE else FALSE in
    let '(prop_scroll_methods_available, out) :=
      LibinputMakeProperty dev LIBINPUT_PROP_SCROLL_METHODS_AVAILABLE XA_INTEGER 8 3
        (data_8 [methods0; methods1; methods2]) in
    if prop_scroll_methods_available =? NoAtom
    then (Some prop_scroll_methods_available, None, None, None, None, out)
    else
      let method := libinput_device_config_scroll_get_method device in
      let methods0 := if method =? LIBINPUT_CONFIG_SCROLL_2FG then TRUE else FALSE in
      let methods1 := if method =? LIBINPUT_CONFIG_SCROLL_EDGE then TRUE else FALSE in
      let methods2 :=
        if method =? LIBINPUT_CONFIG_SCROLL_ON_BUTTON_DOWN then TRUE else FALSE in
      let '(prop_scroll_method_enabled, out') :=
        LibinputMakeProperty dev LIBINPUT_PROP_SCROLL_METHOD_ENABLED XA_INTEGER 8 3
          (data_8 [methods0; methods1; methods2]) in
      if prop_scroll_method_enabled =? NoAtom
      then (Some prop_scroll_methods_available, Some prop_scroll_method_enabled,
            None, None, None, out ++ out')
      else
        (* [methods] is not cleared before the defaults are added *)
        let scroll_methods := libinput_device_config_scroll_get_default_method device in
        let methods0 :=
          if truthy (Z.land scroll_methods LIBINPUT_CONFIG_SCROLL_2FG)
          then TRUE else methods0 in
        let methods1 :=
          if truthy (Z.land scroll_methods LIBINPUT_CONFIG_SCROLL_EDGE)
          then TRUE else methods1 in
        let methods2 :=
          if truthy (Z.land scroll_methods LIBINPUT_CONFIG_SCROLL_ON_BUTTON_DOWN)
          then TRUE else methods2 in
        let '(prop_scroll_method_default, out'') :=
          LibinputMakeProperty dev LIBINPUT_PROP_SCROLL_METHOD_ENABLED_DEFAULT
            XA_INTEGER 8 3 (data_8 [methods0; methods1; methods2]) in
        if truthy (Z.land (libinput_device_config_scroll_get_methods device)
                          LIBINPUT_CONFIG_SCROLL_ON_BUTTON_DOWN) then
          let scroll_button := scroll_button (options driver_data) in
          let '(prop_scroll_button, out3) :=
            LibinputMakeProperty dev LIBINPUT_PROP_SCROLL_BUTTON XA_CARDINAL 32 1
              (data_32 [scroll_button]) in
          if prop_scroll_button =? NoAtom
          then (Some prop_scroll_methods_available, Some prop_scroll_method_enabled,
                Some prop_scroll_method_default, Some prop_scroll_button, None,
                out ++ out' ++ out'' ++ out3)
          else
            let scroll_button :=
              to_uint (libinput_device_config_scroll_get_default_button device) in
            let '(prop_scroll_button_default, out4) :=
              LibinputMakeProperty dev LIBINPUT_PROP_SCROLL_BUTTON_DEFAULT
                XA_CARDINAL 32 1 (data_32 [scroll_button]) in
            (Some prop_scroll_methods_available, Some prop_scroll_method_enabled,
             Some prop_scroll_method_default, Some prop_scroll_button,
             Some prop_scroll_button_default, out ++ out' ++ out'' ++ out3 ++ out4)
        else
          (Some prop_scroll_methods_available, Some prop_scroll_method_enabled,
           Some prop_scroll_method_default, None, None, out ++ out' ++ out'').

Definition LibinputInitClickMethodsProperty (dev : nat) (driver_data : xf86libinput)
    (device : libinput_device)
  : option Z * option Z * option Z * list server_call :=
  let click_methods := libinput_device_config_click_get_methods device in
  if click_methods =? LIBINPUT_CONFIG_CLICK_METHOD_NONE
  then (None, None, None, [])
  else
    let methods0 :=
      if truthy (Z.land click_methods LIBINPUT_CONFIG_CLICK_METHOD_BUTTON_AREAS)
      then TRUE else FALSE in
    let methods1 :=
      if truthy (Z.land click_methods LIBINPUT_CONFIG_CLICK_METHOD_CLICKFINGER)
      then TRUE else FALSE in
    let '(prop_click_methods_available, out) :=
      LibinputMakeProperty dev LIBINPUT_PROP_CLICK_METHODS_AVAILABLE XA_INTEGER 8 2
        (data_8 [methods0; methods1]) in
    if prop_click_methods_available =? NoAtom
    then (Some prop_click_methods_available, None, None, out)
    else
      let method := libinput_device_config_click_get_method device in
      let methods0 :=
        if method =? LIBINPUT_CONFIG_CLICK_METHOD_BUTTON_AREAS then TRUE else FALSE in
      let methods1 :=
        if method =? LIBINPUT_CONFIG_CLICK_METHOD_CLICKFINGER then TRUE else FALSE in
      let '(prop_click_method_enabled, out') :=
        LibinputMakeProperty dev LIBINPUT_PROP_CLICK_METHOD_ENABLED XA_INTEGER 8 2
          (data_8 [methods0; methods1]) in
      if prop_click_method_enabled =? NoAtom
      then (Some prop_click_methods_available, Some prop_click_method_enabled, None,
            out ++ out')
      else
        let method := libinput_device_config_click_get_default_method device in
        let methods0 :=
          if method =? LIBINPUT_CONFIG_CLICK_METHOD_BUTTON_AREAS
          then TRUE else FALSE in
        let methods1 :=
          if method =? LIBINPUT_CONFIG_CLICK_METHOD_CLICKFINGER
          then TRUE else FALSE in
        let '(prop_click_method_default, out'') :=
          LibinputMakeProperty dev LIBINPUT_PROP_CLICK_METHOD_ENABLED_DEFAULT
            XA_INTEGER 8 2 (data_8 [methods0; methods1]) in
        (Some prop_click_methods_available, Some prop_click_method_enabled,
         Some prop_click_method_default, out ++ out' ++ out'').

Definition LibinputInitMiddleEmulationProperty (dev : nat)
    (driver_data : xf86libinput) (device : libinput_device)
  : option Z * option Z * list server_call :=
  let middle := middle_emulation (options driver_data) in
  if negb (truthy (libinput_device_config_middle_emulation_is_available device))
  then (None, None, [])
  else
    let '(prop_middle_emulation, out) :=
      LibinputMakeProperty dev LIBINPUT_PROP_MIDDLE_EMULATION_ENABLED XA_INTEGER 8 1
        (data_8 [middle]) in
    if prop_middle_emulation =? NoAtom then (Some prop_middle_emulation, None, out)
    else
      let middle :=
        to_BOOL (libinput_device_config_middle_emulation_get_default_enabled device) in
      let '(prop_middle_emulation_default, out') :=
        LibinputMakeProperty dev LIBINPUT_PROP_MIDDLE_EMULATION_ENABLED_DEFAULT
          XA_INTEGER 8 1 (data_8 [middle]) in
      (Some prop_middle_emulation, Some prop_middle_emulation_default, out ++ out').

Definition LibinputInitHalfkeyProperty (dev : nat) (driver_data : xf86libinput)
    (device : libinput_device) : option Z * option Z * list server_call :=
  let halfkey := halfkey (options driver_data) in
  if negb (truthy (libinput_device_config_halfkey_is_available device))
  then (None, None, [])
  else
    let '(prop_halfkey, out) :=
      LibinputMakeProperty dev LIBINPUT_PROP_HALFKEY_ENABLED XA_INTEGER 8 1
        (data_8 [halfkey]) in
    if prop_halfkey =? NoAtom then (Some prop_halfkey, None, out)
    else
      let halfkey :=
        to_BOOL (libinput_device_config_halfkey_get_default_enabled device) in
      let '(prop_halfkey_default, out') :=
        LibinputMakeProperty dev LIBINPUT_PROP_HALFKEY_ENABLED_DEFAULT XA_INTEGER 8 1
          (data_8 [halfkey]) in
      (Some prop_halfkey, Some prop_halfkey_default, out ++ out').

(** [LibinputInitProperty]: the atoms afterwards and the calls made;
    [calibration] is what the local array of the calibration initialiser
    holds on entry.  The libinput getters dereference the device, so a NULL
    device has no defined outcome. *)
Definition LibinputInitProperty (props : property_atoms) (pInfo : InputInfoRec)
    (calibration : list float) : option (property_atoms * list server_call) :=
  let driver_data := private pInfo in
  let d := dev pInfo in
  device ← device driver_data;
  let float_atom := XIGetKnownProperty FLOAT in
  let '(tap, tap_default, out1) := LibinputInitTapProperty d driver_data device in
  let '(drag_lock, drag_lock_default, out2) :=
    LibinputInitTapDragLockProperty d driver_data device in
  let '(calib, calib_default, out3) :=
    LibinputInitCalibrationProperty float_atom d driver_data device calibration in
  let '(accel, accel_default, out4) :=
    LibinputInitAccelProperty float_atom d driver_data device in
  let '(natural, natural_default, out5) :=
    LibinputInitNaturalScrollProperty d driver_data device in
  let '(se_available, se_enabled, se_default, out6) :=
    LibinputInitSendEventsProperty d driver_data device in
  let '(lefth, left_default, out7) :=
    LibinputInitLeftHandedProperty d driver_data device in
  let '(sm_available, sm_enabled, sm_default, button, button_default, out8) :=
    LibinputInitScrollMethodsProperty d driver_data device in
  let '(cm_available, cm_enabled, cm_default, out9) :=
    LibinputInitClickMethodsProperty d driver_data device in
  let '(middle, middle_default, out10) :=
    LibinputInitMiddleEmulationProperty d driver_data device in
  let '(half, half_default, out11) :=
    LibinputInitHalfkeyProperty d driver_data device in
  let out := out1 ++ out2 ++ out3 ++ out4 ++ out5 ++ out6 ++ out7 ++ out8 ++ out9
             ++ out10 ++ out11 in
  let atoms (device_atom : Z) (product_id : option Z) : property_atoms :=
    {| prop_tap := default (prop_tap props) tap;
       prop_tap_default := default (prop_tap_default props) tap_default;
       prop_tap_drag_lock := default (prop_tap_drag_lock props) drag_lock;
       prop_tap_drag_lock_default :=
         default (prop_tap_drag_lock_default props) drag_lock_default;
       prop_calibration := default (prop_calibration props) calib;
       prop_calibration_default :=
         default (prop_calibration_default props) calib_default;
       prop_accel := default (prop_accel props) accel;
       prop_accel_default := default (prop_accel_default props) accel_default;
       prop_natural_scroll := default (prop_natural_scroll props) natural;
       prop_natural_scroll_default :=
         default (prop_natural_scroll_default props) natural_default;
       prop_sendevents_available :=
         default (prop_sendevents_available props) se_available;
       prop_sendevents_enabled := default (prop_sendevents_enabled props) se_enabled;
       prop_sendevents_default := default (prop_sendevents_default props) se_default;
       prop_left_handed := default (prop_left_handed props) lefth;
       prop_left_handed_default :=
         default (prop_left_handed_default props) left_default;
       prop_scroll_methods_available :=
         default (prop_scroll_methods_available props) sm_available;
       prop_scroll_method_enabled :=
         default (prop_scroll_method_enabled props) sm_enabled;
       prop_scroll_method_default :=
         default (prop_scroll_method_default props) sm_default;
       prop_scroll_button := default (prop_scroll_button props) button;
       prop_scroll_button_default :=
         default (prop_scroll_button_default props) button_default;
       prop_click_methods_available :=
         default (prop_click_methods_available props) cm_available;
       prop_click_method_enabled :=
         default (prop_click_method_enabled props) cm_enabled;
       prop_click_method_default :=
         default (prop_click_method_default props) cm_default;
       prop_middle_emulation := default (prop_middle_emulation props) middle;
       prop_middle_emulation_default :=
         default (prop_middle_emulation_default props) middle_default;
       prop_halfkey := default (prop_halfkey props) half;
       prop_halfkey_default := default (prop_halfkey_default props) half_default;
       prop_float := float_atom;
       prop_device := device_atom;
       prop_product_id := default (prop_product_id props) product_id |} in
  let device_node := path driver_data in
  let device_atom := MakeAtom XI_PROP_DEVICE_NODE in
  let rc := XIChangeDeviceProperty_status d device_atom in
  let change_node :=
    XIChangeDeviceProperty d device_atom XA_STRING 8 PropModeReplace
      (Z.of_nat (String.length device_node)) (data_string device_node) FALSE in
  if negb (rc =? Success) then Some (atoms device_atom None, out ++ [change_node])
  else
    let product_id := MakeAtom XI_PROP_PRODUCT_ID in
    let product :=
      [to_uint (libinput_device_get_id_vendor device);
       to_uint (libinput_device_get_id_product device)] in
    let rc := XIChangeDeviceProperty_status d product_id in
    let change_id :=
      XIChangeDeviceProperty d product_id XA_INTEGER 32 PropModeReplace 2
        (data_32 product) FALSE in
    if negb (rc =? Success)
    then Some (atoms device_atom (Some product_id),
               out ++ [change_node; XISetDevicePropertyDeletable d device_atom FALSE;
                       change_id])
    else Some (atoms device_atom (Some product_id),
               out ++ [change_node; XISetDevicePropertyDeletable d device_atom FALSE;
                       change_id; XISetDevicePropertyDeletable d product_id FALSE]).

(** *** [DEVICE_INIT] *)

Definition set_on (pInfo : InputInfoRec) (v : bool) : InputInfoRec :=
  {| dev := dev pInfo; on := v; private := private pInfo;
     pInfo_options := pInfo_options pInfo |}.

Definition xf86libinput_init (props : property_atoms) (pInfo : InputInfoRec)
    (calibration : list float)
  : option (Z * property_atoms * InputInfoRec * list server_call) :=
  let driver_data := private pInfo in
  let pInfo := set_on pInfo false in
  device ← device driver_data;
  let out_keyboard :=
    if truthy (libinput_device_has_capability device LIBINPUT_DEVICE_CAP_KEYBOARD)
    then xf86libinput_init_keyboard pInfo else [] in
  '(pInfo, out_pointer) ←
    (if truthy (libinput_device_has_capability device LIBINPUT_DEVICE_CAP_POINTER)
     then
       if truthy (libinput_device_config_calibration_has_matrix device) &&
          negb (truthy (libinput_device_config_accel_is_available device))
       then
         '(_, pInfo, out) ← xf86libinput_init_pointer_absolute pInfo;
         Some (pInfo, out)
       else
         '(_, pInfo, out) ← xf86libinput_init_pointer pInfo;
         Some (pInfo, out)
     else Some (pInfo, []));
  out_touch ←
    (if truthy (libinput_device_has_capability device LIBINPUT_DEVICE_CAP_TOUCH)
     then xf86libinput_init_touch pInfo else Some []);
  '(pInfo, out_config) ← LibinputApplyConfig pInfo;
  '(props, out_properties) ← LibinputInitProperty props pInfo calibration;
  Some (0, props, pInfo,
        out_keyboard ++ out_pointer ++ out_touch ++ map driver_message out_config
        ++ out_properties ++ [XIRegisterPropertyHandler (dev pInfo)]).

(** *** [DEVICE_ON] and [DEVICE_OFF] *)

(** [struct xf86libinput_driver]; [libinput] is [None] for a NULL context. *)
Record xf86libinput_driver := {
  libinput : option struct_libinput;
  device_enabled_count : Z;
  server_fds : list serverfd
}.

(** An [InputInfoRec] with the two fields device control uses besides those
    of event translation, [pInfo->fd] and [pInfo->flags]. *)
Record InputInfo := {
  info : InputInfoRec;
  fd : Z;
  flags : Z
}.

Definition use_server_fd (pInfo : InputInfo) : bool :=
  (fd pInfo >? -1) && truthy (Z.land (flags pInfo) XI86_SERVER_FD).

(** [xf86libinput_on].  Adding a device to a NULL context and incrementing
    the count past [INT_MAX] have no defined outcome. *)
Definition xf86libinput_on (driver_context : xf86libinput_driver) (pInfo : InputInfo)
  : option (Z * xf86libinput_driver * InputInfo * list server_call) :=
  let driver_data := private (info pInfo) in
  let fds :=
    if use_server_fd pInfo then
      let path := xf86SetStrOption (pInfo_options (info pInfo)) "Device" None in
      fd_push (server_fds driver_context) (fd pInfo) path
    else server_fds driver_context in
  context ← libinput driver_context;
  match libinput_path_add_device context (path driver_data) with
  | (None, context) =>
      Some (if truthy Success then 0 else 1,
            {| libinput := Some context;
               device_enabled_count := device_enabled_count driver_context;
               server_fds := fds |},
            pInfo, [])
  | (Some device, context) =>
      let driver_data := set_device driver_data (Some device) in
      let fd' := libinput_get_fd context in
      let added :=
        if device_enabled_count driver_context =? 0
        then [AddEnabledDevice fd'] else [] in
      if device_enabled_count driver_context =? INT_MAX then None
      else
        '(info', out) ←
          LibinputApplyConfig (set_on (set_private (info pInfo) driver_data) true);
        Some (Success,
              {| libinput := Some context;
                 device_enabled_count := device_enabled_count driver_context + 1;
                 server_fds := fds |},
              {| info := info'; fd := fd'; flags := flags pInfo |},
              added ++ map driver_message out)
  end.

(** [xf86libinput_off].  Decrementing the count below [INT_MIN] and
    clearing the user data of a NULL device have no defined outcome. *)
Definition xf86libinput_off (driver_context : xf86libinput_driver) (pInfo : InputInfo)
  : option (Z * xf86libinput_driver * InputInfo * list server_call) :=
  let driver_data := private (info pInfo) in
  if device_enabled_count driver_context =? INT_MIN then None
  else
    let count := device_enabled_count driver_context - 1 in
    let removed := if count =? 0 then [RemoveEnabledDevice (fd pInfo)] else [] in
    let '(fds, fd') :=
      if use_server_fd pInfo
      then (fd_pop (server_fds driver_context) (fd pInfo),
            xf86SetIntOption (pInfo_options (info pInfo)) "fd" (-1))
      else (server_fds driver_context, -1) in
    device ← device driver_data;
    Some (Success,
          {| libinput :=
               (fun context => libinput_path_remove_device context device)
                 <$> libinput driver_context;
             device_enabled_count := count;
             server_fds := fds |},
          {| info := set_on (set_private (info pInfo) (set_device driver_data None))
                            false;
             fd := fd'; flags := flags pInfo |},
          removed).

(** [xf86libinput_device_control]; [xf86libinput_destroy] does nothing. *)
Definition xf86libinput_device_control (props : property_atoms)
    (driver_context : xf86libinput_driver) (pInfo : InputInfo)
    (calibration : list float) (mode : Z)
  : option (Z * property_atoms * xf86libinput_driver * InputInfo * list server_call) :=
  let rc := BadValue in
  if mode =? DEVICE_INIT then
    '(rc, props, info', out) ← xf86libinput_init props (info pInfo) calibration;
    Some (rc, props, driver_context,
          {| info := info'; fd := fd pInfo; flags := flags pInfo |}, out)
  else if mode =? DEVICE_ON then
    '(rc, driver_context, pInfo, out) ← xf86libinput_on driver_context pInfo;
    Some (rc, props, driver_context, pInfo, out)
  else if mode =? DEVICE_OFF then
    '(rc, driver_context, pInfo, out) ← xf86libinput_off driver_context pInfo;
    Some (rc, props, driver_context, pInfo, out)
  else if mode =? DEVICE_CLOSE then Some (rc, props, driver_context, pInfo, [])
  else Some (rc, props, driver_context, pInfo, []).

(** The driver's file-scope state and the devices the server knows, and the
    server sending control requests to them one after the other. *)
Record server_state := {
  atoms : property_atoms;
  driver_context : xf86libinput_driver;
  inputs : gmap nat InputInfo
}.

Definition control (calibration : list float) (s : server_state) (d : nat) (mode : Z)
  : option (Z * server_state * list server_call) :=
  pInfo ← inputs s !! d;
  '(rc, props, context, pInfo, out) ←
    xf86libinput_device_control (atoms s) (driver_context s) pInfo calibration mode;
  Some (rc,
        {| atoms := props; driver_context := context;
           inputs := <[d := pInfo]> (inputs s) |},
        out).

Fixpoint controls (calibration : list float) (s : server_state)
    (requests : list (nat * Z)) : option (server_state * list server_call) :=
  match requests with
  | [] => Some (s, [])
  | (d, mode) :: rest =>
      '(_, s, out) ← control calibration s d mode;
      '(s, out') ← controls calibration s rest;
      Some (s, out ++ out')
  end.

End Control.

(** *** The reference environment, continued

    The path context knows the device behind each node and polls on one
    descriptor; the X server hands out the atoms of [sim_atoms] and accepts
    every property. *)

Record sim_context := {
  sim_nodes : list (string * sim_device);
  sim_epoll_fd : Z
}.

Fixpoint sim_node (nodes : list (string * sim_device)) (path : string)
  : option sim_device :=
  match nodes with
  | [] => None
  | (k, d) :: rest => if String.eqb k path then Some d else sim_node rest path
  end.

#[export] Instance sim_libinput_context : LibinputContext := {|
  struct_libinput := sim_context;
  libinput_path_add_device li path := (sim_node (sim_nodes li) path, li);
  libinput_path_remove_device li d := li;
  libinput_get_fd := sim_epoll_fd;
  libinput_device_has_capability (d : @libinput_device sim_libinput) c :=
    if c =? LIBINPUT_DEVICE_CAP_KEYBOARD then sim_cap d "keyboard"
    else if c =? LIBINPUT_DEVICE_CAP_POINTER then sim_cap d "pointer"
    else if c =? LIBINPUT_DEVICE_CAP_TOUCH then sim_cap d "touch"
    else 0;
  libinput_device_led_update d leds := (sim_set true "leds" leds d).2;
  libinput_device_get_id_vendor d := sim_cap d "vendor";
  libinput_device_get_id_product d := sim_cap d "product";
  libinput_device_config_tap_get_default_enabled d := sim_cap d "tap_default";
  libinput_device_config_calibration_get_default_matrix d :=
    [f1; f0; f0; f0; f1; f0];
  libinput_device_config_accel_get_default_speed d := S754_zero false;
  libinput_device_config_scroll_get_default_natural_scroll_enabled d :=
    sim_cap d "natural_scroll_default";
  libinput_device_config_send_events_get_default_mode d :=
    sim_cap d "sendevents_default";
  libinput_device_config_left_handed_get_default d := sim_cap d "left_handed_default";
  libinput_device_config_scroll_get_default_method d := sim_cap d "scroll_default";
  libinput_device_config_scroll_get_default_button d :=
    sim_cap d "scroll_button_default";
  libinput_device_config_click_get_default_method d := sim_cap d "click_default"
|}.

Definition sim_MakeAtom (n : property_name) : Z :=
  match n with
  | LIBINPUT_PROP_TAP => 301
  | LIBINPUT_PROP_TAP_DEFAULT => 302
  | LIBINPUT_PROP_TAP_DRAG_LOCK => 303
  | LIBINPUT_PROP_TAP_DRAG_LOCK_DEFAULT => 304
  | LIBINPUT_PROP_CALIBRATION => 305
  | LIBINPUT_PROP_CALIBRATION_DEFAULT => 306
  | LIBINPUT_PROP_ACCEL => 307
  | LIBINPUT_PROP_ACCEL_DEFAULT => 308
  | LIBINPUT_PROP_NATURAL_SCROLL => 309
  | LIBINPUT_PROP_NATURAL_SCROLL_DEFAULT => 310
  | LIBINPUT_PROP_SENDEVENTS_AVAILABLE => 311
  | LIBINPUT_PROP_SENDEVENTS_ENABLED => 312
  | LIBINPUT_PROP_SENDEVENTS_ENABLED_DEFAULT => 313
  | LIBINPUT_PROP_LEFT_HANDED => 314
  | LIBINPUT_PROP_LEFT_HANDED_DEFAULT => 315
  | LIBINPUT_PROP_SCROLL_METHODS_AVAILABLE => 316
  | LIBINPUT_PROP_SCROLL_METHOD_ENABLED => 317
  | LIBINPUT_PROP_SCROLL_METHOD_ENABLED_DEFAULT => 318
  | LIBINPUT_PROP_SCROLL_BUTTON => 319
  | LIBINPUT_PROP_SCROLL_BUTTON_DEFAULT => 320
  | LIBINPUT_PROP_CLICK_METHODS_AVAILABLE => 321
  | LIBINPUT_PROP_CLICK_METHOD_ENABLED => 322
  | LIBINPUT_PROP_CLICK_METHOD_ENABLED_DEFAULT => 323
  | LIBINPUT_PROP_MIDDLE_EMULATION_ENABLED => 324
  | LIBINPUT_PROP_MIDDLE_EMULATION_ENABLED_DEFAULT => 325
  | LIBINPUT_PROP_HALFKEY_ENABLED => 326
  | LIBINPUT_PROP_HALFKEY_ENABLED_DEFAULT => 327
  | XI_PROP_DEVICE_NODE => 328
  | XI_PROP_PRODUCT_ID => 329
  end.

Definition sim_known (k : known_property) : Z :=
  match k with
  | BTN_LABEL_PROP_BTN_LEFT => 201
  | BTN_LABEL_PROP_BTN_MIDDLE => 202
  | BTN_LABEL_PROP_BTN_RIGHT => 203
  | BTN_LABEL_PROP_BTN_WHEEL_UP => 204
  | BTN_LABEL_PROP_BTN_WHEEL_DOWN => 205
  | BTN_LABEL_PROP_BTN_HWHEEL_LEFT => 206
  | BTN_LABEL_PROP_BTN_HWHEEL_RIGHT => 207
  | BTN_LABEL_PROP_BTN_SIDE => 208
  | BTN_LABEL_PROP_BTN_EXTRA => 209
  | BTN_LABEL_PROP_BTN_FORWARD => 210
  | BTN_LABEL_PROP_BTN_BACK => 211
  | AXIS_LABEL_PROP_REL_X => 212
  | AXIS_LABEL_PROP_REL_Y => 213
  | AXIS_LABEL_PROP_REL_HSCROLL => 214
  | AXIS_LABEL_PROP_REL_VSCROLL => 215
  | AXIS_LABEL_PROP_ABS_X => 216
  | AXIS_LABEL_PROP_ABS_Y => 217
  | FLOAT => 300
  end.

#[export] Instance sim_xserver : XServer := {|
  MakeAtom := sim_MakeAtom;
  XIGetKnownProperty := sim_known;
  GetMotionHistorySize := 256;
  XkbGetRulesDflts :=
    {| rmlvo_rules := Some "evdev"; rmlvo_model := Some "pc105";
       rmlvo_layout := Some "us"; rmlvo_variant := None; rmlvo_options := None |};
  XIChangeDeviceProperty_status dev prop := Success
|}.

(** ** Specification-side definitions for set-up and control *)

Definition holds_fd (fd : Z) (sfd : serverfd) : Prop := sfd_fd sfd = fd.

#[export] Instance holds_fd_dec (fd : Z) (sfd : serverfd) : Decision (holds_fd fd sfd) :=
  decide (sfd_fd sfd = fd).

Definition names_path (path : string) (sfd : serverfd) : Prop :=
  sfd_path sfd = Some path.

Definition has_path (sfd : serverfd) : Prop := is_Some (sfd_path sfd).

(** The number of buttons a pointer class is registered with. *)
Definition registered_buttons (calls : list server_call) : option Z :=
  match calls with
  | InitPointerDeviceStruct _ _ numButtons _ _ _ _ :: _ => Some numButtons
  | _ => None
  end.

(** The codes the search for the highest extra button finds: those from
    [BTN_SIDE] up to [top] that the device has. *)
Definition searched `{Libinput} (top : Z) (d : libinput_device) (c : Z) : Prop :=
  BTN_SIDE <= c <= top /\ libinput_device_pointer_has_button d c <> 0.

(** The LED mask libinput is to see for the server's LED mask: caps lock is
    bit 0 for the server and bit 1 for libinput, num lock the other way
    round, scroll lock is bit 2 for both. *)
Definition spec_leds (ctrl_leds : Z) : Z :=
  Z.b2z (Z.testbit ctrl_leds 1) * LIBINPUT_LED_NUM_LOCK +
  Z.b2z (Z.testbit ctrl_leds 0) * LIBINPUT_LED_CAPS_LOCK +
  Z.b2z (Z.testbit ctrl_leds 2) * LIBINPUT_LED_SCROLL_LOCK.

(** The devices [DEVICE_INIT] gives absolute pointer axes: pointers with a
    calibration matrix and without acceleration. *)
Definition absolute_pointer `{LibinputContext} (d : libinput_device) : bool :=
  truthy (libinput_device_has_capability d LIBINPUT_DEVICE_CAP_POINTER) &&
  truthy (libinput_device_config_calibration_has_matrix d) &&
  negb (truthy (libinput_device_config_accel_is_available d)).

(** The type and the increment a scroll valuator is registered with. *)
Fixpoint scroll_increment (calls : list server_call) (d : nat) (axnum : Z)
  : option (ScrollType * double) :=
  match calls with
  | [] => None
  | SetScrollValuator d' axnum' type increment _ :: rest =>
      if (d' =? d)%nat && (axnum' =? axnum) then Some (type, increment)
      else scroll_increment rest d axnum
  | _ :: rest => scroll_increment rest d axnum
  end.

(** The value a single posted motion event carries on a valuator. *)
Definition posted_value (out : list effect) (valuator : Z) : option double :=
  match out with
  | [xf86PostMotionEventM _ _ mask] => vm_values mask !! valuator
  | _ => None
  end.

(** The option a property stands for; the device node and the product
    identifiers stand for none. *)
Definition option_of_property (n : property_name) : option resolved_option :=
  match n with
  | LIBINPUT_PROP_TAP | LIBINPUT_PROP_TAP_DEFAULT => Some O_tapping
  | LIBINPUT_PROP_TAP_DRAG_LOCK | LIBINPUT_PROP_TAP_DRAG_LOCK_DEFAULT =>
      Some O_tap_drag_lock
  | LIBINPUT_PROP_CALIBRATION | LIBINPUT_PROP_CALIBRATION_DEFAULT => Some O_matrix
  | LIBINPUT_PROP_ACCEL | LIBINPUT_PROP_ACCEL_DEFAULT => Some O_speed
  | LIBINPUT_PROP_NATURAL_SCROLL | LIBINPUT_PROP_NATURAL_SCROLL_DEFAULT =>
      Some O_natural_scrolling
  | LIBINPUT_PROP_SENDEVENTS_AVAILABLE | LIBINPUT_PROP_SENDEVENTS_ENABLED
  | LIBINPUT_PROP_SENDEVENTS_ENABLED_DEFAULT => Some O_sendevents
  | LIBINPUT_PROP_LEFT_HANDED | LIBINPUT_PROP_LEFT_HANDED_DEFAULT => Some O_left_handed
  | LIBINPUT_PROP_SCROLL_METHODS_AVAILABLE | LIBINPUT_PROP_SCROLL_METHOD_ENABLED
  | LIBINPUT_PROP_SCROLL_METHOD_ENABLED_DEFAULT => Some O_scroll_method
  | LIBINPUT_PROP_SCROLL_BUTTON | LIBINPUT_PROP_SCROLL_BUTTON_DEFAULT =>
      Some O_scroll_button
  | LIBINPUT_PROP_CLICK_METHODS_AVAILABLE | LIBINPUT_PROP_CLICK_METHOD_ENABLED
  | LIBINPUT_PROP_CLICK_METHOD_ENABLED_DEFAULT => Some O_click_method
  | LIBINPUT_PROP_MIDDLE_EMULATION_ENABLED
  | LIBINPUT_PROP_MIDDLE_EMULATION_ENABLED_DEFAULT => Some O_middle_emulation
  | LIBINPUT_PROP_HALFKEY_ENABLED | LIBINPUT_PROP_HALFKEY_ENABLED_DEFAULT =>
      Some O_halfkey
  | XI_PROP_DEVICE_NODE | XI_PROP_PRODUCT_ID => None
  end.

(** Type, format and number of items of the property of each name, for the
    atom of [FLOAT] and the length of the device node given. *)
Definition property_format (float_atom node_length : Z) (n : property_name)
  : Z * Z * Z :=
  match n with
  | LIBINPUT_PROP_CALIBRATION | LIBINPUT_PROP_CALIBRATION_DEFAULT => (float_atom, 32, 9)
  | LIBINPUT_PROP_ACCEL | LIBINPUT_PROP_ACCEL_DEFAULT => (float_atom, 32, 1)
  | LIBINPUT_PROP_SENDEVENTS_AVAILABLE | LIBINPUT_PROP_SENDEVENTS_ENABLED
  | LIBINPUT_PROP_SENDEVENTS_ENABLED_DEFAULT => (XA_INTEGER, 8, 2)
  | LIBINPUT_PROP_SCROLL_METHODS_AVAILABLE | LIBINPUT_PROP_SCROLL_METHOD_ENABLED
  | LIBINPUT_PROP_SCROLL_METHOD_ENABLED_DEFAULT => (XA_INTEGER, 8, 3)
  | LIBINPUT_PROP_SCROLL_BUTTON | LIBINPUT_PROP_SCROLL_BUTTON_DEFAULT =>
      (XA_CARDINAL, 32, 1)
  | LIBINPUT_PROP_CLICK_METHODS_AVAILABLE | LIBINPUT_PROP_CLICK_METHOD_ENABLED
  | LIBINPUT_PROP_CLICK_METHOD_ENABLED_DEFAULT => (XA_INTEGER, 8, 2)
  | XI_PROP_DEVICE_NODE => (XA_STRING, 8, node_length)
  | XI_PROP_PRODUCT_ID => (XA_INTEGER, 32, 2)
  | _ => (XA_INTEGER, 8, 1)
  end.

(** A call that publishes the property of some name, in the format of that
    name and on a device that supports its option, or that pins a
    property. *)
Definition publishes `{LibinputContext} `{XServer} (float_atom node_length : Z)
    (d : libinput_device) (c : server_call) : Prop :=
  match c with
  | XISetDevicePropertyDeletable _ _ _ => True
  | XIChangeDeviceProperty _ prop ty fmt _ len _ _ =>
      exists n, prop = MakeAtom n /\
                (ty, fmt, len) = property_format float_atom node_length n /\
                forall o, option_of_property n = Some o -> unsupported o d = false
  | _ => False
  end.

(** The file-scope atoms with the names they are made from. *)
Definition atom_names : list ((property_atoms -> Z) * property_name) :=
  [(prop_tap, LIBINPUT_PROP_TAP);
   (prop_tap_default, LIBINPUT_PROP_TAP_DEFAULT);
   (prop_tap_drag_lock, LIBINPUT_PROP_TAP_DRAG_LOCK);
   (prop_tap_drag_lock_default, LIBINPUT_PROP_TAP_DRAG_LOCK_DEFAULT);
   (prop_calibration, LIBINPUT_PROP_CALIBRATION);
   (prop_calibration_default, LIBINPUT_PROP_CALIBRATION_DEFAULT);
   (prop_accel, LIBINPUT_PROP_ACCEL);
   (prop_accel_default, LIBINPUT_PROP_ACCEL_DEFAULT);
   (prop_natural_scroll, LIBINPUT_PROP_NATURAL_SCROLL);
   (prop_natural_scroll_default, LIBINPUT_PROP_NATURAL_SCROLL_DEFAULT);
   (prop_sendevents_available, LIBINPUT_PROP_SENDEVENTS_AVAILABLE);
   (prop_sendevents_enabled, LIBINPUT_PROP_SENDEVENTS_ENABLED);
   (prop_sendevents_default, LIBINPUT_PROP_SENDEVENTS_ENABLED_DEFAULT);
   (prop_left_handed, LIBINPUT_PROP_LEFT_HANDED);
   (prop_left_handed_default, LIBINPUT_PROP_LEFT_HANDED_DEFAULT);
   (prop_scroll_methods_available, LIBINPUT_PROP_SCROLL_METHODS_AVAILABLE);
   (prop_scroll_method_enabled, LIBINPUT_PROP_SCROLL_METHOD_ENABLED);
   (prop_scroll_method_default, LIBINPUT_PROP_SCROLL_METHOD_ENABLED_DEFAULT);
   (prop_scroll_button, LIBINPUT_PROP_SCROLL_BUTTON);
   (prop_scroll_button_default, LIBINPUT_PROP_SCROLL_BUTTON_DEFAULT);
   (prop_click_methods_available, LIBINPUT_PROP_CLICK_METHODS_AVAILABLE);
   (prop_click_method_enabled, LIBINPUT_PROP_CLICK_METHOD_ENABLED);
   (prop_click_method_default, LIBINPUT_PROP_CLICK_METHOD_ENABLED_DEFAULT);
   (prop_middle_emulation, LIBINPUT_PROP_MIDDLE_EMULATION_ENABLED);
   (prop_middle_emulation_default, LIBINPUT_PROP_MIDDLE_EMULATION_ENABLED_DEFAULT);
   (prop_halfkey, LIBINPUT_PROP_HALFKEY_ENABLED);
   (prop_halfkey_default, LIBINPUT_PROP_HALFKEY_ENABLED_DEFAULT);
   (prop_device, XI_PROP_DEVICE_NODE);
   (prop_product_id, XI_PROP_PRODUCT_ID)].

(** Every file-scope atom is unset or the atom of its own name: what holds
    when the process starts and after every [LibinputInitProperty]. *)
Definition atoms_named `{XServer} (props : property_atoms) : Prop :=
  Forall (fun fn : (property_atoms -> Z) * property_name =>
            fn.1 props = NoAtom \/ fn.1 props = MakeAtom fn.2) atom_names.

(** Atoms are never [None], and two names never share one. *)
Definition atoms_distinct `{XServer} : Prop :=
  (forall n, MakeAtom n <> NoAtom) /\
  (forall n n', MakeAtom n = MakeAtom n' -> n = n').

(** An atom a function assigns is unset or the atom of the name given. *)
Definition assigns `{XServer} (a : option Z) (n : property_name) : Prop :=
  forall v, a = Some v -> v = NoAtom \/ v = MakeAtom n.

(** How many more times the calls register a descriptor with the server's
    select loop than they withdraw one. *)
Fixpoint enabled_balance (calls : list server_call) : Z :=
  match calls with
  | [] => 0
  | AddEnabledDevice _ :: rest => 1 + enabled_balance rest
  | RemoveEnabledDevice _ :: rest => enabled_balance rest - 1
  | _ :: rest => enabled_balance rest
  end.

(** Whether the count says that some device is enabled. *)
Definition some_enabled `{LibinputContext} (c : xf86libinput_driver) : Z :=
  if 1 <=? device_enabled_count c then 1 else 0.

(** How many devices of the server are on. *)
Definition devices_on `{LibinputContext} `{XF86Option} `{XServer}
    (s : server_state) : Z :=
  Z.of_nat (base.size (filter (fun entry : nat * InputInfo => on (info entry.2) = true)
                         (inputs s))).

(** The order the server keeps: [DEVICE_INIT] and [DEVICE_ON] go to a
    device that is off, [DEVICE_OFF] to one that is on. *)
Definition request_in_order `{LibinputContext} `{XF86Option} `{XServer}
    (s : server_state) (d : nat) (mode : Z) : bool :=
  match inputs s !! d with
  | Some pInfo =>
      if (mode =? DEVICE_INIT) || (mode =? DEVICE_ON) then negb (on (info pInfo))
      else if mode =? DEVICE_OFF then on (info pInfo)
      else true
  | None => true
  end.

Fixpoint requests_in_order `{LibinputContext} `{XF86Option} `{XServer}
    (calibration : list float) (s : server_state) (requests : list (nat * Z))
  : bool :=
  match requests with
  | [] => true
  | (d, mode) :: rest =>
      request_in_order s d mode &&
      match control calibration s d mode with
      | Some (_, s', _) => requests_in_order calibration s' rest
      | None => true
      end
  end.

(** The flags of a one-flag scroll method, as the items of the property. *)
Definition scroll_method_items (m : Z) : list Z :=
  [if m =? LIBINPUT_CONFIG_SCROLL_2FG then 1 else 0;
   if m =? LIBINPUT_CONFIG_SCROLL_EDGE then 1 else 0;
   if m =? LIBINPUT_CONFIG_SCROLL_ON_BUTTON_DOWN then 1 else 0].

(** The three scroll methods with the names the option gives them and the
    number of characters compared. *)
Definition scroll_method_names : list (Z * string * nat) :=
  [(LIBINPUT_CONFIG_SCROLL_2FG, "twofinger", 9%nat);
   (LIBINPUT_CONFIG_SCROLL_EDGE, "edge", 4%nat);
   (LIBINPUT_CONFIG_SCROLL_ON_BUTTON_DOWN, "button", 6%nat)].

(** The numbers a [ButtonMapping] string names: what [strtoul] reads off it
    one after the other until the string is used up or [fuel] + 1 numbers
    are read; [None] when at some point there is no number to read or the
    number is above 32. *)
Fixpoint mapping_numbers `{LibC} (fuel : nat) (map : string) : option (list Z) :=
  match strtoul map with
  | None => None
  | Some (btn, rest) =>
      if btn >? 32 then None
      else
        match fuel with
        | O => Some [btn]
        | S fuel' =>
            if String.eqb rest "" then Some [btn]
            else btns ← mapping_numbers fuel' rest; Some (btn :: btns)
        end
  end.

(** The button map that holds the numbers given from index 1 on and is the
    identity elsewhere. *)
Definition mapped_button (btns : list Z) (i : nat) : Z :=
  match i with
  | O => 0
  | S k => default (Z.of_nat i mod 256) (btns !! k)
  end.

(** *** Devices and requests of the reference environment *)

(** Three entries: the node [event3] handed over twice, [event5] once. *)
Definition sim_server_fds : list serverfd :=
  [{| sfd_fd := 7; sfd_path := Some "/dev/input/event3" |};
   {| sfd_fd := 9; sfd_path := Some "/dev/input/event5" |};
   {| sfd_fd := 4; sfd_path := Some "/dev/input/event3" |}].

(** An [open] that fails with [ENOENT]. *)
Definition sim_open_fails (path : string) (flags : Z) : Z * Z := (-1, 2).

(** A mouse with the side and the extra button that scrolls on its middle
    button. *)
Definition sim_mouse : sim_device :=
  {| sim_caps := {["pointer" := 1; "accel" := 1; "scroll" := 4; "left_handed" := 1]};
     sim_conf := {["scroll_button" := 0x112; "scroll" := 4]};
     sim_speed := S754_zero false;
     sim_matrix := [f1; f0; f0; f0; f1; f0];
     sim_buttons := [0x110; 0x111; 0x112; 0x113; 0x114] |}.

(** A tablet: a pointer with a calibration matrix and no acceleration. *)
Definition sim_tablet : sim_device :=
  {| sim_caps := {["pointer" := 1; "calibration" := 1]}; sim_conf := ∅;
     sim_speed := S754_zero false;
     sim_matrix := [f1; f0; f0; f0; f1; f0]; sim_buttons := [0x110] |}.

(** A device as [pre_init] leaves it: off, with the device node and the
    descriptor of the server among its options. *)
Definition sim_fresh (id : nat) (d : sim_device) : InputInfoRec :=
  {| dev := id; on := false; private := sim_driver_data (Some d);
     pInfo_options := [("Device", "/dev/input/event0"); ("fd", "7")] |}.

(** The file-scope atoms when the process starts. *)
Definition sim_no_atoms : property_atoms :=
  {| prop_tap := 0; prop_tap_default := 0; prop_tap_drag_lock := 0;
     prop_tap_drag_lock_default := 0; prop_calibration := 0;
     prop_calibration_default := 0; prop_accel := 0; prop_accel_default := 0;
     prop_natural_scroll := 0; prop_natural_scroll_default := 0;
     prop_sendevents_available := 0; prop_sendevents_enabled := 0;
     prop_sendevents_default := 0; prop_left_handed := 0;
     prop_left_handed_default := 0; prop_scroll_methods_available := 0;
     prop_scroll_method_enabled := 0; prop_scroll_method_default := 0;
     prop_scroll_button := 0; prop_scroll_button_default := 0;
     prop_click_methods_available := 0; prop_click_method_enabled := 0;
     prop_click_method_default := 0; prop_middle_emulation := 0;
     prop_middle_emulation_default := 0; prop_halfkey := 0;
     prop_halfkey_default := 0; prop_float := 0; prop_device := 0;
     prop_product_id := 0 |}.

(** The driver context after the first [pre_init]: the mouse behind its
    node, libinput polling on descriptor 5, nothing enabled. *)
Definition sim_driver_context : @xf86libinput_driver sim_libinput sim_libinput_context :=
  {| libinput := Some {| sim_nodes := [("/dev/input/event0", sim_mouse)];
                         sim_epoll_fd := 5 |};
     device_enabled_count := 0;
     server_fds := [] |}.

(** The same context when the server's list already holds an entry with
    descriptor 5, the number of libinput's polling descriptor. *)
Definition sim_driver_context_older
  : @xf86libinput_driver sim_libinput sim_libinput_context :=
  {| libinput := libinput sim_driver_context;
     device_enabled_count := 0;
     server_fds := [{| sfd_fd := 5; sfd_path := Some "/dev/input/event9" |}] |}.

(** The mouse of device 100, its node opened by the server as descriptor 7. *)
Definition sim_input : InputInfo :=
  {| info := sim_fresh 100 sim_mouse; fd := 7; flags := XI86_SERVER_FD |}.

(** The server with that one device. *)
Definition sim_server : server_state :=
  {| atoms := sim_no_atoms; driver_context := sim_driver_context;
     inputs := {[ 100%nat := sim_input ]} |}.

(** What [LibinputInitProperty] publishes for the touchpad at process
    start: the atoms afterwards and the calls. *)
Definition sim_published : property_atoms * list server_call := Eval vm_compute in
  default (sim_no_atoms, [])
    (LibinputInitProperty sim_no_atoms (sim_touchpad_pInfo []) (replicate 9 f0)).


(** A pointing stick: every scroll method offered, scrolling on the middle
    button enabled, two-finger scrolling as the default. *)
Definition sim_scroller : sim_device :=
  {| sim_caps := {["pointer" := 1; "scroll" := 7; "scroll_default" := 1]};
     sim_conf := {["scroll" := 4; "scroll_button" := 0x112]};
     sim_speed := S754_zero false;
     sim_matrix := [f1; f0; f0; f0; f1; f0]; sim_buttons := [0x110; 0x111; 0x112] |}.

(** The requests of set-up and on. *)
Definition sim_session_on : list (nat * Z) :=
  [(100%nat, DEVICE_INIT); (100%nat, DEVICE_ON)].

(** The same with a second [DEVICE_ON] for the device that is already on,
    followed by one [DEVICE_OFF]. *)
Definition sim_session_repeated : list (nat * Z) :=
  [(100%nat, DEVICE_INIT); (100%nat, DEVICE_ON); (100%nat, DEVICE_ON);
   (100%nat, DEVICE_OFF)].

(** * Theorems *)

Ltac unfold_ints :=
  unfold to_int, to_uint, is_uint, UINT_MODULUS,
    BTN_LEFT, BTN_RIGHT, BTN_MIDDLE, BTN_SIDE in *;
  change (2 ^ 32) with 4294967296 in *;
  change (2 ^ 31) with 2147483648 in *.

Ltac solve_wrap := unfold_ints; Z.div_mod_to_equations; lia.

Ltac case_eqb :=
  repeat match goal with
  | |- context [?a =? ?b] => destruct (Z.eqb_spec a b)
  | _ : context [?a =? ?b] |- _ => destruct (Z.eqb_spec a b)
  end.

(** ** Button numbering *)

Lemma btn_linux2xorg_uint (b : Z) : is_uint (btn_linux2xorg b).
Proof. unfold btn_linux2xorg. case_eqb; solve_wrap. Qed.

Lemma btn_xorg2linux_uint (b : Z) : is_uint (btn_xorg2linux b).
Proof. unfold btn_xorg2linux. case_eqb; solve_wrap. Qed.

(** As an [unsigned int] the native-to-consumer conversion is the
    specification's number modulo 2^32. *)
Lemma btn_linux2xorg_spec (c : Z) :
  btn_linux2xorg c = to_uint (spec_button_number c).
Proof.
  unfold btn_linux2xorg, spec_button_number.
  case_eqb; try reflexivity. solve_wrap.
Qed.

(** Stored in the handler's [int], it is the specification's number itself. *)
Lemma btn_linux2xorg_int (c : Z) :
  0 <= c < 2 ^ 31 -> to_int (btn_linux2xorg c) = spec_button_number c.
Proof.
  intros Hc. unfold btn_linux2xorg, spec_button_number.
  case_eqb; try reflexivity. solve_wrap.
Qed.

(** C9: for every button event the native button code is mapped to the
    consumer's numbering (0 to 0, left to 1, middle to 2, right to 3, every
    other code [c] to 8 + (c - BTN_SIDE)) and posted together with the
    press/release state of the event.  Button codes are evdev codes; the
    statement covers every code below 2^31. *)
Theorem handle_button_posts_mapped_button `{Libinput} `{XF86Option}
    (pInfo : InputInfoRec) (event : libinput_event_pointer) :
  0 <= libinput_event_pointer_get_button event < 2 ^ 31 ->
  xf86libinput_handle_button pInfo event =
    (pInfo,
     [xf86PostButtonEvent (dev pInfo) Relative
        (spec_button_number (libinput_event_pointer_get_button event))
        (spec_is_press (libinput_event_pointer_get_button_state event))]).
Proof.
  intros Hc. unfold xf86libinput_handle_button.
  rewrite btn_linux2xorg_int by exact Hc. reflexivity.
Qed.

(** C10 (as amended): the two conversions are mutually inverse on their
    domains, except at the one consumer number 2^32 - 267 that the 32-bit
    wrap-around sends to native code 0. *)
Theorem btn_conversions_inverse (b c : Z) :
  is_uint b -> xorg_button_domain b -> b <> UINT_MODULUS - 267 ->
  is_uint c -> linux_button_domain c ->
  btn_linux2xorg (btn_xorg2linux b) = b /\
  btn_xorg2linux (btn_linux2xorg c) = c.
Proof.
  intros Hb Db Nb Hc Dc. split.
  - unfold xorg_button_domain in Db.
    unfold btn_linux2xorg, btn_xorg2linux.
    destruct Db as [-> | [-> | [-> | [-> | Db]]]]; try reflexivity.
    case_eqb; solve_wrap.
  - unfold linux_button_domain in Dc.
    unfold btn_linux2xorg, btn_xorg2linux.
    destruct Dc as [-> | [-> | [-> | [-> | Dc]]]]; try reflexivity.
    case_eqb; solve_wrap.
Qed.

Lemma btn_conversions_inverse_witness :
  btn_linux2xorg (btn_xorg2linux 9) = 9 /\
  btn_xorg2linux (btn_linux2xorg 0x114) = 0x114.
Proof.
  apply (btn_conversions_inverse 9 0x114).
  - unfold is_uint, UINT_MODULUS. lia.
  - unfold xorg_button_domain. lia.
  - unfold UINT_MODULUS. lia.
  - unfold is_uint, UINT_MODULUS. lia.
  - unfold linux_button_domain, BTN_SIDE. lia.
Defined.

(** The consumer number 4294967029 is at least 8, and converting it to a
    native code and back gives 0. *)
Lemma btn_conversions_inverse_fails :
  is_uint 4294967029 /\ xorg_button_domain 4294967029 /\
  btn_linux2xorg (btn_xorg2linux 4294967029) <> 4294967029.
Proof.
  split; [unfold is_uint, UINT_MODULUS; lia |].
  split; [unfold xorg_button_domain; lia |].
  vm_compute. discriminate.
Qed.

Lemma handle_button_posts_mapped_button_witness :
  xf86libinput_handle_button (sim_pInfo 100 [] None)
                             (button_event 0x114 LIBINPUT_BUTTON_STATE_PRESSED) =
    (sim_pInfo 100 [] None, [xf86PostButtonEvent 100 Relative 9 true]).
Proof.
  apply (handle_button_posts_mapped_button
           (sim_pInfo 100 [] None)
           (button_event 0x114 LIBINPUT_BUTTON_STATE_PRESSED)).
  simpl. lia.
Defined.

(** ** Touch identities *)

Section Touch.
Context `{Libinput} `{XF86Option}.

Lemma array_set_Some {A} (a : list A) (i : Z) (v : A) :
  0 <= i < Z.of_nat (length a) ->
  array_set a i v = Some (<[Z.to_nat i := v]> a).
Proof.
  intros Hi. unfold array_set.
  destruct (Z.leb_spec 0 i); [| lia].
  destruct (Z.ltb_spec i (Z.of_nat (length a))); [reflexivity | lia].
Qed.

Lemma array_get_set_eq {A} (a : list A) (i : Z) (v : A) :
  0 <= i < Z.of_nat (length a) ->
  array_get (<[Z.to_nat i := v]> a) i = Some v.
Proof.
  intros Hi. unfold array_get.
  destruct (Z.leb_spec 0 i); [| lia].
  apply list_lookup_insert_eq. lia.
Qed.

Lemma array_get_set_ne {A} (a : list A) (i j : Z) (v : A) :
  0 <= i -> 0 <= j -> i <> j ->
  array_get (<[Z.to_nat i := v]> a) j = array_get a j.
Proof.
  intros Hi Hj Hne. unfold array_get.
  destruct (Z.leb_spec 0 j); [| lia].
  apply list_lookup_insert_ne. lia.
Qed.

(** A touch-down in an in-range slot posts the counter's value, stores it
    in the slot and advances the counter. *)
Lemma handle_touch_down (st : touch_statics) (pInfo : InputInfoRec)
    (e : libinput_event_touch) :
  0 <= libinput_event_touch_get_slot e < Z.of_nat (length (touchids st)) ->
  exists pInfo' m,
    xf86libinput_handle_touch st pInfo e LIBINPUT_EVENT_TOUCH_DOWN =
      Some ({| next_touchid := to_uint (next_touchid st + 1);
               touchids := <[Z.to_nat (libinput_event_touch_get_slot e)
                              := next_touchid st]> (touchids st) |},
            pInfo', [xf86PostTouchEvent (dev pInfo) (next_touchid st) XI_TouchBegin 0 m])
    /\ dev pInfo' = dev pInfo /\ on pInfo' = on pInfo.
Proof.
  intros Hs. unfold xf86libinput_handle_touch.
  rewrite array_set_Some by exact Hs. cbn.
  rewrite array_get_set_eq by exact Hs. cbn.
  eexists _, _. split; [reflexivity | split; reflexivity].
Qed.

(** A touch-up posts whatever the slot holds and leaves the statics alone. *)
Lemma handle_touch_up (st : touch_statics) (pInfo : InputInfoRec)
    (e : libinput_event_touch) (id : Z) :
  array_get (touchids st) (libinput_event_touch_get_slot e) = Some id ->
  exists pInfo' m,
    xf86libinput_handle_touch st pInfo e LIBINPUT_EVENT_TOUCH_UP =
      Some (st, pInfo', [xf86PostTouchEvent (dev pInfo) id XI_TouchEnd 0 m])
    /\ dev pInfo' = dev pInfo /\ on pInfo' = on pInfo.
Proof.
  intros Hid. unfold xf86libinput_handle_touch. cbn.
  rewrite Hid. cbn.
  eexists _, _. split; [reflexivity | split; reflexivity].
Qed.

End Touch.

Section TouchDispatch.
Context `{Libinput} `{XF86Option}.

Lemma handle_event_touch (unaccel : bool) (st : dispatch_state) (d : nat)
    (pInfo : InputInfoRec) (type : libinput_event_type) (e : libinput_event_touch) :
  user_data st !! d = Some pInfo -> on pInfo = true ->
  xf86libinput_handle_event unaccel st (touch_ev d type e) =
    match xf86libinput_handle_touch (touch st) pInfo e type with
    | Some (t, pInfo', out) =>
        Some ({| touch := t; user_data := <[d := pInfo']> (user_data st) |}, out)
    | None => None
    end.
Proof.
  intros Hd Hon. unfold xf86libinput_handle_event. cbn.
  rewrite Hd, Hon. cbn.
  destruct (xf86libinput_handle_touch _ _ _ _) as [[[t p] out] |]; reflexivity.
Qed.

(** C5: touch-down on slot 2, touch-down on slot 5, touch-up on slot 2, all
    on one enabled device: the two downs are posted with two distinct
    identities, the second the successor of the first, and the up is posted
    with the identity of slot 2. *)
Theorem touch_scenario_two_slots (unaccel : bool) (st : dispatch_state) (d : nat)
    (pInfo : InputInfoRec) (e1 e2 e3 : libinput_event_touch) :
  user_data st !! d = Some pInfo -> on pInfo = true ->
  length (touchids (touch st)) = Z.to_nat TOUCH_MAX_SLOTS ->
  is_uint (next_touchid (touch st)) ->
  libinput_event_touch_get_slot e1 = 2 ->
  libinput_event_touch_get_slot e2 = 5 ->
  libinput_event_touch_get_slot e3 = 2 ->
  exists st' out id2 id5,
    xf86libinput_read_input unaccel st
      [touch_ev d LIBINPUT_EVENT_TOUCH_DOWN e1;
       touch_ev d LIBINPUT_EVENT_TOUCH_DOWN e2;
       touch_ev d LIBINPUT_EVENT_TOUCH_UP e3] = Some (st', out) /\
    touch_posts out = [(dev pInfo, id2, XI_TouchBegin);
                       (dev pInfo, id5, XI_TouchBegin);
                       (dev pInfo, id2, XI_TouchEnd)] /\
    id2 = next_touchid (touch st) /\
    id5 = to_uint (id2 + 1) /\
    id2 <> id5 /\
    (id2 <> UINT_MODULUS - 1 -> id2 < id5).
Proof.
  intros Hd Hon Hlen Hn S1 S2 S3.
  destruct st as [[n ids] ud]. cbn in Hd, Hlen, Hn.
  assert (Hl : Z.of_nat (length ids) = 15) by (rewrite Hlen; reflexivity).
  cbn [xf86libinput_read_input].
  (* first down *)
  rewrite (handle_event_touch unaccel _ d pInfo) by assumption.
  destruct (handle_touch_down {| next_touchid := n; touchids := ids |} pInfo e1)
    as (p1 & m1 & E1 & D1 & O1); [cbn; lia |].
  cbn [touch] in *. rewrite E1. cbn [mbind option_bind].
  (* second down *)
  rewrite (handle_event_touch unaccel _ d p1);
    [| cbn; apply lookup_insert_eq | congruence].
  cbn [touch user_data].
  match goal with |- context [xf86libinput_handle_touch ?s p1 e2 _] =>
    destruct (handle_touch_down s p1 e2) as (p2 & m2 & E2 & D2 & O2);
      [cbn; rewrite length_insert; lia | rewrite E2]
  end.
  cbn [mbind option_bind next_touchid touchids].
  (* the up *)
  rewrite (handle_event_touch unaccel _ d p2);
    [| cbn; apply lookup_insert_eq | congruence].
  cbn [touch user_data].
  match goal with |- context [xf86libinput_handle_touch ?s p2 e3 _] =>
    destruct (handle_touch_up s p2 e3 n) as (p3 & m3 & E3 & D3 & O3);
      [| rewrite E3]
  end.
  { cbn [touchids next_touchid]. rewrite S1, S2, S3.
    rewrite array_get_set_ne by lia.
    apply array_get_set_eq. lia. }
  cbn [mbind option_bind].
  eexists _, _, n, (to_uint (n + 1)).
  split; [reflexivity |].
  split; [cbn; rewrite D2, D1; reflexivity |].
  split; [reflexivity |].
  split; [reflexivity |].
  split; solve_wrap.
Qed.

End TouchDispatch.

Lemma touch_scenario_two_slots_witness :
  exists st' out id2 id5,
    xf86libinput_read_input false two_touchscreens
      [touch_ev 0 LIBINPUT_EVENT_TOUCH_DOWN (touch_at 2);
       touch_ev 0 LIBINPUT_EVENT_TOUCH_DOWN (touch_at 5);
       touch_ev 0 LIBINPUT_EVENT_TOUCH_UP (touch_at 2)] = Some (st', out) /\
    touch_posts out = [(100%nat, id2, XI_TouchBegin);
                       (100%nat, id5, XI_TouchBegin);
                       (100%nat, id2, XI_TouchEnd)] /\
    id2 = 0 /\ id5 = to_uint (id2 + 1) /\ id2 <> id5 /\
    (id2 <> UINT_MODULUS - 1 -> id2 < id5).
Proof.
  apply (touch_scenario_two_slots false two_touchscreens 0
           (sim_pInfo 100 [] (Some sim_plain_device))
           (touch_at 2) (touch_at 5) (touch_at 2));
    try reflexivity.
  unfold is_uint, UINT_MODULUS. simpl. lia.
Defined.

(** *** One device: the driver follows the specification's tracker *)

Section OneDevice.
Context `{Libinput} `{XF86Option}.

Lemma spec_touch_ok (t : spec_tracker) (type : libinput_event_type) (slot : Z) :
  tracker_ok t -> tracker_ok (spec_touch t type slot).1.
Proof.
  intros Hok. pose proof Hok as (Hn & Hlt & Hinj).
  destruct type; cbn; try exact Hok.
  - (* down: the new identity is the counter, above every open one *)
    unfold tracker_ok. cbn [spec_next spec_open spec_last].
    split; [lia |]. split.
    + intros s id Hs. destruct (decide (slot = s)) as [-> | Hne].
      * rewrite lookup_insert_eq in Hs. injection Hs as <-.
        rewrite lookup_insert_eq. split; [reflexivity | lia].
      * rewrite lookup_insert_ne in Hs by exact Hne.
        rewrite lookup_insert_ne by exact Hne.
        destruct (Hlt s id Hs). split; [assumption | lia].
    + intros s1 s2 id H1 H2.
      destruct (decide (slot = s1)) as [E1 | N1], (decide (slot = s2)) as [E2 | N2].
      * congruence.
      * subst s1. rewrite lookup_insert_eq in H1. injection H1 as <-.
        rewrite lookup_insert_ne in H2 by exact N2.
        destruct (Hlt s2 _ H2). lia.
      * subst s2. rewrite lookup_insert_eq in H2. injection H2 as <-.
        rewrite lookup_insert_ne in H1 by exact N1.
        destruct (Hlt s1 _ H1). lia.
      * rewrite lookup_insert_ne in H1 by exact N1.
        rewrite lookup_insert_ne in H2 by exact N2.
        exact (Hinj s1 s2 id H1 H2).
  - (* up: the slot is closed *)
    unfold tracker_ok. cbn [spec_next spec_open spec_last].
    split; [exact Hn |]. split.
    + intros s id Hs. apply lookup_delete_Some in Hs as [_ Hs]. exact (Hlt s id Hs).
    + intros s1 s2 id H1 H2.
      apply lookup_delete_Some in H1 as [_ H1].
      apply lookup_delete_Some in H2 as [_ H2].
      exact (Hinj s1 s2 id H1 H2).
Qed.

Lemma spec_touch_next (t : spec_tracker) (type : libinput_event_type) (slot : Z) :
  spec_next (spec_touch t type slot).1 <= spec_next t + 1.
Proof. destruct type; cbn; lia. Qed.

(** One touch event: the handler posts what the tracker posts and its
    statics go on holding what the tracker holds. *)
Lemma handle_touch_tracks (st : touch_statics) (t : spec_tracker)
    (pInfo : InputInfoRec) (type : libinput_event_type) (e : libinput_event_touch) :
  statics_track st t ->
  0 <= libinput_event_touch_get_slot e < TOUCH_MAX_SLOTS ->
  0 <= spec_next t < UINT_MODULUS - 1 ->
  let step := spec_touch t type (libinput_event_touch_get_slot e) in
  exists st' pInfo' out,
    xf86libinput_handle_touch st pInfo e type = Some (st', pInfo', out) /\
    touch_posts out = on_device pInfo step.2 /\
    statics_track st' step.1 /\
    dev pInfo' = dev pInfo /\ on pInfo' = on pInfo.
Proof.
  intros (Hnext & Hlen & Hids) Hslot Hbound step. subst step.
  assert (Hl : Z.of_nat (length (touchids st)) = TOUCH_MAX_SLOTS)
    by (rewrite Hlen; reflexivity).
  destruct type; cbn [spec_touch fst snd].
  - destruct (handle_touch_down st pInfo e) as (p & m & E & D & O); [lia |].
    eexists _, p, _. split; [exact E |].
    split; [cbn; rewrite Hnext; reflexivity |].
    split; [| split; assumption].
    split; [cbn; rewrite Hnext; solve_wrap |].
    split; [cbn; rewrite length_insert; exact Hlen |].
    cbn. intros s Hs. unfold spec_identity. cbn [spec_last].
    destruct (decide (libinput_event_touch_get_slot e = s)) as [<- | Hne].
    + rewrite lookup_insert_eq. cbn.
      rewrite Hnext. apply array_get_set_eq. lia.
    + rewrite lookup_insert_ne by exact Hne.
      rewrite array_get_set_ne; [exact (Hids s Hs) | lia | lia | exact Hne].
  - destruct (handle_touch_up st pInfo e _ (Hids _ Hslot)) as (p & m & E & D & O).
    eexists st, p, _. split; [exact E |].
    split; [reflexivity |].
    split; [| split; assumption].
    split; [exact Hnext |]. split; [exact Hlen | exact Hids].
  - unfold xf86libinput_handle_touch. cbn.
    rewrite (Hids _ Hslot). cbn.
    eexists st, _, _. split; [reflexivity |].
    split; [reflexivity |].
    split; [| split; reflexivity].
    split; [exact Hnext |]. split; [exact Hlen | exact Hids].
  - exists st, pInfo, []. split; [reflexivity |].
    split; [reflexivity |].
    split; [| split; reflexivity].
    split; [exact Hnext |]. split; [exact Hlen | exact Hids].
Qed.

Lemma touch_posts_app (out out' : list effect) :
  touch_posts (out ++ out') = touch_posts out ++ touch_posts out'.
Proof. unfold touch_posts. apply flat_map_app. Qed.

(** X1: every sequence of touch events of one enabled device, with slots
    inside the table and the counter short of its maximum: event dispatch
    returns and posts the identities of the specification's tracker, in
    which a down gets the next counter value, a motion or an up carries
    the identity given at the most recent down of its slot (0 when the
    slot has had none), and no two open touches share an identity. *)
Theorem one_device_touch_identities (unaccel : bool) (d : nat)
    (events : list (libinput_event_type * libinput_event_touch)) :
  forall (st : dispatch_state) (t : spec_tracker) (pInfo : InputInfoRec),
  user_data st !! d = Some pInfo -> on pInfo = true ->
  statics_track (touch st) t -> tracker_ok t ->
  slots_in_range events ->
  spec_next t + Z.of_nat (length events) < UINT_MODULUS ->
  exists st' out,
    xf86libinput_read_input unaccel st
      (map (fun '(type, e) => touch_ev d type e) events) = Some (st', out) /\
    touch_posts out = on_device pInfo (spec_touches t events).2 /\
    statics_track (touch st') (spec_touches t events).1 /\
    tracker_ok (spec_touches t events).1.
Proof.
  induction events as [| [type e] rest IH];
    intros st t pInfo Hd Hon Htrack Hok Hslots Hbound.
  - exists st, []. split; [reflexivity |]. split; [reflexivity |].
    split; assumption.
  - apply Forall_cons in Hslots as [Hslot Hslots].
    cbn [length] in Hbound.
    destruct (handle_touch_tracks (touch st) t pInfo type e)
      as (ts1 & p1 & out1 & E1 & P1 & T1 & D1 & O1);
      [exact Htrack | exact Hslot | destruct Hok; lia |].
    pose proof (spec_touch_ok t type (libinput_event_touch_get_slot e) Hok) as Hok1.
    pose proof (spec_touch_next t type (libinput_event_touch_get_slot e)) as Hnext1.
    cbn [spec_touches].
    destruct (spec_touch t type (libinput_event_touch_get_slot e)) as [t1 posts1].
    cbn [fst snd] in *.
    cbn [map xf86libinput_read_input].
    rewrite (handle_event_touch unaccel st d pInfo) by assumption.
    rewrite E1. cbn [mbind option_bind].
    destruct (IH {| touch := ts1; user_data := <[d := p1]> (user_data st) |} t1 p1)
      as (st' & out2 & E2 & P2 & T2 & Hok2);
      [cbn; apply lookup_insert_eq | congruence | exact T1 | exact Hok1
      | exact Hslots | lia |].
    destruct (spec_touches t1 rest) as [t2 posts2]. cbn [fst snd] in *.
    rewrite E2. cbn [mbind option_bind].
    exists st', (out1 ++ out2). split; [reflexivity |].
    split; [| split; assumption].
    rewrite touch_posts_app, P1, P2. unfold on_device.
    rewrite D1, map_app. reflexivity.
Qed.

End OneDevice.

(** A finger in slot 2, one in slot 5 that moves, the first lifted and put
    down again, and an up in slot 7 that never had a down. *)
Lemma one_device_touch_identities_witness :
  exists st' out,
    xf86libinput_read_input false two_touchscreens
      [touch_ev 0 LIBINPUT_EVENT_TOUCH_DOWN (touch_at 2);
       touch_ev 0 LIBINPUT_EVENT_TOUCH_DOWN (touch_at 5);
       touch_ev 0 LIBINPUT_EVENT_TOUCH_MOTION (touch_at 5);
       touch_ev 0 LIBINPUT_EVENT_TOUCH_UP (touch_at 2);
       touch_ev 0 LIBINPUT_EVENT_TOUCH_DOWN (touch_at 2);
       touch_ev 0 LIBINPUT_EVENT_TOUCH_UP (touch_at 7)] = Some (st', out) /\
    touch_posts out =
      [(100%nat, 0, XI_TouchBegin); (100%nat, 1, XI_TouchBegin);
       (100%nat, 1, XI_TouchUpdate); (100%nat, 0, XI_TouchEnd);
       (100%nat, 2, XI_TouchBegin); (100%nat, 0, XI_TouchEnd)].
Proof.
  destruct (one_device_touch_identities false 0
              [(LIBINPUT_EVENT_TOUCH_DOWN, touch_at 2);
               (LIBINPUT_EVENT_TOUCH_DOWN, touch_at 5);
               (LIBINPUT_EVENT_TOUCH_MOTION, touch_at 5);
               (LIBINPUT_EVENT_TOUCH_UP, touch_at 2);
               (LIBINPUT_EVENT_TOUCH_DOWN, touch_at 2);
               (LIBINPUT_EVENT_TOUCH_UP, touch_at 7)]
              two_touchscreens
              {| spec_next := 0; spec_last := ∅; spec_open := ∅ |}
              (sim_pInfo 100 [] (Some sim_plain_device)))
    as (st' & out & Hrun & Hposts & _).
  - reflexivity.
  - reflexivity.
  - split; [reflexivity |]. split; [reflexivity |].
    intros s Hs. unfold spec_identity. cbn [spec_last]. rewrite lookup_empty.
    unfold TOUCH_MAX_SLOTS in Hs.
    assert (Hcases : s = 0 \/ s = 1 \/ s = 2 \/ s = 3 \/ s = 4 \/ s = 5 \/ s = 6 \/
                     s = 7 \/ s = 8 \/ s = 9 \/ s = 10 \/ s = 11 \/ s = 12 \/
                     s = 13 \/ s = 14) by lia.
    repeat (destruct Hcases as [-> | Hcases]; [reflexivity |]). subst s. reflexivity.
  - split; [cbn; lia |]. split.
    + intros s id Hs. cbn [spec_open] in Hs. rewrite lookup_empty in Hs.
      discriminate.
    + intros s1 s2 id Hs. cbn [spec_open] in Hs. rewrite lookup_empty in Hs.
      discriminate.
  - unfold slots_in_range, TOUCH_MAX_SLOTS. repeat constructor; cbn; lia.
  - unfold UINT_MODULUS. cbn. lia.
  - exists st', out. split; [exact Hrun | exact Hposts].
Defined.

(** C1 (the code at the failing input): two enabled touch devices share the
    one slot table.  Device 100 puts a finger down in slot 0, device 101
    puts a finger down in slot 0, device 100 lifts its finger: the up event
    of device 100 is posted with identity 1, the identity of the touch that
    is still open on device 101, and not with the identity 0 that the down
    on device 100 was given. *)
Theorem touch_up_after_other_device_down :
  let run :=
    xf86libinput_read_input false two_touchscreens
      [touch_ev 0 LIBINPUT_EVENT_TOUCH_DOWN (touch_at 0);
       touch_ev 1 LIBINPUT_EVENT_TOUCH_DOWN (touch_at 0);
       touch_ev 0 LIBINPUT_EVENT_TOUCH_UP (touch_at 0)] in
  (touch_posts <$> (snd <$> run)) =
    Some [(100%nat, 0, XI_TouchBegin);
          (101%nat, 1, XI_TouchBegin);
          (100%nat, 1, XI_TouchEnd)] /\
  (next_touchid <$> (touch <$> (fst <$> run))) = Some 2.
Proof. split; vm_compute; reflexivity. Qed.

(** ** Scrolling *)










Section Axis.
Context `{Libinput} `{XF86Option} `{LibC}.



End Axis.


(** ** Property writes in check mode *)

Section CheckOnly.
Context `{Libinput} `{XF86Option}.

(** Split on every test and on the outcome of the device check. *)
Ltac split_checks :=
  repeat match goal with
  | |- context [xf86libinput_check_device ?p ?a] =>
      destruct (xf86libinput_check_device p a) as [[?|] ?]
  | |- context [if ?b then _ else _] => destruct b eqn:?
  end.

Lemma select_handler_keeps_state (props : property_atoms) (atom : Z) handler :
  select_handler props atom = inr handler ->
  forall pInfo a val, (handler pInfo a val true).1.2 = pInfo.
Proof.
  unfold select_handler.
  repeat match goal with
  | |- context [if ?b then _ else _] => destruct b
  end;
  intros E; try discriminate E; injection E as <-;
  intros pInfo a val;
  [ unfold LibinputSetPropertyTap
  | unfold LibinputSetPropertyTapDragLock
  | unfold LibinputSetPropertyCalibration
  | unfold LibinputSetPropertyAccel
  | unfold LibinputSetPropertyNaturalScroll
  | unfold LibinputSetPropertySendEvents
  | unfold LibinputSetPropertyLeftHanded
  | unfold LibinputSetPropertyScrollMethods
  | unfold LibinputSetPropertyScrollButton
  | unfold LibinputSetPropertyClickMethod
  | unfold LibinputSetPropertyMiddleEmulation
  | unfold LibinputSetPropertyHalfkey ];
  cbv zeta; split_checks; reflexivity.
Qed.

Lemma check_only_returns (props : property_atoms) (pInfo : InputInfoRec)
    (atom : Z) (val : XIPropertyValueRec) :
  exists rc out,
    LibinputSetProperty props pInfo atom val true = Some (rc, pInfo, out).
Proof.
  unfold LibinputSetProperty.
  destruct (select_handler props atom) as [rc | handler] eqn:Hsel.
  - eexists _, _. reflexivity.
  - pose proof (select_handler_keeps_state props atom handler Hsel pInfo atom val)
      as Hk.
    destruct (handler pInfo atom val true) as [[rc p] out]. cbn in Hk. subst p.
    cbn. eexists _, _. reflexivity.
Qed.

(** C3: a property write request in check mode returns its accept/reject
    code and leaves the driver data of the device, and with it every field
    of the option set, as it was; repeated any number of times it keeps
    returning that code and still changes nothing. *)
Theorem check_only_leaves_options (props : property_atoms) (pInfo : InputInfoRec)
    (atom : Z) (val : XIPropertyValueRec) :
  exists rc pInfo' out,
    LibinputSetProperty props pInfo atom val true = Some (rc, pInfo', out) /\
    options (private pInfo') = options (private pInfo) /\
    pInfo' = pInfo /\
    forall n : nat,
      exists pInfo_n,
        check_repeatedly n props pInfo atom val = Some (replicate n rc, pInfo_n) /\
        options (private pInfo_n) = options (private pInfo).
Proof.
  destruct (check_only_returns props pInfo atom val) as (rc & out & E).
  exists rc, pInfo, out. split; [exact E |]. split; [reflexivity |].
  split; [reflexivity |].
  intros n. exists pInfo. split; [| reflexivity].
  induction n as [| n IH]; [reflexivity |].
  cbn [check_repeatedly]. rewrite E. cbn. rewrite IH. reflexivity.
Qed.

End CheckOnly.

(** ** Multi-choice properties *)

Section MultiChoice.
Context `{Libinput} `{XF86Option}.

Ltac three_flags val :=
  destruct (truthy (item val 0)), (truthy (item val 1)), (truthy (item val 2)).

Lemma scroll_methods_check (pInfo : InputInfoRec) (atom : Z)
    (val : XIPropertyValueRec) :
  bad_format val 8 3 XA_INTEGER = false ->
  rc_of (LibinputSetPropertyScrollMethods pInfo atom val true) =
    if 1 <? flags_set val 3 then BadValue
    else spec_support_check (device (private pInfo))
           libinput_device_config_scroll_get_methods
           (selected val [LIBINPUT_CONFIG_SCROLL_2FG; LIBINPUT_CONFIG_SCROLL_EDGE;
                          LIBINPUT_CONFIG_SCROLL_ON_BUTTON_DOWN]).
Proof.
  intros Hfmt.
  unfold LibinputSetPropertyScrollMethods, rc_of, flags_set, selected,
    spec_support_check, xf86libinput_check_device.
  rewrite Hfmt. cbn [fold_right seq combine length].
  three_flags val; vm_compute (popcount _); cbn;
    destruct (device (private pInfo)) as [d |]; cbn; try reflexivity;
    destruct (_ =? 0); reflexivity.
Qed.

Lemma click_method_check (pInfo : InputInfoRec) (atom : Z)
    (val : XIPropertyValueRec) :
  bad_format val 8 2 XA_INTEGER = false ->
  rc_of (LibinputSetPropertyClickMethod pInfo atom val true) =
    if 1 <? flags_set val 2 then BadValue
    else spec_support_check (device (private pInfo))
           libinput_device_config_click_get_methods
           (selected val [LIBINPUT_CONFIG_CLICK_METHOD_BUTTON_AREAS;
                          LIBINPUT_CONFIG_CLICK_METHOD_CLICKFINGER]).
Proof.
  intros Hfmt.
  unfold LibinputSetPropertyClickMethod, rc_of, flags_set, selected,
    spec_support_check, xf86libinput_check_device.
  rewrite Hfmt. cbn [fold_right seq combine length].
  destruct (truthy (item val 0)), (truthy (item val 1));
    vm_compute (popcount _); cbn;
    destruct (device (private pInfo)) as [d |]; cbn; try reflexivity;
    destruct (_ =? 0); reflexivity.
Qed.

(** C7: a check-mode write to the scroll-method or the click-method
    property with more than one flag set is rejected with [BadValue]; with
    no flag or one flag set it passes that check, and what is returned is
    decided by the support check alone: the device has to be there and a
    selected method has to be one the device supports. *)
Theorem multi_choice_at_most_one_flag (pInfo : InputInfoRec) (atom : Z)
    (val : XIPropertyValueRec) :
  (bad_format val 8 3 XA_INTEGER = false ->
   (1 < flags_set val 3 ->
    rc_of (LibinputSetPropertyScrollMethods pInfo atom val true) = BadValue) /\
   (flags_set val 3 <= 1 ->
    rc_of (LibinputSetPropertyScrollMethods pInfo atom val true) =
      spec_support_check (device (private pInfo))
        libinput_device_config_scroll_get_methods
        (selected val [LIBINPUT_CONFIG_SCROLL_2FG; LIBINPUT_CONFIG_SCROLL_EDGE;
                       LIBINPUT_CONFIG_SCROLL_ON_BUTTON_DOWN]))) /\
  (bad_format val 8 2 XA_INTEGER = false ->
   (1 < flags_set val 2 ->
    rc_of (LibinputSetPropertyClickMethod pInfo atom val true) = BadValue) /\
   (flags_set val 2 <= 1 ->
    rc_of (LibinputSetPropertyClickMethod pInfo atom val true) =
      spec_support_check (device (private pInfo))
        libinput_device_config_click_get_methods
        (selected val [LIBINPUT_CONFIG_CLICK_METHOD_BUTTON_AREAS;
                       LIBINPUT_CONFIG_CLICK_METHOD_CLICKFINGER]))).
Proof.
  split; intros Hfmt.
  - rewrite scroll_methods_check by exact Hfmt.
    split; intros Hn.
    + destruct (Z.ltb_spec 1 (flags_set val 3)); [reflexivity | lia].
    + destruct (Z.ltb_spec 1 (flags_set val 3)); [lia | reflexivity].
  - rewrite click_method_check by exact Hfmt.
    split; intros Hn.
    + destruct (Z.ltb_spec 1 (flags_set val 2)); [reflexivity | lia].
    + destruct (Z.ltb_spec 1 (flags_set val 2)); [lia | reflexivity].
Qed.

End MultiChoice.

Lemma multi_choice_at_most_one_flag_witness :
  rc_of (LibinputSetPropertyScrollMethods
           (sim_pInfo 100 [] (Some sim_touchpad)) 317 (bool_items [1; 1; 0]) true)
    = BadValue /\
  rc_of (LibinputSetPropertyScrollMethods
           (sim_pInfo 100 [] (Some sim_touchpad)) 317 (bool_items [0; 1; 0]) true)
    = Success /\
  rc_of (LibinputSetPropertyClickMethod
           (sim_pInfo 100 [] (Some sim_touchpad)) 322 (bool_items [1; 1]) true)
    = BadValue /\
  rc_of (LibinputSetPropertyClickMethod
           (sim_pInfo 100 [] (Some sim_touchpad)) 322 (bool_items [0; 0]) true)
    = Success.
Proof.
  pose proof (multi_choice_at_most_one_flag (sim_pInfo 100 [] (Some sim_touchpad))
                317 (bool_items [1; 1; 0])) as [Hs1 _].
  pose proof (multi_choice_at_most_one_flag (sim_pInfo 100 [] (Some sim_touchpad))
                317 (bool_items [0; 1; 0])) as [Hs2 _].
  pose proof (multi_choice_at_most_one_flag (sim_pInfo 100 [] (Some sim_touchpad))
                322 (bool_items [1; 1])) as [_ Hc1].
  pose proof (multi_choice_at_most_one_flag (sim_pInfo 100 [] (Some sim_touchpad))
                322 (bool_items [0; 0])) as [_ Hc2].
  split; [apply (Hs1 eq_refl); reflexivity |].
  split; [rewrite (proj2 (Hs2 eq_refl)); [reflexivity | cbn; lia] |].
  split; [apply (Hc1 eq_refl); reflexivity |].
  rewrite (proj2 (Hc2 eq_refl)); [reflexivity | cbn; lia].
Defined.

(** ** Capability-gated properties *)

Section GatedProperties.
Context `{Libinput} `{XF86Option}.




End GatedProperties.



(** ** Option resolution *)

Section Resolution.
Context `{Libinput} `{XF86Option} `{LibC}.

Ltac run_parser :=
  unfold tagged, mbind, M_bind, mret, M_ret, query, FALSE,
    LIBINPUT_CONFIG_SEND_EVENTS_ENABLED, LIBINPUT_CONFIG_SCROLL_NO_SCROLL,
    LIBINPUT_CONFIG_CLICK_METHOD_NONE, truthy;
  cbn.

(** An unsupported option: the parser returns at once. *)
Lemma resolve_unsupported (o : resolved_option)
    (pInfo : InputInfoRec) (d : libinput_device) :
  unsupported o d = true ->
  resolve o pInfo d = (disabled_value o, d, []).
Proof.
  intros Hun.
  destruct o; cbn [resolve unsupported disabled_value] in *.
  - unfold xf86libinput_parse_tap_option. run_parser. rewrite Hun. reflexivity.
  - unfold xf86libinput_parse_tap_drag_lock_option. run_parser.
    rewrite Hun. reflexivity.
  - unfold xf86libinput_parse_accel_option. run_parser. rewrite Hun. reflexivity.
  - unfold xf86libinput_parse_natscroll_option. run_parser.
    rewrite Hun. reflexivity.
  - unfold xf86libinput_parse_sendevents_option. run_parser.
    rewrite Hun. reflexivity.
  - unfold xf86libinput_parse_lefthanded_option. run_parser.
    rewrite Hun. reflexivity.
  - unfold xf86libinput_parse_scroll_option. run_parser. rewrite Hun. reflexivity.
  - unfold xf86libinput_parse_scrollbutton_option. run_parser.
    rewrite Hun. reflexivity.
  - unfold xf86libinput_parse_clickmethod_option. run_parser.
    rewrite Hun. reflexivity.
  - unfold xf86libinput_parse_middleemulation_option. run_parser.
    rewrite Hun. reflexivity.
  - unfold xf86libinput_parse_halfkey_option. run_parser. rewrite Hun. reflexivity.
  - unfold xf86libinput_parse_calibration_option. run_parser.
    rewrite Hun. reflexivity.
Qed.


Lemma unsupported_by_capabilities (o : resolved_option) (d d' : libinput_device) :
  capabilities d' = capabilities d -> unsupported o d' = unsupported o d.
Proof.
  unfold capabilities. intros E.
  injection E as E1 E2 E3 E4 E5 E6 E7 E8 E9 E10.
  destruct o; cbn [unsupported]; congruence.
Qed.

Ltac setter_keeps :=
  match goal with
  | E : ?call = (_, ?d') |- capabilities ?d' = capabilities _ =>
      replace d' with call.2 by (rewrite E; reflexivity); auto
  end.

(** Under stable capabilities a parser leaves the capability set as it
    found it. *)
Lemma resolve_keeps_capabilities (o : resolved_option)
    (pInfo : InputInfoRec) (d : libinput_device) :
  capabilities_stable ->
  capabilities (resolve o pInfo d).1.2 = capabilities d.
Proof.
  intros (K1 & K2 & K3 & K4 & K5 & K6 & K7 & K8 & K9 & K10).
  unfold keeps_capabilities in *.
  destruct o; cbn [resolve]; unfold tagged; cbn [fst snd];
    [ unfold xf86libinput_parse_tap_option
    | unfold xf86libinput_parse_tap_drag_lock_option
    | unfold xf86libinput_parse_accel_option
    | unfold xf86libinput_parse_natscroll_option
    | unfold xf86libinput_parse_sendevents_option
    | unfold xf86libinput_parse_lefthanded_option
    | unfold xf86libinput_parse_scroll_option
    | unfold xf86libinput_parse_scrollbutton_option
    | unfold xf86libinput_parse_clickmethod_option
    | unfold xf86libinput_parse_middleemulation_option
    | unfold xf86libinput_parse_halfkey_option
    | unfold xf86libinput_parse_calibration_option ];
    unfold mbind, M_bind, mret, M_ret, query, config, say, says;
    cbn -[capabilities];
    repeat case_match; simplify_eq; cbn -[capabilities];
    try reflexivity; setter_keeps.
Qed.

(** One parser in the chain of [xf86libinput_parse_options]: it runs on a
    device with the capabilities of the device at open, keeps them, and
    resolves an option the device does not support to its disabled
    value. *)
Lemma resolve_in_chain (o : resolved_option) (pInfo : InputInfoRec)
    (d0 d : libinput_device) :
  capabilities_stable ->
  capabilities d = capabilities d0 ->
  capabilities (resolve o pInfo d).1.2 = capabilities d0 /\
  (unsupported o d0 = true -> (resolve o pInfo d).1.1 = disabled_value o).
Proof.
  intros Hst Hc. split.
  - rewrite resolve_keeps_capabilities by exact Hst. exact Hc.
  - intros Hun. rewrite resolve_unsupported; [reflexivity |].
    rewrite (unsupported_by_capabilities o d0 d Hc). exact Hun.
Qed.

(** Device open: every option the device does not support ends up in
    [struct options] with its disabled value. *)
Lemma parse_options_unsupported (o : resolved_option)
    (pInfo : InputInfoRec) (d : libinput_device) :
  capabilities_stable ->
  unsupported o d = true ->
  option_field o (xf86libinput_parse_options pInfo d).1.1 = disabled_value o.
Proof.
  intros Hst Hun.
  unfold xf86libinput_parse_options, mbind, M_bind, mret, M_ret, says.
  pose proof (eq_refl (capabilities d)) as Hc0.
  pose proof (resolve_in_chain O_tapping pInfo d d Hst Hc0) as [Hc1 Hv1].
  cbn [resolve tagged fst snd] in Hc1, Hv1.
  destruct (xf86libinput_parse_tap_option pInfo d) as [[v1 d1] o1].
  cbn [fst snd] in Hc1, Hv1.
  pose proof (resolve_in_chain O_tap_drag_lock pInfo d d1 Hst Hc1) as [Hc2 Hv2].
  cbn [resolve tagged fst snd] in Hc2, Hv2.
  destruct (xf86libinput_parse_tap_drag_lock_option pInfo d1) as [[v2 d2] o2].
  cbn [fst snd] in Hc2, Hv2.
  pose proof (resolve_in_chain O_speed pInfo d d2 Hst Hc2) as [Hc3 Hv3].
  cbn [resolve tagged fst snd] in Hc3, Hv3.
  destruct (xf86libinput_parse_accel_option pInfo d2) as [[v3 d3] o3].
  cbn [fst snd] in Hc3, Hv3.
  pose proof (resolve_in_chain O_natural_scrolling pInfo d d3 Hst Hc3) as [Hc4 Hv4].
  cbn [resolve tagged fst snd] in Hc4, Hv4.
  destruct (xf86libinput_parse_natscroll_option pInfo d3) as [[v4 d4] o4].
  cbn [fst snd] in Hc4, Hv4.
  pose proof (resolve_in_chain O_sendevents pInfo d d4 Hst Hc4) as [Hc5 Hv5].
  cbn [resolve tagged fst snd] in Hc5, Hv5.
  destruct (xf86libinput_parse_sendevents_option pInfo d4) as [[v5 d5] o5].
  cbn [fst snd] in Hc5, Hv5.
  pose proof (resolve_in_chain O_left_handed pInfo d d5 Hst Hc5) as [Hc6 Hv6].
  cbn [resolve tagged fst snd] in Hc6, Hv6.
  destruct (xf86libinput_parse_lefthanded_option pInfo d5) as [[v6 d6] o6].
  cbn [fst snd] in Hc6, Hv6.
  pose proof (resolve_in_chain O_scroll_method pInfo d d6 Hst Hc6) as [Hc7 Hv7].
  cbn [resolve tagged fst snd] in Hc7, Hv7.
  destruct (xf86libinput_parse_scroll_option pInfo d6) as [[v7 d7] o7].
  cbn [fst snd] in Hc7, Hv7.
  pose proof (resolve_in_chain O_scroll_button pInfo d d7 Hst Hc7) as [Hc8 Hv8].
  cbn [resolve tagged fst snd] in Hc8, Hv8.
  destruct (xf86libinput_parse_scrollbutton_option pInfo d7) as [[v8 d8] o8].
  cbn [fst snd] in Hc8, Hv8.
  pose proof (resolve_in_chain O_click_method pInfo d d8 Hst Hc8) as [Hc9 Hv9].
  cbn [resolve tagged fst snd] in Hc9, Hv9.
  destruct (xf86libinput_parse_clickmethod_option pInfo d8) as [[v9 d9] o9].
  cbn [fst snd] in Hc9, Hv9.
  pose proof (resolve_in_chain O_middle_emulation pInfo d d9 Hst Hc9) as [Hc10 Hv10].
  cbn [resolve tagged fst snd] in Hc10, Hv10.
  destruct (xf86libinput_parse_middleemulation_option pInfo d9) as [[v10 d10] o10].
  cbn [fst snd] in Hc10, Hv10.
  pose proof (resolve_in_chain O_halfkey pInfo d d10 Hst Hc10) as [Hc11 Hv11].
  cbn [resolve tagged fst snd] in Hc11, Hv11.
  destruct (xf86libinput_parse_halfkey_option pInfo d10) as [[v11 d11] o11].
  cbn [fst snd] in Hc11, Hv11.
  pose proof (resolve_in_chain O_matrix pInfo d d11 Hst Hc11) as [Hc12 Hv12].
  cbn [resolve tagged fst snd] in Hc12, Hv12.
  destruct (xf86libinput_parse_calibration_option pInfo d11) as [[v12 d12] o12].
  cbn [fst snd] in Hc12, Hv12.
  destruct (xf86libinput_parse_buttonmap_option pInfo _) as [bm ob].
  cbn [fst snd option_field tapping tap_drag_lock speed natural_scrolling
       sendevents left_handed scroll_method scroll_button click_method
       middle_emulation halfkey matrix].
  destruct o; cbn [option_field disabled_value tapping tap_drag_lock speed
                   natural_scrolling sendevents left_handed scroll_method
                   scroll_button click_method middle_emulation halfkey matrix] in *.
  - specialize (Hv1 Hun). congruence.
  - specialize (Hv2 Hun). congruence.
  - specialize (Hv3 Hun). injection Hv3 as ->. reflexivity.
  - specialize (Hv4 Hun). congruence.
  - specialize (Hv5 Hun). injection Hv5 as ->. reflexivity.
  - specialize (Hv6 Hun). congruence.
  - specialize (Hv7 Hun). congruence.
  - specialize (Hv8 Hun). injection Hv8 as ->. reflexivity.
  - specialize (Hv9 Hun). congruence.
  - specialize (Hv10 Hun). congruence.
  - specialize (Hv11 Hun). congruence.
  - specialize (Hv12 Hun). congruence.
Qed.

(** C8: when the capability set of the device does not support an option,
    resolving it yields the fixed disabled value (false, speed 0.0, the zero
    of the enumeration, button 0, the identity matrix) whatever the user
    configured, without a call that changes the device and without a
    message; and, capabilities being immutable, that is the value device
    open leaves in the option set. *)
Theorem unsupported_option_disabled (o : resolved_option)
    (pInfo : InputInfoRec) (d : libinput_device) :
  unsupported o d = true ->
  resolve o pInfo d = (disabled_value o, d, []) /\
  (capabilities_stable ->
   option_field o (xf86libinput_parse_options pInfo d).1.1 = disabled_value o).
Proof.
  intros Hun. split.
  - apply resolve_unsupported, Hun.
  - intros Hst. apply parse_options_unsupported; assumption.
Qed.

End Resolution.

Lemma sim_capabilities_stable : @capabilities_stable sim_libinput.
Proof.
  repeat split; intros d a; cbn;
    unfold sim_set, sim_set_speed, sim_set_matrix;
    repeat case_match; reflexivity.
Qed.

(** The user asks for tapping on a device that cannot tap. *)
Lemma unsupported_option_disabled_witness :
  resolve O_tapping (sim_pInfo 100 [("Tapping", "on")] (Some sim_plain_device))
          sim_plain_device
  = (V_int 0, sim_plain_device, []) /\
  tapping (xf86libinput_parse_options
             (sim_pInfo 100 [("Tapping", "on")] (Some sim_plain_device))
             sim_plain_device).1.1 = 0.
Proof.
  destruct (unsupported_option_disabled O_tapping
              (sim_pInfo 100 [("Tapping", "on")] (Some sim_plain_device))
              sim_plain_device eq_refl) as [Hr Ho].
  split; [exact Hr |].
  specialize (Ho sim_capabilities_stable).
  exact (f_equal (fun v => match v with V_int z => z | _ => 0 end) Ho).
Defined.

(** ** The calibration matrix option *)

Section Calibration.
Context `{Libinput} `{XF86Option} `{LibC}.

Lemma length_store_prefix {A} (vals arr : list A) :
  length (store_prefix vals arr) = length arr.
Proof.
  unfold store_prefix.
  rewrite length_take, length_app, length_drop. lia.
Qed.

Lemma store_prefix_full {A} (vals arr : list A) :
  length vals = length arr -> store_prefix vals arr = vals.
Proof.
  intros Hlen. unfold store_prefix.
  rewrite drop_ge by lia. rewrite app_nil_r.
  apply take_ge. lia.
Qed.

(** Whatever the device reports, only the first six entries of the local
    matrix are overwritten. *)
Lemma device_matrix_last_row (m6 : list float) :
  drop 6 (store_prefix (take 6 m6) identity_matrix) = [f0; f0; f1].
Proof.
  destruct m6 as [| a [| b [| c [| e [| f [| g rest]]]]]]; reflexivity.
Qed.

Lemma error_logged_here (id : nat) (format : string) (out : list effect) :
  error_logged (xf86IDrvMsg id X_ERROR format :: out).
Proof. exists id, format. constructor. Qed.

Ltac simp := cbn -[store_prefix firstn skipn length identity_matrix].

(** The paths of the calibration parser.  It always yields a 9-element
    matrix.  Without calibration support it is the identity.  With it, the
    device's matrix, whose last three entries are {0,0,1}, is kept when the
    user gave no string, when the string converts to fewer than 9 values
    (an error is logged) and when the device rejects the 9 values (an error
    is logged); when the device accepts the 9 values the resolved matrix
    has the user's first six entries, and its last three are {0,0,1} if the
    user's are. *)
Lemma calibration_option_resolution (pInfo : InputInfoRec) (d : libinput_device) :
  let r := xf86libinput_parse_calibration_option pInfo d in
  let resolved := r.1.1 in
  let device_matrix :=
    store_prefix (take 6 (libinput_device_config_calibration_get_matrix d))
                 identity_matrix in
  let user := xf86CheckStrOption (pInfo_options pInfo) "CalibrationMatrix" None in
  length resolved = 9%nat /\
  drop 6 device_matrix = [f0; f0; f1] /\
  (libinput_device_config_calibration_has_matrix d = 0 ->
   resolved = identity_matrix) /\
  (libinput_device_config_calibration_has_matrix d <> 0 ->
   (user = None -> resolved = device_matrix) /\
   (forall str, user = Some str ->
      let converted := take 9 (sscanf_floats str) in
      let status :=
        (libinput_device_config_calibration_set_matrix d (take 6 converted)).1 in
      ((length converted < 9)%nat ->
       resolved = device_matrix /\ error_logged r.2) /\
      (length converted = 9%nat ->
       (status = LIBINPUT_CONFIG_STATUS_SUCCESS ->
        take 6 resolved = take 6 converted /\
        (drop 6 converted = [f0; f0; f1] -> drop 6 resolved = [f0; f0; f1])) /\
       (status <> LIBINPUT_CONFIG_STATUS_SUCCESS ->
        resolved = device_matrix /\ error_logged r.2)))).
Proof.
  cbv zeta.
  unfold xf86libinput_parse_calibration_option.
  unfold mbind, M_bind, mret, M_ret, query, config, say, says, truthy. simp.
  pose proof (length_store_prefix
                (take 6 (libinput_device_config_calibration_get_matrix d))
                identity_matrix) as Hdm.
  change (length identity_matrix) with 9%nat in Hdm.
  split; [| split; [apply device_matrix_last_row | split]].
  - (* nine elements *)
    destruct (Z.eqb_spec (libinput_device_config_calibration_has_matrix d) 0);
      simp; [reflexivity |].
    destruct (xf86CheckStrOption _ _ _) as [str |]; simp; [| exact Hdm].
    destruct (Nat.eqb_spec (length (take 9 (sscanf_floats str))) 9) as [E9 | N9];
      simp; [| exact Hdm].
    rewrite store_prefix_full by lia.
    destruct (libinput_device_config_calibration_set_matrix d _) as [rc d'].
    simp. destruct (rc =? _); simp; [exact E9 | exact Hdm].
  - (* no calibration support *)
    intros Hno. rewrite Hno. reflexivity.
  - intros Hhas.
    destruct (Z.eqb_spec (libinput_device_config_calibration_has_matrix d) 0);
      [contradiction |]. simp.
    split.
    + intros Hnone. rewrite Hnone. reflexivity.
    + intros str Hsome. rewrite Hsome. simp.
      split.
      * intros Hshort.
        destruct (Nat.eqb_spec (length (take 9 (sscanf_floats str))) 9); [lia |].
        simp. split; [reflexivity | apply error_logged_here].
      * intros E9.
        destruct (Nat.eqb_spec (length (take 9 (sscanf_floats str))) 9); [| lia].
        simp. rewrite store_prefix_full by lia.
        destruct (libinput_device_config_calibration_set_matrix d _) as [rc d'].
        simp. split.
        -- intros ->. simp. split; [reflexivity | tauto].
        -- intros Hrej.
           destruct (Z.eqb_spec rc LIBINPUT_CONFIG_STATUS_SUCCESS);
             [contradiction |].
           simp. split; [reflexivity | apply error_logged_here].
Qed.

End Calibration.

(** Default {1,0,0,0,1,0,0,0,1} and user input "0.5 0 0 0 1 0 0 0 1"
    resolve to {0.5,0,0,0,1,0,0,0,1}. *)
Lemma calibration_scenario_resolved :
  sim_resolved_matrix "0.5 0 0 0 1 0 0 0 1" =
    [f_half; f0; f0; f0; f1; f0; f0; f0; f1].
Proof.
  pose proof (calibration_option_resolution
                (sim_pInfo 100 (sim_calibration_section "0.5 0 0 0 1 0 0 0 1")
                           (Some sim_calibrated_device))
                sim_calibrated_device) as (_ & _ & _ & Hhas).
  destruct Hhas as [_ Huser]; [discriminate |].
  destruct (Huser "0.5 0 0 0 1 0 0 0 1" eq_refl) as [_ Hnine].
  destruct (Hnine eq_refl) as [Hacc _].
  destruct (Hacc eq_refl) as [Hfirst Hlast].
  unfold sim_resolved_matrix.
  rewrite <- (take_drop 6 (_ : list float)).
  rewrite Hfirst, (Hlast eq_refl). reflexivity.
Qed.

(** C2 (the code at the failing input): on a device with calibration
    support that reports the identity matrix, the option string
    "1 0 0 0 1 0 5 5 5" converts to nine values, the device accepts the
    first six, and the resolved matrix ends in 5 5 5 where the claim says
    0 0 1; a property write of the same nine values is refused with
    [BadValue] in check mode. *)
Theorem calibration_last_row_from_user :
  length (scan_floats 9 "1 0 0 0 1 0 5 5 5") = 9%nat /\
  libinput_device_config_calibration_get_matrix sim_calibrated_device =
    [f1; f0; f0; f0; f1; f0] /\
  sim_resolved_matrix "1 0 0 0 1 0 5 5 5" = [f1; f0; f0; f0; f1; f0; f5; f5; f5] /\
  drop 6 (sim_resolved_matrix "1 0 0 0 1 0 5 5 5") <> [f0; f0; f1] /\
  (let bits := [0x3F800000; 0; 0; 0; 0x3F800000; 0;
                0x40A00000; 0x40A00000; 0x40A00000] in
   map float_of_bits bits = sim_resolved_matrix "1 0 0 0 1 0 5 5 5" /\
   rc_of (LibinputSetPropertyCalibration sim_atoms
            (sim_pInfo 100 [] (Some sim_calibrated_device)) 305
            {| type := prop_float sim_atoms; format := 32; size := 9; data := bits |}
            true) = BadValue).
Proof.
  repeat split; try (vm_compute; reflexivity); vm_compute; discriminate.
Qed.

(** ** Read-only properties and commits *)

Section ReadOnlyAndCommit.
Context `{Libinput} `{XF86Option}.

(** X6: a write to a read-only property (an availability set, a default,
    the device node, the product id) is rejected with [BadAccess] in check
    mode and in commit mode alike, and changes nothing. *)
Theorem read_only_properties_rejected (props : property_atoms)
    (pInfo : InputInfoRec) (atom : Z) (val : XIPropertyValueRec) (checkonly : bool) :
  In atom (read_only_atoms props) ->
  ~ In atom (writable_atoms props) ->
  LibinputSetProperty props pInfo atom val checkonly = Some (BadAccess, pInfo, []).
Proof.
  intros Hro Hrw. unfold LibinputSetProperty.
  replace (select_handler props atom) with
    (inl BadAccess : Z + (InputInfoRec -> Z -> XIPropertyValueRec -> bool ->
                          Z * InputInfoRec * list effect)); [reflexivity |].
  assert (Hne : forall x, In x (writable_atoms props) -> atom <> x)
    by (intros x Hx ->; exact (Hrw Hx)).
  unfold writable_atoms, read_only_atoms in *. cbn [In] in Hro.
  unfold select_handler, read_only_atom.
  repeat match goal with
  | |- context [atom =? ?x] =>
      destruct (Z.eqb_spec atom x); cbn [orb];
      [first [reflexivity | exfalso; apply (Hne x); [cbn; auto 20 | assumption]] |]
  end.
  exfalso.
  repeat (destruct Hro as [Hro | Hro]; [congruence |]). contradiction.
Qed.

Ltac commit_case :=
  cbv zeta; unfold xf86libinput_check_device, store_option, rc_of;
  intros Hcheck;
  destruct (bad_format _ _ _ _) eqn:Hfmt;
    [cbn in Hcheck; discriminate Hcheck |];
  destruct (device (private _)) as [d |] eqn:Hdev;
    [| repeat (case_match; try (cbn in Hcheck; discriminate Hcheck))];
  cbn; rewrite ?Hdev; split; [reflexivity | eexists; reflexivity].

(** A handler whose check accepts finds the device there, and its commit
    accepts and leaves the device pointer alone. *)
Lemma accepted_check_has_device (props : property_atoms) (atom : Z) handler
    (pInfo : InputInfoRec) (a : Z) (val : XIPropertyValueRec) :
  select_handler props atom = inr handler ->
  rc_of (handler pInfo a val true) = Success ->
  rc_of (handler pInfo a val false) = Success /\
  exists d, device (private (handler pInfo a val false).1.2) = Some d.
Proof.
  unfold select_handler.
  repeat match goal with
  | |- context [if ?b then _ else _] => destruct b
  end;
  intros E; try discriminate E; injection E as <-;
  [ unfold LibinputSetPropertyTap
  | unfold LibinputSetPropertyTapDragLock
  | unfold LibinputSetPropertyCalibration
  | unfold LibinputSetPropertyAccel
  | unfold LibinputSetPropertyNaturalScroll
  | unfold LibinputSetPropertySendEvents
  | unfold LibinputSetPropertyLeftHanded
  | unfold LibinputSetPropertyScrollMethods
  | unfold LibinputSetPropertyScrollButton
  | unfold LibinputSetPropertyClickMethod
  | unfold LibinputSetPropertyMiddleEmulation
  | unfold LibinputSetPropertyHalfkey ];
  commit_case.
Qed.

(** X7: a write that the check accepted is committed: the commit call
    returns, accepts as well, and the options have gone through
    [LibinputApplyConfig] (the device pointer it needs is there). *)
Theorem accepted_write_commits (props : property_atoms) (pInfo : InputInfoRec)
    (atom : Z) (val : XIPropertyValueRec) (out : list effect) :
  LibinputSetProperty props pInfo atom val true = Some (Success, pInfo, out) ->
  exists pInfo' out',
    LibinputSetProperty props pInfo atom val false = Some (Success, pInfo', out').
Proof.
  unfold LibinputSetProperty.
  destruct (select_handler props atom) as [rc | handler] eqn:Hsel.
  - intros E. injection E as -> _. eexists _, _. reflexivity.
  - pose proof (accepted_check_has_device props atom handler pInfo atom val Hsel)
      as Hcommit.
    destruct (handler pInfo atom val true) as [[rc p] o] eqn:Hcheck.
    cbn [negb andb]. intros E. injection E as -> _ _.
    destruct (Hcommit eq_refl) as (Hrc & d & Hd).
    destruct (handler pInfo atom val false) as [[rc' p'] o'].
    unfold rc_of in Hrc. cbn [fst snd] in Hrc, Hd. subst rc'.
    cbn [negb andb]. change (Success =? Success) with true. cbn [andb].
    unfold LibinputApplyConfig. rewrite Hd. cbn [mbind option_bind].
    destruct (LibinputApplyConfig_device _ _ d) as [[u d'] o''].
    cbn. eexists _, _. reflexivity.
Qed.

End ReadOnlyAndCommit.

Lemma read_only_properties_rejected_witness :
  LibinputSetProperty sim_atoms (sim_touchpad_pInfo []) 316 (bool_items [1; 0; 0])
    false = Some (BadAccess, sim_touchpad_pInfo [], []).
Proof.
  apply (read_only_properties_rejected sim_atoms (sim_touchpad_pInfo []) 316
           (bool_items [1; 0; 0]) false).
  - cbn. tauto.
  - cbn. intros Hin. repeat destruct Hin as [Hin | Hin]; try discriminate Hin.
    exact Hin.
Defined.

Lemma accepted_write_commits_witness :
  exists pInfo' out',
    LibinputSetProperty sim_atoms (sim_touchpad_pInfo []) 301 (bool_items [1]) false
    = Some (Success, pInfo', out').
Proof.
  apply (accepted_write_commits sim_atoms (sim_touchpad_pInfo []) 301
           (bool_items [1]) []).
  reflexivity.
Defined.

(** ** Keys, pointer motion and dropped events *)

Section OtherEvents.
Context `{Libinput} `{XF86Option}.

(** X2: a key event is forwarded with the key code plus the keycode
    offset 8 and with its press/release state. *)
Theorem handle_key_adds_offset (pInfo : InputInfoRec)
    (event : libinput_event_keyboard) :
  0 <= libinput_event_keyboard_get_key event < 2 ^ 31 - 8 ->
  xf86libinput_handle_key pInfo event =
    (pInfo,
     [xf86PostKeyboardEvent (dev pInfo)
        (libinput_event_keyboard_get_key event + 8)
        (spec_key_is_press (libinput_event_keyboard_get_key_state event))]).
Proof.
  intros Hk. unfold xf86libinput_handle_key, XORG_KEYCODE_OFFSET.
  replace (to_int (libinput_event_keyboard_get_key event))
    with (libinput_event_keyboard_get_key event) by solve_wrap.
  reflexivity.
Qed.

(** X3: an absolute motion event on a device not marked absolute is
    discarded: an error is logged, nothing is posted and the driver data is
    unchanged; on an absolute device one absolute motion is posted with the
    coordinates transformed into the range 0..0xffff. *)
Theorem handle_absmotion_needs_abs (pInfo : InputInfoRec)
    (event : libinput_event_pointer) :
  (has_abs (private pInfo) = false ->
   exists format,
     xf86libinput_handle_absmotion pInfo event =
       (pInfo, [xf86IDrvMsg (dev pInfo) X_ERROR format])) /\
  (has_abs (private pInfo) = true ->
   exists mask,
     (xf86libinput_handle_absmotion pInfo event).2 =
       [xf86PostMotionEventM (dev pInfo) Absolute mask] /\
     vm_values mask !! 0 =
       Some (libinput_event_pointer_get_absolute_x_transformed event 0xffff) /\
     vm_values mask !! 1 =
       Some (libinput_event_pointer_get_absolute_y_transformed event 0xffff)).
Proof.
  unfold xf86libinput_handle_absmotion. split; intros Habs; rewrite Habs; cbn.
  - eexists. reflexivity.
  - eexists. split; [reflexivity |]. split; reflexivity.
Qed.

(** X4: an event of a libinput device with no user data, or whose X device
    is not on, is dropped: nothing is posted or logged and no state
    changes. *)
Theorem handle_event_drops (unaccel : bool) (st : dispatch_state)
    (event : libinput_event) :
  (user_data st !! libinput_event_get_device event = None \/
   exists pInfo, user_data st !! libinput_event_get_device event = Some pInfo /\
                 on pInfo = false) ->
  xf86libinput_handle_event unaccel st event = Some (st, []).
Proof.
  unfold xf86libinput_handle_event.
  intros [Hnone | (pInfo & Hsome & Hoff)].
  - rewrite Hnone. reflexivity.
  - rewrite Hsome, Hoff. reflexivity.
Qed.

(** X5: a relative motion event is forwarded as one relative motion with
    dx and dy unchanged in valuators 0 and 1, together with the
    unaccelerated deltas where the server takes them. *)
Theorem handle_motion_forwards_deltas (unaccel : bool) (pInfo : InputInfoRec)
    (event : libinput_event_pointer) :
  exists mask,
    (xf86libinput_handle_motion unaccel pInfo event).2 =
      [xf86PostMotionEventM (dev pInfo) Relative mask] /\
    vm_values mask !! 0 = Some (libinput_event_pointer_get_dx event) /\
    vm_values mask !! 1 = Some (libinput_event_pointer_get_dy event) /\
    vm_unaccelerated mask !! 0 =
      (if unaccel then Some (libinput_event_pointer_get_dx_unaccelerated event)
       else None) /\
    vm_unaccelerated mask !! 1 =
      (if unaccel then Some (libinput_event_pointer_get_dy_unaccelerated event)
       else None).
Proof.
  unfold xf86libinput_handle_motion. destruct unaccel; cbn;
    eexists; (split; [reflexivity |]); repeat split; reflexivity.
Qed.

End OtherEvents.

Lemma handle_key_adds_offset_witness :
  xf86libinput_handle_key (sim_pInfo 100 [] None)
                          (key_event 30 LIBINPUT_KEY_STATE_PRESSED) =
    (sim_pInfo 100 [] None, [xf86PostKeyboardEvent 100 38 true]).
Proof.
  apply (handle_key_adds_offset (sim_pInfo 100 [] None)
           (key_event 30 LIBINPUT_KEY_STATE_PRESSED)).
  simpl. lia.
Defined.

Lemma handle_absmotion_needs_abs_witness :
  exists format,
    xf86libinput_handle_absmotion (sim_pInfo 100 [] None)
                                  (button_event 0 LIBINPUT_BUTTON_STATE_RELEASED) =
      (sim_pInfo 100 [] None, [xf86IDrvMsg 100 X_ERROR format]).
Proof.
  apply (proj1 (handle_absmotion_needs_abs (sim_pInfo 100 [] None)
                  (button_event 0 LIBINPUT_BUTTON_STATE_RELEASED))).
  reflexivity.
Defined.

Lemma handle_event_drops_witness :
  xf86libinput_handle_event false two_touchscreens
    (touch_ev 7 LIBINPUT_EVENT_TOUCH_DOWN (touch_at 0)) = Some (two_touchscreens, []).
Proof.
  apply (handle_event_drops false two_touchscreens
           (touch_ev 7 LIBINPUT_EVENT_TOUCH_DOWN (touch_at 0))).
  left. reflexivity.
Defined.

(** ** The driver at work on the reference environment *)

(** Where the capability is there, the user's setting is adopted. *)
Example tapping_configured_on_touchpad :
  (resolve O_tapping (sim_touchpad_pInfo [("Tapping", "on")]) sim_touchpad).1.1
  = V_int 1.
Proof. vm_compute. reflexivity. Qed.

Example scroll_method_configured_on_touchpad :
  (resolve O_scroll_method (sim_touchpad_pInfo [("ScrollMethod", "Edge")])
           sim_touchpad).1.1
  = V_int LIBINPUT_CONFIG_SCROLL_EDGE.
Proof. vm_compute. reflexivity. Qed.

(** A tap write is accepted by the check and stored by the commit. *)
Example tap_write_checked_and_committed :
  (rc_of <$> LibinputSetProperty sim_atoms (sim_touchpad_pInfo []) 301
               (bool_items [1]) true) = Some Success /\
  ((fun r => tapping (options (private r.1.2))) <$>
     LibinputSetProperty sim_atoms (sim_touchpad_pInfo []) 301
       (bool_items [1]) false) = Some 1.
Proof. split; vm_compute; reflexivity. Qed.

(** Read-only properties refuse a write in either mode. *)
Example available_methods_read_only :
  (rc_of <$> LibinputSetProperty sim_atoms (sim_touchpad_pInfo []) 316
               (bool_items [1; 0; 0]) true) = Some BadAccess /\
  (rc_of <$> LibinputSetProperty sim_atoms (sim_touchpad_pInfo []) 316
               (bool_items [1; 0; 0]) false) = Some BadAccess.
Proof. split; vm_compute; reflexivity. Qed.

(** The button map: "3 2 1" swaps the outer buttons; a comma stops the
    number parser and the whole map falls back to the identity. *)
Example button_map_swapped :
  take 4 (xf86libinput_parse_buttonmap_option
            (sim_touchpad_pInfo [("ButtonMapping", "3 2 1")]) 257).1
  = [0; 3; 2; 1].
Proof. vm_compute. reflexivity. Qed.

Example button_map_with_commas :
  take 4 (xf86libinput_parse_buttonmap_option
            (sim_touchpad_pInfo [("ButtonMapping", "3,2,1")]) 257).1
  = [0; 1; 2; 3].
Proof. vm_compute. reflexivity. Qed.

Example buttons_in_consumer_numbering :
  map btn_linux2xorg [0; 0x110; 0x112; 0x111; 0x113; 0x114; 0x115; 0x116]
  = [0; 1; 2; 3; 8; 9; 10; 11].
Proof. reflexivity. Qed.

(** From process start the tracker and the statics agree, so the
    one-device theorem applies to the first events of the first device. *)
Example statics_track_at_start :
  statics_track touch_statics_init
    {| spec_next := 0; spec_last := ∅; spec_open := ∅ |} /\
  tracker_ok {| spec_next := 0; spec_last := ∅; spec_open := ∅ |}.
Proof.
  split.
  - split; [reflexivity |]. split; [reflexivity |].
    intros s Hs. unfold spec_identity. cbn [spec_last]. rewrite lookup_empty.
    unfold TOUCH_MAX_SLOTS in Hs.
    assert (Hcases : s = 0 \/ s = 1 \/ s = 2 \/ s = 3 \/ s = 4 \/ s = 5 \/ s = 6 \/
                     s = 7 \/ s = 8 \/ s = 9 \/ s = 10 \/ s = 11 \/ s = 12 \/
                     s = 13 \/ s = 14) by lia.
    repeat (destruct Hcases as [-> | Hcases]; [reflexivity |]). subst s. reflexivity.
  - split; [cbn; lia |]. split.
    + intros s id Hs. cbn [spec_open] in Hs. rewrite lookup_empty in Hs. discriminate.
    + intros s1 s2 id Hs. cbn [spec_open] in Hs. rewrite lookup_empty in Hs.
      discriminate.
Qed.

(** ** Set-up and control: helper lemmas *)

Lemma truthy_ne (z : Z) : truthy z = true <-> z <> 0.
Proof. unfold truthy. destruct (Z.eqb_spec z 0); cbn; split; congruence. Qed.

Lemma truthy_eq (z : Z) : truthy z = false <-> z = 0.
Proof. unfold truthy. destruct (Z.eqb_spec z 0); cbn; split; congruence. Qed.

Lemma enabled_balance_app (l1 l2 : list server_call) :
  enabled_balance (l1 ++ l2) = enabled_balance l1 + enabled_balance l2.
Proof. induction l1 as [|c l1 IH]; [reflexivity|]. destruct c; cbn; lia. Qed.

Lemma enabled_balance_messages (out : list effect) :
  enabled_balance (map driver_message out) = 0.
Proof. induction out as [|e out IH]; [reflexivity | exact IH]. Qed.

(** ** Descriptors handed over by the server *)

Lemma fd_find_absent (server_fds : list serverfd) (fd : Z) :
  Forall (fun sfd => ~ holds_fd fd sfd) server_fds -> fd_find server_fds fd = -1.
Proof.
  induction 1 as [|sfd rest Hne _ IH]; [reflexivity|].
  cbn. unfold holds_fd in Hne. destruct (Z.eqb_spec fd (sfd_fd sfd)); [congruence | exact IH].
Qed.

Lemma fd_find_present (server_fds : list serverfd) (fd : Z) :
  Exists (holds_fd fd) server_fds -> fd_find server_fds fd = fd.
Proof.
  induction 1 as [sfd rest Heq | sfd rest _ IH]; cbn.
  - unfold holds_fd in Heq. rewrite Heq, Z.eqb_refl. reflexivity.
  - destruct (fd =? sfd_fd sfd); [reflexivity | exact IH].
Qed.

(** X10: [close_restricted] closes a descriptor exactly when it is -1 or
    no entry of the server's list holds it; a descriptor the server handed
    over is never closed, and nothing but the descriptor given ever is. *)
Theorem close_restricted_spares_server_fds (server_fds : list serverfd) (fd : Z) :
  (close_restricted server_fds fd = [] <->
     fd <> -1 /\ Exists (holds_fd fd) server_fds) /\
  (close_restricted server_fds fd = [] \/ close_restricted server_fds fd = [close fd]).
Proof.
  unfold close_restricted. split.
  - destruct (decide (Exists (holds_fd fd) server_fds)) as [Hin | Hout].
    + rewrite (fd_find_present _ _ Hin).
      destruct (Z.eqb_spec fd (-1)) as [-> | Hne];
        (split; [intros E | intros [? _]]); try discriminate; try congruence; auto.
    + apply not_Exists_Forall in Hout; [| apply _].
      rewrite (fd_find_absent _ _ Hout). cbn. split; [discriminate|].
      intros [_ Hin]. apply Exists_exists in Hin as (x & Hx & Hfd).
      rewrite Forall_forall in Hout. specialize (Hout x Hx). contradiction.
  - destruct (_ =? _); auto.
Qed.

Lemma fd_pop_absent (server_fds : list serverfd) (fd : Z) :
  Forall (fun sfd => ~ holds_fd fd sfd) server_fds -> fd_pop server_fds fd = server_fds.
Proof.
  induction 1 as [|sfd rest Hne _ IH]; [reflexivity|].
  cbn. unfold holds_fd in Hne.
  destruct (Z.eqb_spec fd (sfd_fd sfd)); [congruence|]. cbn. now rewrite IH.
Qed.

Lemma fd_pop_after_push (server_fds : list serverfd) (sfd : serverfd) (fd : Z) :
  ~ holds_fd fd sfd -> sfd :: fd_pop server_fds fd <> server_fds.
Proof.
  revert sfd. induction server_fds as [|x rest IH]; intros sfd Hne; [discriminate|].
  cbn. unfold holds_fd in Hne. destruct (Z.eqb_spec fd (sfd_fd x)) as [E | N]; cbn.
  - intros [= ->]. congruence.
  - intros [= -> Hrest]. exact (IH x Hne Hrest).
Qed.

Lemma fd_pop_present (before after : list serverfd) (sfd : serverfd) (fd : Z) :
  Forall (fun sfd => ~ holds_fd fd sfd) before -> holds_fd fd sfd ->
  fd_pop (before ++ sfd :: after) fd = before ++ after.
Proof.
  intros Hbefore Hsfd. induction Hbefore as [|x before Hne _ IH]; cbn.
  - unfold holds_fd in Hsfd. rewrite Hsfd, Z.eqb_refl. reflexivity.
  - unfold holds_fd in Hne.
    destruct (Z.eqb_spec fd (sfd_fd x)); [congruence|]. cbn. now rewrite IH.
Qed.

(** X9: [fd_pop] leaves a list that does not hold the descriptor as it is,
    removes exactly the first entry that holds it and keeps the order of
    the others, and undoes an [fd_push] of the same descriptor. *)
Theorem fd_pop_removes_first (server_fds : list serverfd) (fd : Z) :
  (Forall (fun sfd => ~ holds_fd fd sfd) server_fds ->
     fd_pop server_fds fd = server_fds) /\
  (forall before sfd after,
     server_fds = before ++ sfd :: after ->
     Forall (fun sfd => ~ holds_fd fd sfd) before -> holds_fd fd sfd ->
     fd_pop server_fds fd = before ++ after) /\
  (forall path, fd_pop (fd_push server_fds fd path) fd = server_fds).
Proof.
  split; [apply fd_pop_absent|]. split.
  - intros before sfd after -> Hbefore Hsfd.
    induction Hbefore as [|x before Hne _ IH]; cbn.
    + unfold holds_fd in Hsfd. rewrite Hsfd, Z.eqb_refl. reflexivity.
    + unfold holds_fd in Hne.
      destruct (Z.eqb_spec fd (sfd_fd x)); [congruence|]. cbn. now rewrite IH.
  - intros path. cbn. now rewrite Z.eqb_refl.
Qed.

Lemma fd_get_skips (before rest : list serverfd) (path : string) :
  Forall has_path before -> Forall (fun sfd => ~ names_path path sfd) before ->
  fd_get (before ++ rest) path = fd_get rest path.
Proof.
  induction before as [|x before IH]; [reflexivity|].
  intros Hhas Hne. apply Forall_cons in Hhas as [[p Hp] Hhas].
  apply Forall_cons in Hne as [Hx Hne]. cbn. rewrite Hp. cbn.
  unfold names_path in Hx. unfold strcmp_eq.
  destruct (String.eqb_spec path p) as [-> | _]; [congruence|]. now apply IH.
Qed.

(** X8: for a path the server's list names, [open_restricted] answers the
    descriptor of the entry pushed last for it and opens nothing; for a path
    the list does not name it calls [open] once and answers the descriptor,
    or minus [errno] when [open] failed. *)
Theorem open_restricted_uses_server_fd (sys_open : string -> Z -> Z * Z) (errno : Z)
    (server_fds : list serverfd) (path : string) (flags : Z) :
  (forall before sfd after,
     server_fds = before ++ sfd :: after ->
     Forall has_path before -> Forall (fun sfd => ~ names_path path sfd) before ->
     names_path path sfd -> 0 <= sfd_fd sfd ->
     open_restricted sys_open errno server_fds path flags = Some (sfd_fd sfd, [])) /\
  (Forall has_path server_fds ->
   Forall (fun sfd => ~ names_path path sfd) server_fds ->
   open_restricted sys_open errno server_fds path flags =
     Some (if (sys_open path flags).1 <? 0
           then - (sys_open path flags).2 else (sys_open path flags).1,
           [open path flags])).
Proof.
  unfold open_restricted. split.
  - intros before sfd after -> Hhas Hne Hsfd Hfd.
    rewrite (fd_get_skips _ _ _ Hhas Hne). cbn. unfold names_path in Hsfd.
    rewrite Hsfd. cbn. unfold strcmp_eq. rewrite String.eqb_refl. cbn.
    destruct (Z.eqb_spec (sfd_fd sfd) (-1)); [lia|].
    destruct (Z.ltb_spec (sfd_fd sfd) 0); [lia | reflexivity].
  - intros Hhas Hne.
    replace server_fds with (server_fds ++ []) by apply app_nil_r.
    rewrite (fd_get_skips _ _ _ Hhas Hne). cbn.
    destruct (sys_open path flags) as [fd' errno']. reflexivity.
Qed.

(** ** Pointer buttons and keyboard LEDs *)

Section Buttons.
Context `{LibinputContext} `{XF86Option} `{XServer}.

Lemma nbuttons_loop_highest (d : libinput_device) (k : nat) (n : Z) :
  let top := BTN_SIDE + Z.of_nat k - 1 in
  let r := nbuttons_loop d k n in
  (r = n /\ forall c, ~ searched top d c) \/
  (exists c, searched top d c /\ r = n + (c - BTN_SIDE + 1) /\
             forall c', searched top d c' -> c' <= c).
Proof.
  induction k as [|k IH]; cbn zeta.
  - left. split; [reflexivity|]. intros c [Hc _]. lia.
  - cbn [nbuttons_loop].
    destruct (truthy (libinput_device_pointer_has_button d (BTN_SIDE + Z.of_nat k)))
      eqn:Hb.
    + right. exists (BTN_SIDE + Z.of_nat k). apply truthy_ne in Hb.
      split; [split; [lia | exact Hb]|]. split; [reflexivity|].
      intros c' [Hc' _]. lia.
    + apply truthy_eq in Hb. cbn zeta in IH.
      destruct IH as [[-> Hnone] | (c & Hc & -> & Hmax)].
      * left. split; [reflexivity|]. intros c [Hr Hb'].
        destruct (Z.eq_dec c (BTN_SIDE + Z.of_nat k)) as [-> | Hne]; [congruence|].
        apply (Hnone c). split; [lia | exact Hb'].
      * right. exists c. destruct Hc as [Hr Hb'].
        split; [split; [lia | exact Hb']|]. split; [reflexivity|].
        intros c' [Hr' Hb''].
        destruct (Z.eq_dec c' (BTN_SIDE + Z.of_nat k)) as [-> | Hne]; [congruence|].
        apply Hmax. split; [lia | exact Hb''].
Qed.

Lemma btn_linux2xorg_extra (c : Z) :
  BTN_SIDE <= c < 2 ^ 31 -> btn_linux2xorg c = 8 + (c - BTN_SIDE).
Proof.
  intros Hc. unfold btn_linux2xorg. unfold_ints.
  repeat match goal with |- context [?a =? ?b] => destruct (Z.eqb_spec a b); [lia|] end.
  Z.div_mod_to_equations; lia.
Qed.

(** X11: both pointer set-ups return [Success] on a device that is there
    and register between 7 buttons and the X number of the highest code
    they search ([BTN_JOYSTICK - 1] for a relative, [BTN_BACK] for an
    absolute pointer): 7 when the device has none of the searched codes,
    else the X number of the highest one it has, so that every searched
    button the device has is within the registered count. *)
Theorem init_pointer_covers_buttons (absolute : bool) (pInfo : InputInfoRec)
    (d : libinput_device) :
  device (private pInfo) = Some d ->
  let top := if absolute then BTN_BACK else BTN_JOYSTICK - 1 in
  let init := if absolute then xf86libinput_init_pointer_absolute
              else xf86libinput_init_pointer in
  exists pInfo' calls nbuttons,
    init pInfo = Some (Success, pInfo', calls) /\
    registered_buttons calls = Some nbuttons /\
    7 <= nbuttons <= btn_linux2xorg top /\
    (forall c, searched top d c -> btn_linux2xorg c <= nbuttons) /\
    (nbuttons = 7 \/ exists c, searched top d c /\ nbuttons = btn_linux2xorg c).
Proof.
  intros Hdev top init.
  pose proof (nbuttons_loop_highest d (Z.to_nat (top - BTN_SIDE + 1)) 7) as Hloop.
  cbn zeta in Hloop.
  replace (BTN_SIDE + Z.of_nat (Z.to_nat (top - BTN_SIDE + 1)) - 1) with top in Hloop
    by (subst top; destruct absolute; reflexivity).
  assert (Htop : BTN_SIDE <= top < 2 ^ 31)
    by (subst top; destruct absolute; unfold BTN_BACK, BTN_JOYSTICK, BTN_SIDE; lia).
  assert (Hrun : exists pInfo' calls,
            init pInfo = Some (Success, pInfo', calls) /\
            registered_buttons calls =
              Some (nbuttons_loop d (Z.to_nat (top - BTN_SIDE + 1)) 7)).
  { subst init top. destruct absolute;
      unfold xf86libinput_init_pointer_absolute, xf86libinput_init_pointer;
      rewrite Hdev; cbn; eauto. }
  destruct Hrun as (pInfo' & calls & Hinit & Hreg).
  exists pInfo', calls, (nbuttons_loop d (Z.to_nat (top - BTN_SIDE + 1)) 7).
  split; [exact Hinit|]. split; [exact Hreg|].
  rewrite (btn_linux2xorg_extra top Htop).
  destruct Hloop as [[-> Hnone] | (c & Hc & -> & Hmax)].
  - split; [lia|]. split; [|now left]. intros c Hc. destruct (Hnone c Hc).
  - pose proof Hc as [Hr _].
    split; [lia|]. split.
    + intros c' Hc'. pose proof (Hmax c' Hc'). destruct Hc' as [Hr' _].
      rewrite btn_linux2xorg_extra by lia. lia.
    + right. exists c. split; [exact Hc|]. rewrite btn_linux2xorg_extra by lia. lia.
Qed.

End Buttons.

Section Leds.
Context `{LibinputContext} `{XF86Option} `{XServer}.

Lemma land_pow2 (a : Z) (k : Z) :
  0 <= k -> Z.land a (2 ^ k) = if Z.testbit a k then 2 ^ k else 0.
Proof.
  intros Hk. apply Z.bits_inj'. intros n Hn.
  rewrite Z.land_spec, Z.pow2_bits_eqb by lia.
  destruct (Z.eqb_spec k n) as [-> | Hne].
  - destruct (Z.testbit a n); cbn.
    + now rewrite Z.pow2_bits_true.
    + now rewrite Z.bits_0.
  - rewrite andb_false_r. destruct (Z.testbit a k).
    + now rewrite Z.pow2_bits_false.
    + now rewrite Z.bits_0.
Qed.

Lemma kbd_ctrl_loop_leds (ctrl_leds : Z) :
  kbd_ctrl_loop bits ctrl_leds 0 = Some (spec_leds ctrl_leds).
Proof.
  unfold bits, spec_leds, CAPSFLAG, NUMFLAG, SCROLLFLAG, LIBINPUT_LED_NUM_LOCK,
    LIBINPUT_LED_CAPS_LOCK, LIBINPUT_LED_SCROLL_LOCK. cbn [kbd_ctrl_loop].
  change (truthy 1) with true. change (truthy 2) with true.
  change (truthy 4) with true. change (truthy 0) with false. cbn iota.
  assert (E0 : Z.land ctrl_leds 1 = if Z.testbit ctrl_leds 0 then 1 else 0)
    by exact (land_pow2 ctrl_leds 0 ltac:(lia)).
  assert (E1 : Z.land ctrl_leds 2 = if Z.testbit ctrl_leds 1 then 2 else 0)
    by exact (land_pow2 ctrl_leds 1 ltac:(lia)).
  assert (E2 : Z.land ctrl_leds 4 = if Z.testbit ctrl_leds 2 then 4 else 0)
    by exact (land_pow2 ctrl_leds 2 ltac:(lia)).
  rewrite E0, E1, E2.
  destruct (Z.testbit ctrl_leds 0), (Z.testbit ctrl_leds 1), (Z.testbit ctrl_leds 2);
    reflexivity.
Qed.

(** X12: the keyboard control hands libinput the server's LED mask with
    caps lock and num lock exchanging their bits, scroll lock in place and
    every other bit dropped. *)
Theorem kbd_ctrl_maps_leds (pInfo : InputInfoRec) (d : libinput_device)
    (ctrl_leds : Z) :
  device (private pInfo) = Some d ->
  xf86libinput_kbd_ctrl pInfo ctrl_leds =
    Some (set_private pInfo
            (set_device (private pInfo)
               (Some (libinput_device_led_update d (spec_leds ctrl_leds))))) /\
  0 <= spec_leds ctrl_leds < 8 /\
  Z.testbit (spec_leds ctrl_leds) 0 = Z.testbit ctrl_leds 1 /\
  Z.testbit (spec_leds ctrl_leds) 1 = Z.testbit ctrl_leds 0 /\
  Z.testbit (spec_leds ctrl_leds) 2 = Z.testbit ctrl_leds 2.
Proof.
  intros Hdev. unfold xf86libinput_kbd_ctrl.
  rewrite kbd_ctrl_loop_leds, Hdev. split; [reflexivity|].
  unfold spec_leds, LIBINPUT_LED_NUM_LOCK, LIBINPUT_LED_CAPS_LOCK,
    LIBINPUT_LED_SCROLL_LOCK.
  destruct (Z.testbit ctrl_leds 0), (Z.testbit ctrl_leds 1), (Z.testbit ctrl_leds 2);
    repeat split; try reflexivity; cbn; lia.
Qed.
End Leds.

(** ** The properties published at [DEVICE_INIT] *)

Section Properties.
Context `{LibinputContext} `{XF86Option} `{XServer}.

(** What [LibinputMakeProperty] does, for a name with its format on a device
    that supports its option. *)
Lemma LibinputMakeProperty_publishes (float_atom node_length : Z)
    (d : libinput_device) (dv : nat) (n : property_name) (ty fmt len : Z)
    (data : prop_data) :
  (ty, fmt, len) = property_format float_atom node_length n ->
  (forall o, option_of_property n = Some o -> unsupported o d = false) ->
  Forall (publishes float_atom node_length d)
         (LibinputMakeProperty dv n ty fmt len data).2 /\
  ((LibinputMakeProperty dv n ty fmt len data).1 = NoAtom \/
   (LibinputMakeProperty dv n ty fmt len data).1 = MakeAtom n).
Proof.
  intros Hfmt Hsup. unfold LibinputMakeProperty.
  destruct (negb _); cbn; (split; [|auto]);
    repeat constructor; exists n; auto.
Qed.

Lemma assigns_None (n : property_name) : assigns None n.
Proof. intros v [=]. Qed.

Lemma assigns_Some (v : Z) (n : property_name) :
  v = NoAtom \/ v = MakeAtom n -> assigns (Some v) n.
Proof. intros Hv v' [= <-]. exact Hv. Qed.

Ltac make_property fa nl d :=
  match goal with
  | |- context [LibinputMakeProperty ?dv ?n ?ty ?fmt ?len ?data] =>
      let P := fresh "P" in
      let Q := fresh "Q" in
      destruct (LibinputMakeProperty_publishes fa nl d dv n ty fmt len data)
        as [P Q];
      [ reflexivity
      | let o := fresh "o" in
        intros o [= <-]; unfold unsupported;
        repeat match goal with
        | E : truthy _ = true |- _ => apply truthy_ne in E
        | E : negb _ = false |- _ => apply negb_false_iff in E
        | E : (_ =? _) = false |- _ => apply Z.eqb_neq in E
        end;
        apply Z.eqb_neq; assumption
      | destruct (LibinputMakeProperty dv n ty fmt len data) as [? ?];
        cbn [fst snd] in P, Q ]
  end.

Ltac init_done :=
  cbn [fst snd]; rewrite ?Forall_app;
  repeat split;
  first [ assumption | apply assigns_None | apply assigns_Some; assumption
        | constructor ].

Lemma LibinputInitTapProperty_publishes (fa nl : Z) (dv : nat)
    (driver_data : xf86libinput) (d : libinput_device) :
  let r := LibinputInitTapProperty dv driver_data d in
  Forall (publishes fa nl d) r.2 /\
  assigns r.1.1 LIBINPUT_PROP_TAP /\ assigns r.1.2 LIBINPUT_PROP_TAP_DEFAULT.
Proof.
  cbn zeta. unfold LibinputInitTapProperty.
  destruct (_ =? 0) eqn:Hcap; [init_done|].
  make_property fa nl d. destruct (_ =? NoAtom); [init_done|].
  make_property fa nl d. init_done.
Qed.

Lemma LibinputInitTapDragLockProperty_publishes (fa nl : Z) (dv : nat)
    (driver_data : xf86libinput) (d : libinput_device) :
  let r := LibinputInitTapDragLockProperty dv driver_data d in
  Forall (publishes fa nl d) r.2 /\
  assigns r.1.1 LIBINPUT_PROP_TAP_DRAG_LOCK /\
  assigns r.1.2 LIBINPUT_PROP_TAP_DRAG_LOCK_DEFAULT.
Proof.
  cbn zeta. unfold LibinputInitTapDragLockProperty.
  destruct (_ =? 0) eqn:Hcap; [init_done|].
  make_property fa nl d. destruct (_ =? NoAtom); [init_done|].
  make_property fa nl d. init_done.
Qed.

Lemma LibinputInitCalibrationProperty_publishes (fa nl : Z) (dv : nat)
    (driver_data : xf86libinput) (d : libinput_device) (calibration : list float) :
  let r := LibinputInitCalibrationProperty fa dv driver_data d calibration in
  Forall (publishes fa nl d) r.2 /\
  assigns r.1.1 LIBINPUT_PROP_CALIBRATION /\
  assigns r.1.2 LIBINPUT_PROP_CALIBRATION_DEFAULT.
Proof.
  cbn zeta. unfold LibinputInitCalibrationProperty.
  destruct (negb _) eqn:Hcap; [init_done|].
  make_property fa nl d. destruct (_ =? NoAtom); [init_done|].
  make_property fa nl d. init_done.
Qed.

Lemma LibinputInitAccelProperty_publishes (fa nl : Z) (dv : nat)
    (driver_data : xf86libinput) (d : libinput_device) :
  let r := LibinputInitAccelProperty fa dv driver_data d in
  Forall (publishes fa nl d) r.2 /\
  assigns r.1.1 LIBINPUT_PROP_ACCEL /\ assigns r.1.2 LIBINPUT_PROP_ACCEL_DEFAULT.
Proof.
  cbn zeta. unfold LibinputInitAccelProperty.
  destruct (negb _) eqn:Hcap; [init_done|].
  make_property fa nl d. destruct (_ =? NoAtom); [init_done|].
  make_property fa nl d. init_done.
Qed.

Lemma LibinputInitNaturalScrollProperty_publishes (fa nl : Z) (dv : nat)
    (driver_data : xf86libinput) (d : libinput_device) :
  let r := LibinputInitNaturalScrollProperty dv driver_data d in
  Forall (publishes fa nl d) r.2 /\
  assigns r.1.1 LIBINPUT_PROP_NATURAL_SCROLL /\
  assigns r.1.2 LIBINPUT_PROP_NATURAL_SCROLL_DEFAULT.
Proof.
  cbn zeta. unfold LibinputInitNaturalScrollProperty.
  destruct (negb _) eqn:Hcap; [init_done|].
  make_property fa nl d. destruct (_ =? NoAtom); [init_done|].
  make_property fa nl d. init_done.
Qed.

Lemma LibinputInitSendEventsProperty_publishes (fa nl : Z) (dv : nat)
    (driver_data : xf86libinput) (d : libinput_device) :
  let r := LibinputInitSendEventsProperty dv driver_data d in
  Forall (publishes fa nl d) r.2 /\
  assigns r.1.1.1 LIBINPUT_PROP_SENDEVENTS_AVAILABLE /\
  assigns r.1.1.2 LIBINPUT_PROP_SENDEVENTS_ENABLED /\
  assigns r.1.2 LIBINPUT_PROP_SENDEVENTS_ENABLED_DEFAULT.
Proof.
  cbn zeta. unfold LibinputInitSendEventsProperty.
  destruct (_ =? LIBINPUT_CONFIG_SEND_EVENTS_ENABLED) eqn:Hcap; [init_done|].
  make_property fa nl d. destruct (_ =? NoAtom); [init_done|].
  make_property fa nl d. destruct (_ =? NoAtom); [init_done|].
  make_property fa nl d. init_done.
Qed.

Lemma LibinputInitLeftHandedProperty_publishes (fa nl : Z) (dv : nat)
    (driver_data : xf86libinput) (d : libinput_device) :
  let r := LibinputInitLeftHandedProperty dv driver_data d in
  Forall (publishes fa nl d) r.2 /\
  assigns r.1.1 LIBINPUT_PROP_LEFT_HANDED /\
  assigns r.1.2 LIBINPUT_PROP_LEFT_HANDED_DEFAULT.
Proof.
  cbn zeta. unfold LibinputInitLeftHandedProperty.
  destruct (negb _) eqn:Hcap; [init_done|].
  make_property fa nl d. destruct (_ =? NoAtom); [init_done|].
  make_property fa nl d. init_done.
Qed.

Lemma LibinputInitScrollMethodsProperty_publishes (fa nl : Z) (dv : nat)
    (driver_data : xf86libinput) (d : libinput_device) :
  let r := LibinputInitScrollMethodsProperty dv driver_data d in
  Forall (publishes fa nl d) r.2 /\
  assigns r.1.1.1.1.1 LIBINPUT_PROP_SCROLL_METHODS_AVAILABLE /\
  assigns r.1.1.1.1.2 LIBINPUT_PROP_SCROLL_METHOD_ENABLED /\
  assigns r.1.1.1.2 LIBINPUT_PROP_SCROLL_METHOD_ENABLED_DEFAULT /\
  assigns r.1.1.2 LIBINPUT_PROP_SCROLL_BUTTON /\
  assigns r.1.2 LIBINPUT_PROP_SCROLL_BUTTON_DEFAULT.
Proof.
  cbn zeta. unfold LibinputInitScrollMethodsProperty.
  destruct (_ =? LIBINPUT_CONFIG_SCROLL_NO_SCROLL) eqn:Hcap; [init_done|].
  make_property fa nl d. destruct (_ =? NoAtom); [init_done|].
  make_property fa nl d. destruct (_ =? NoAtom); [init_done|].
  make_property fa nl d.
  destruct (truthy (Z.land _ LIBINPUT_CONFIG_SCROLL_ON_BUTTON_DOWN)) eqn:Hbutton;
    [|init_done].
  make_property fa nl d. destruct (_ =? NoAtom); [init_done|].
  make_property fa nl d. init_done.
Qed.

Lemma LibinputInitClickMethodsProperty_publishes (fa nl : Z) (dv : nat)
    (driver_data : xf86libinput) (d : libinput_device) :
  let r := LibinputInitClickMethodsProperty dv driver_data d in
  Forall (publishes fa nl d) r.2 /\
  assigns r.1.1.1 LIBINPUT_PROP_CLICK_METHODS_AVAILABLE /\
  assigns r.1.1.2 LIBINPUT_PROP_CLICK_METHOD_ENABLED /\
  assigns r.1.2 LIBINPUT_PROP_CLICK_METHOD_ENABLED_DEFAULT.
Proof.
  cbn zeta. unfold LibinputInitClickMethodsProperty.
  destruct (_ =? LIBINPUT_CONFIG_CLICK_METHOD_NONE) eqn:Hcap; [init_done|].
  make_property fa nl d. destruct (_ =? NoAtom); [init_done|].
  make_property fa nl d. destruct (_ =? NoAtom); [init_done|].
  make_property fa nl d. init_done.
Qed.

Lemma LibinputInitMiddleEmulationProperty_publishes (fa nl : Z) (dv : nat)
    (driver_data : xf86libinput) (d : libinput_device) :
  let r := LibinputInitMiddleEmulationProperty dv driver_data d in
  Forall (publishes fa nl d) r.2 /\
  assigns r.1.1 LIBINPUT_PROP_MIDDLE_EMULATION_ENABLED /\
  assigns r.1.2 LIBINPUT_PROP_MIDDLE_EMULATION_ENABLED_DEFAULT.
Proof.
  cbn zeta. unfold LibinputInitMiddleEmulationProperty.
  destruct (negb _) eqn:Hcap; [init_done|].
  make_property fa nl d. destruct (_ =? NoAtom); [init_done|].
  make_property fa nl d. init_done.
Qed.

Lemma LibinputInitHalfkeyProperty_publishes (fa nl : Z) (dv : nat)
    (driver_data : xf86libinput) (d : libinput_device) :
  let r := LibinputInitHalfkeyProperty dv driver_data d in
  Forall (publishes fa nl d) r.2 /\
  assigns r.1.1 LIBINPUT_PROP_HALFKEY_ENABLED /\
  assigns r.1.2 LIBINPUT_PROP_HALFKEY_ENABLED_DEFAULT.
Proof.
  cbn zeta. unfold LibinputInitHalfkeyProperty.
  destruct (negb _) eqn:Hcap; [init_done|].
  make_property fa nl d. destruct (_ =? NoAtom); [init_done|].
  make_property fa nl d. init_done.
Qed.

Lemma default_assigned (old : Z) (a : option Z) (n : property_name) :
  assigns a n -> old = NoAtom \/ old = MakeAtom n ->
  default old a = NoAtom \/ default old a = MakeAtom n.
Proof. intros Ha Hold. destruct a as [v|]; cbn; [apply Ha; reflexivity | exact Hold]. Qed.

Lemma LibinputInitProperty_publishes (props props' : property_atoms)
    (pInfo : InputInfoRec) (calibration : list float) (d : libinput_device)
    (calls : list server_call) :
  device (private pInfo) = Some d ->
  LibinputInitProperty props pInfo calibration = Some (props', calls) ->
  Forall (publishes (XIGetKnownProperty FLOAT)
                    (Z.of_nat (String.length (path (private pInfo)))) d) calls /\
  prop_float props' = XIGetKnownProperty FLOAT /\
  (atoms_named props -> atoms_named props').
Proof.
  intros Hd. unfold LibinputInitProperty. rewrite Hd. cbn [mbind option_bind].
  set (fa := XIGetKnownProperty FLOAT).
  set (nl := Z.of_nat (String.length (path (private pInfo)))).
  pose proof (LibinputInitTapProperty_publishes fa nl (dev pInfo) (private pInfo) d)
    as T1.
  pose proof (LibinputInitTapDragLockProperty_publishes fa nl (dev pInfo)
                (private pInfo) d) as T2.
  pose proof (LibinputInitCalibrationProperty_publishes fa nl (dev pInfo)
                (private pInfo) d calibration) as T3.
  pose proof (LibinputInitAccelProperty_publishes fa nl (dev pInfo) (private pInfo) d)
    as T4.
  pose proof (LibinputInitNaturalScrollProperty_publishes fa nl (dev pInfo)
                (private pInfo) d) as T5.
  pose proof (LibinputInitSendEventsProperty_publishes fa nl (dev pInfo)
                (private pInfo) d) as T6.
  pose proof (LibinputInitLeftHandedProperty_publishes fa nl (dev pInfo)
                (private pInfo) d) as T7.
  pose proof (LibinputInitScrollMethodsProperty_publishes fa nl (dev pInfo)
                (private pInfo) d) as T8.
  pose proof (LibinputInitClickMethodsProperty_publishes fa nl (dev pInfo)
                (private pInfo) d) as T9.
  pose proof (LibinputInitMiddleEmulationProperty_publishes fa nl (dev pInfo)
                (private pInfo) d) as T10.
  pose proof (LibinputInitHalfkeyProperty_publishes fa nl (dev pInfo)
                (private pInfo) d) as T11.
  cbn zeta in T1, T2, T3, T4, T5, T6, T7, T8, T9, T10, T11.
  destruct (LibinputInitTapProperty _ _ _) as [[a1 a2] out1].
  destruct (LibinputInitTapDragLockProperty _ _ _) as [[a3 a4] out2].
  destruct (LibinputInitCalibrationProperty _ _ _ _ _) as [[a5 a6] out3].
  destruct (LibinputInitAccelProperty _ _ _ _) as [[a7 a8] out4].
  destruct (LibinputInitNaturalScrollProperty _ _ _) as [[a9 a10] out5].
  destruct (LibinputInitSendEventsProperty _ _ _) as [[[a11 a12] a13] out6].
  destruct (LibinputInitLeftHandedProperty _ _ _) as [[a14 a15] out7].
  destruct (LibinputInitScrollMethodsProperty _ _ _)
    as [[[[[a16 a17] a18] a19] a20] out8].
  destruct (LibinputInitClickMethodsProperty _ _ _) as [[[a21 a22] a23] out9].
  destruct (LibinputInitMiddleEmulationProperty _ _ _) as [[a24 a25] out10].
  destruct (LibinputInitHalfkeyProperty _ _ _) as [[a26 a27] out11].
  cbn [fst snd] in T1, T2, T3, T4, T5, T6, T7, T8, T9, T10, T11.
  destruct T1 as (O1 & A1 & A2), T2 as (O2 & A3 & A4), T3 as (O3 & A5 & A6),
    T4 as (O4 & A7 & A8), T5 as (O5 & A9 & A10), T6 as (O6 & A11 & A12 & A13),
    T7 as (O7 & A14 & A15), T8 as (O8 & A16 & A17 & A18 & A19 & A20),
    T9 as (O9 & A21 & A22 & A23), T10 as (O10 & A24 & A25),
    T11 as (O11 & A26 & A27).
  assert (Hnode : publishes fa nl d
            (XIChangeDeviceProperty (dev pInfo) (MakeAtom XI_PROP_DEVICE_NODE)
               XA_STRING 8 PropModeReplace nl
               (data_string (path (private pInfo))) FALSE)).
  { exists XI_PROP_DEVICE_NODE. repeat split. intros o [=]. }
  assert (Hid : forall data, publishes fa nl d
            (XIChangeDeviceProperty (dev pInfo) (MakeAtom XI_PROP_PRODUCT_ID)
               XA_INTEGER 32 PropModeReplace 2 data FALSE)).
  { intros data. exists XI_PROP_PRODUCT_ID. repeat split. intros o [=]. }
  assert (Hnamed : forall id, assigns id XI_PROP_PRODUCT_ID ->
            atoms_named props ->
            atoms_named
              {| prop_tap := default (prop_tap props) a1;
                 prop_tap_default := default (prop_tap_default props) a2;
                 prop_tap_drag_lock := default (prop_tap_drag_lock props) a3;
                 prop_tap_drag_lock_default :=
                   default (prop_tap_drag_lock_default props) a4;
                 prop_calibration := default (prop_calibration props) a5;
                 prop_calibration_default :=
                   default (prop_calibration_default props) a6;
                 prop_accel := default (prop_accel props) a7;
                 prop_accel_default := default (prop_accel_default props) a8;
                 prop_natural_scroll := default (prop_natural_scroll props) a9;
                 prop_natural_scroll_default :=
                   default (prop_natural_scroll_default props) a10;
                 prop_sendevents_available :=
                   default (prop_sendevents_available props) a11;
                 prop_sendevents_enabled := default (prop_sendevents_enabled props) a12;
                 prop_sendevents_default := default (prop_sendevents_default props) a13;
                 prop_left_handed := default (prop_left_handed props) a14;
                 prop_left_handed_default :=
                   default (prop_left_handed_default props) a15;
                 prop_scroll_methods_available :=
                   default (prop_scroll_methods_available props) a16;
                 prop_scroll_method_enabled :=
                   default (prop_scroll_method_enabled props) a17;
                 prop_scroll_method_default :=
                   default (prop_scroll_method_default props) a18;
                 prop_scroll_button := default (prop_scroll_button props) a19;
                 prop_scroll_button_default :=
                   default (prop_scroll_button_default props) a20;
                 prop_click_methods_available :=
                   default (prop_click_methods_available props) a21;
                 prop_click_method_enabled :=
                   default (prop_click_method_enabled props) a22;
                 prop_click_method_default :=
                   default (prop_click_method_default props) a23;
                 prop_middle_emulation := default (prop_middle_emulation props) a24;
                 prop_middle_emulation_default :=
                   default (prop_middle_emulation_default props) a25;
                 prop_halfkey := default (prop_halfkey props) a26;
                 prop_halfkey_default := default (prop_halfkey_default props) a27;
                 prop_float := fa;
                 prop_device := MakeAtom XI_PROP_DEVICE_NODE;
                 prop_product_id := default (prop_product_id props) id |}).
  { intros id Hid' Hnamed. unfold atoms_named, atom_names in *.
    repeat match goal with
    | E : Forall _ (_ :: _) |- _ => apply Forall_cons in E as [? E]
    end.
    cbn [fst snd] in *.
    repeat (apply Forall_cons; split; [cbn [fst snd] |]);
      try apply Forall_nil; try exact I; try (apply default_assigned; assumption).
    right. reflexivity. }
  repeat case_match; intros [= <- <-];
    (split;
     [ rewrite ?Forall_app; repeat split; try assumption;
       repeat (apply Forall_cons; split); try apply Forall_nil;
       try exact Hnode; try apply Hid; exact I
     | split;
       [ reflexivity
       | first [ exact (Hnamed None (assigns_None _))
               | exact (Hnamed (Some _) (assigns_Some _ _ (or_intror eq_refl))) ] ] ]).
Qed.

(** X16: every property [LibinputInitProperty] publishes is the property
    of one of the driver's names, and when the name stands for an option
    the device supports that option: nothing is published for a capability
    the device lacks. *)
Theorem properties_only_for_supported_options (props props' : property_atoms)
    (pInfo : InputInfoRec) (calibration : list float) (d : libinput_device)
    (calls : list server_call) :
  device (private pInfo) = Some d ->
  LibinputInitProperty props pInfo calibration = Some (props', calls) ->
  forall dv atom ty fmt mode len data sendevent,
    In (XIChangeDeviceProperty dv atom ty fmt mode len data sendevent) calls ->
    exists n, atom = MakeAtom n /\
              forall o, option_of_property n = Some o -> unsupported o d = false.
Proof.
  intros Hd Hinit dv atom ty fmt mode len data sendevent Hin.
  destruct (LibinputInitProperty_publishes _ _ _ _ _ _ Hd Hinit) as (Hpub & _ & _).
  rewrite Forall_forall in Hpub. apply list_elem_of_In in Hin.
  destruct (Hpub _ Hin) as (n & Hn & _ & Hsup). eauto.
Qed.

Ltac chain_step props' Hd Hz Hinj :=
  match goal with
  | |- context [MakeAtom ?n =? ?field props'] =>
      destruct (Z.eqb_spec (MakeAtom n) (field props')) as [E | _];
      [ match goal with
        | Hf : field props' = NoAtom \/ field props' = MakeAtom _ |- _ =>
            destruct Hf as [Hf | Hf]; rewrite Hf in E;
            [ destruct (Hz _ E) | apply Hinj in E; subst n ]
        end
      | ]
  end.

(** X15: with atoms that are distinct and never [None], and file-scope
    atoms that are unset or those of their own names, every property
    [LibinputInitProperty] publishes that [LibinputSetProperty] has a write
    handler for is published with the type, the format and the number of
    items that handler asks for: a commit of such a value returns
    [Success]. *)
Theorem published_properties_fit_their_handlers (props props' : property_atoms)
    (pInfo : InputInfoRec) (calibration : list float) (d : libinput_device)
    (calls : list server_call) :
  atoms_distinct -> atoms_named props ->
  device (private pInfo) = Some d ->
  LibinputInitProperty props pInfo calibration = Some (props', calls) ->
  forall dv atom ty fmt mode len data sendevent,
    In (XIChangeDeviceProperty dv atom ty fmt mode len data sendevent) calls ->
    forall handler, select_handler props' atom = inr handler ->
    forall pInfo' items,
      rc_of (handler pInfo' atom
               {| type := ty; format := fmt; size := len; data := items |} false)
        = Success.
Proof.
  intros [Hz Hinj] Hnamed Hd Hinit dv atom ty fmt mode len data sendevent Hin.
  destruct (LibinputInitProperty_publishes _ _ _ _ _ _ Hd Hinit)
    as (Hpub & Hfloat & Hnamed').
  specialize (Hnamed' Hnamed).
  rewrite Forall_forall in Hpub. apply list_elem_of_In in Hin.
  destruct (Hpub _ Hin) as (n & -> & Hfmt & _).
  unfold atoms_named, atom_names in Hnamed'.
  repeat match goal with
  | E : Forall _ (_ :: _) |- _ => apply Forall_cons in E as [? E]
  end.
  cbn [fst snd] in *.
  intros handler. unfold select_handler, read_only_atom.
  repeat (chain_step props' Hd Hz Hinj;
          [ cbn in Hfmt; injection Hfmt as -> -> ->;
            first [ discriminate
                  | intros [= <-] pInfo' items;
                    unfold rc_of, LibinputSetPropertyTap, LibinputSetPropertyTapDragLock,
                      LibinputSetPropertyCalibration, LibinputSetPropertyAccel,
                      LibinputSetPropertyNaturalScroll, LibinputSetPropertySendEvents,
                      LibinputSetPropertyLeftHanded, LibinputSetPropertyScrollMethods,
                      LibinputSetPropertyScrollButton, LibinputSetPropertyClickMethod,
                      LibinputSetPropertyMiddleEmulation, LibinputSetPropertyHalfkey,
                      bad_format;
                    cbn [type format size]; rewrite ?Hfloat, ?Z.eqb_refl;
                    reflexivity ]
          | ]);
    cbn; discriminate.
Qed.

End Properties.

(** ** [DEVICE_INIT] *)

Section Init.
Context `{LibinputContext} `{XF86Option} `{XServer}.

Lemma LibinputApplyConfig_frame (pInfo pInfo' : InputInfoRec) (out : list effect) :
  LibinputApplyConfig pInfo = Some (pInfo', out) ->
  dev pInfo' = dev pInfo /\ on pInfo' = on pInfo /\
  pInfo_options pInfo' = pInfo_options pInfo /\
  has_abs (private pInfo') = has_abs (private pInfo) /\
  scroll (private pInfo') = scroll (private pInfo) /\
  options (private pInfo') = options (private pInfo) /\
  path (private pInfo') = path (private pInfo) /\
  valuators (private pInfo') = valuators (private pInfo) /\
  is_Some (device (private pInfo')).
Proof.
  unfold LibinputApplyConfig. destruct (device (private pInfo)) as [d|]; [|discriminate].
  cbn. destruct (LibinputApplyConfig_device _ _ d) as [[u d'] out'].
  intros [= <- <-]. cbn. repeat split; eauto.
Qed.

Lemma LibinputInitProperty_returns (props : property_atoms) (pInfo : InputInfoRec)
    (calibration : list float) :
  is_Some (device (private pInfo)) ->
  is_Some (LibinputInitProperty props pInfo calibration).
Proof.
  intros [d Hd]. unfold LibinputInitProperty. rewrite Hd. cbn.
  repeat (match goal with
          | |- context [let '(_, _) := ?x in _] => destruct x
          end).
  repeat case_match; eauto.
Qed.

Lemma init_pointer_frame (absolute : bool) (pInfo pInfo' : InputInfoRec) rc calls :
  (if absolute then xf86libinput_init_pointer_absolute pInfo
   else xf86libinput_init_pointer pInfo) = Some (rc, pInfo', calls) ->
  has_abs (private pInfo') = (absolute || has_abs (private pInfo)) /\
  dev pInfo' = dev pInfo /\ on pInfo' = on pInfo /\
  device (private pInfo') = device (private pInfo) /\
  scroll (private pInfo') = scroll (private pInfo) /\
  valuators (private pInfo') = valuators (private pInfo) /\
  scroll_increment calls (dev pInfo) 3 =
    Some (SCROLL_TYPE_VERTICAL, double_of_int (vdist (scroll (private pInfo)))) /\
  scroll_increment calls (dev pInfo) 2 =
    Some (SCROLL_TYPE_HORIZONTAL, double_of_int (hdist (scroll (private pInfo)))).
Proof.
  destruct absolute;
    unfold xf86libinput_init_pointer_absolute, xf86libinput_init_pointer;
    destruct (device (private pInfo)) as [d|] eqn:Hd; try discriminate;
    cbn; intros [= <- <- <-]; cbn; rewrite ?Hd, ?Nat.eqb_refl; cbn; repeat split.
Qed.

Lemma publishes_balance (fa nl : Z) (d : libinput_device) (calls : list server_call) :
  Forall (publishes fa nl d) calls -> enabled_balance calls = 0.
Proof.
  induction 1 as [|c calls Hc _ IH]; [reflexivity|].
  destruct c; cbn in Hc |- *; try contradiction; exact IH.
Qed.

Lemma init_button_labels_returns :
  exists labels, init_button_labels (Z.to_nat MAX_BUTTONS) = Some labels.
Proof.
  unfold init_button_labels. change (10 <? Z.to_nat MAX_BUTTONS)%nat with true. eauto.
Qed.

Lemma init_axis_labels_returns :
  exists labels, init_axis_labels (Z.to_nat TOUCHPAD_NUM_AXES) = Some labels.
Proof.
  unfold init_axis_labels. change (4 <=? Z.to_nat TOUCHPAD_NUM_AXES)%nat with true. eauto.
Qed.

Lemma xf86libinput_init_runs (props : property_atoms) (pInfo : InputInfoRec)
    (calibration : list float) (d : libinput_device) :
  device (private pInfo) = Some d ->
  exists props' pInfo' calls,
    xf86libinput_init props pInfo calibration = Some (0, props', pInfo', calls) /\
    dev pInfo' = dev pInfo /\ on pInfo' = false /\
    scroll (private pInfo') = scroll (private pInfo) /\
    valuators (private pInfo') = valuators (private pInfo) /\
    has_abs (private pInfo') = (absolute_pointer d || has_abs (private pInfo)) /\
    (truthy (libinput_device_has_capability d LIBINPUT_DEVICE_CAP_POINTER) = true ->
     scroll_increment calls (dev pInfo) 3 =
       Some (SCROLL_TYPE_VERTICAL, double_of_int (vdist (scroll (private pInfo)))) /\
     scroll_increment calls (dev pInfo) 2 =
       Some (SCROLL_TYPE_HORIZONTAL, double_of_int (hdist (scroll (private pInfo))))) /\
    enabled_balance calls = 0.
Proof.
  intros Hd. unfold xf86libinput_init. rewrite Hd. cbn [mbind option_bind].
  unfold absolute_pointer.
  destruct init_button_labels_returns as [btnlabels Hbtn].
  destruct init_axis_labels_returns as [axislabels Haxis].
  destruct (truthy (libinput_device_has_capability d LIBINPUT_DEVICE_CAP_KEYBOARD));
  (destruct (truthy (libinput_device_has_capability d LIBINPUT_DEVICE_CAP_POINTER))
    eqn:Hptr;
    [destruct (truthy (libinput_device_config_calibration_has_matrix d) &&
               negb (truthy (libinput_device_config_accel_is_available d))) eqn:Habs|]);
    unfold xf86libinput_init_pointer_absolute, xf86libinput_init_pointer,
      xf86libinput_init_keyboard;
    cbn [set_on private]; rewrite ?Hd, ?Hbtn, ?Haxis;
    cbn -[LibinputApplyConfig LibinputInitProperty xf86libinput_init_touch
          double_of_int];
    (destruct (truthy (libinput_device_has_capability d LIBINPUT_DEVICE_CAP_TOUCH));
     [unfold xf86libinput_init_touch; rewrite Hbtn, Haxis;
      cbn -[LibinputApplyConfig LibinputInitProperty double_of_int] |]);
    cbn [mbind option_bind];
    match goal with
    | |- context [LibinputApplyConfig ?p] =>
        destruct (LibinputApplyConfig p) as [[p2 out_config]|] eqn:Hcfg;
        [ pose proof (LibinputApplyConfig_frame _ _ _ Hcfg)
            as (A & B & C & D & F & G & I & J & K)
        | unfold LibinputApplyConfig in Hcfg; cbn in Hcfg; rewrite Hd in Hcfg;
          cbn in Hcfg;
          destruct (LibinputApplyConfig_device _ _ d) as [[? ?] ?]; discriminate Hcfg ]
    end;
    cbn [mbind option_bind];
    pose proof (LibinputInitProperty_returns props p2 calibration K) as Hret;
    (destruct (LibinputInitProperty props p2 calibration) as [[props' out_i]|] eqn:Hprop;
     [| destruct Hret as [? [=]]]);
    destruct K as [d2 Hd2];
    pose proof (LibinputInitProperty_publishes _ _ _ _ _ _ Hd2 Hprop) as (Hpub & _ & _);
    apply publishes_balance in Hpub;
    cbn [mbind option_bind];
    cbn in A, B, D, F, J;
    do 3 eexists;
    (split; [reflexivity|]);
    rewrite A, B, D, F, J; cbn; repeat (rewrite Nat.eqb_refl; cbn);
    rewrite ?Habs, ?enabled_balance_app, ?enabled_balance_messages, ?Hpub;
    repeat split; discriminate.
Qed.

(** X13: [DEVICE_INIT] on a device that is there returns 0, leaves the
    device off and marks it absolute exactly when it is a pointer with a
    calibration matrix and without acceleration; absolute motion is
    forwarded afterwards for exactly those devices and discarded with an
    error message for all others. *)
Theorem init_decides_absolute_motion (props : property_atoms) (pInfo : InputInfoRec)
    (calibration : list float) (d : libinput_device) :
  device (private pInfo) = Some d ->
  has_abs (private pInfo) = false ->
  exists props' pInfo' calls,
    xf86libinput_init props pInfo calibration = Some (0, props', pInfo', calls) /\
    on pInfo' = false /\
    has_abs (private pInfo') = absolute_pointer d /\
    forall event,
      (xf86libinput_handle_absmotion pInfo' event).2 =
        if absolute_pointer d then
          [xf86PostMotionEventM (dev pInfo) Absolute
             {| vm_values :=
                  <[1 := libinput_event_pointer_get_absolute_y_transformed event
                           TOUCH_AXIS_MAX]>
                    (<[0 := libinput_event_pointer_get_absolute_x_transformed event
                              TOUCH_AXIS_MAX]> ∅);
                vm_unaccelerated := ∅ |}]
        else
          [xf86IDrvMsg (dev pInfo) X_ERROR
             "Discarding absolute event from relative device. Please file a bug"].
Proof.
  intros Hd Habs.
  destruct (xf86libinput_init_runs props pInfo calibration d Hd)
    as (props' & pInfo' & calls & Hrun & Hdev & Hon & _ & _ & Ha & _ & _).
  rewrite Habs, orb_false_r in Ha.
  exists props', pInfo', calls. repeat split; try assumption.
  intros event. unfold xf86libinput_handle_absmotion. rewrite Ha, Hdev.
  destruct (absolute_pointer d); reflexivity.
Qed.

(** X14: [DEVICE_INIT] of a pointer registers valuator 3 as the vertical
    and valuator 2 as the horizontal scroll valuator, and a wheel event
    afterwards posts on each of them the number of detents times the
    increment that valuator was registered with. *)
Theorem init_registers_wheel_increments (props : property_atoms)
    (pInfo : InputInfoRec) (calibration : list float) (d : libinput_device) :
  device (private pInfo) = Some d ->
  truthy (libinput_device_has_capability d LIBINPUT_DEVICE_CAP_POINTER) = true ->
  exists props' pInfo' calls vertical horizontal,
    xf86libinput_init props pInfo calibration = Some (0, props', pInfo', calls) /\
    scroll_increment calls (dev pInfo) 3 = Some (SCROLL_TYPE_VERTICAL, vertical) /\
    scroll_increment calls (dev pInfo) 2 = Some (SCROLL_TYPE_HORIZONTAL, horizontal) /\
    forall event,
      libinput_event_pointer_get_axis_source event = LIBINPUT_POINTER_AXIS_SOURCE_WHEEL ->
      (libinput_event_pointer_has_axis event LIBINPUT_POINTER_AXIS_SCROLL_VERTICAL = true ->
       posted_value (xf86libinput_handle_axis pInfo' event).2 3 =
         Some (double_mul
                 (libinput_event_pointer_get_axis_value_discrete event
                    LIBINPUT_POINTER_AXIS_SCROLL_VERTICAL) vertical)) /\
      (libinput_event_pointer_has_axis event LIBINPUT_POINTER_AXIS_SCROLL_HORIZONTAL = true ->
       posted_value (xf86libinput_handle_axis pInfo' event).2 2 =
         Some (double_mul
                 (libinput_event_pointer_get_axis_value_discrete event
                    LIBINPUT_POINTER_AXIS_SCROLL_HORIZONTAL) horizontal)).
Proof.
  intros Hd Hptr.
  destruct (xf86libinput_init_runs props pInfo calibration d Hd)
    as (props' & pInfo' & calls & Hrun & Hdev & Hon & Hs & _ & _ & Hinc & _).
  destruct (Hinc Hptr) as [Hv Hh].
  exists props', pInfo', calls, (double_of_int (vdist (scroll (private pInfo)))),
    (double_of_int (hdist (scroll (private pInfo)))).
  split; [exact Hrun|]. split; [exact Hv|]. split; [exact Hh|].
  intros event Hsrc. split.
  - intros Hax. unfold xf86libinput_handle_axis. rewrite Hsrc, Hax, Hs.
    destruct (libinput_event_pointer_has_axis event LIBINPUT_POINTER_AXIS_SCROLL_HORIZONTAL);
      cbn -[double_of_int double_mul].
    + rewrite lookup_insert_ne by lia. apply lookup_insert_eq.
    + apply lookup_insert_eq.
  - intros Hax. unfold xf86libinput_handle_axis. rewrite Hsrc, Hax, Hs.
    destruct (libinput_event_pointer_has_axis event LIBINPUT_POINTER_AXIS_SCROLL_VERTICAL);
      cbn -[double_of_int double_mul]; apply lookup_insert_eq.
Qed.

End Init.

(** ** Enabling and disabling devices *)

Section OnOff.
Context `{LibinputContext} `{XF86Option} `{XServer}.

Lemma xf86libinput_init_balance (props props' : property_atoms)
    (pInfo pInfo' : InputInfoRec) (calibration : list float) (rc : Z)
    (calls : list server_call) :
  xf86libinput_init props pInfo calibration = Some (rc, props', pInfo', calls) ->
  enabled_balance calls = 0.
Proof.
  intros Hinit. destruct (device (private pInfo)) as [d|] eqn:Hd.
  - destruct (xf86libinput_init_runs props pInfo calibration d Hd)
      as (? & ? & ? & Hrun & _ & _ & _ & _ & _ & _ & Hbal).
    rewrite Hrun in Hinit. injection Hinit as <- <- <- <-. exact Hbal.
  - unfold xf86libinput_init in Hinit. rewrite Hd in Hinit. discriminate Hinit.
Qed.

Lemma xf86libinput_on_balance (c c' : xf86libinput_driver) (pInfo pInfo' : InputInfo)
    (rc : Z) (calls : list server_call) :
  xf86libinput_on c pInfo = Some (rc, c', pInfo', calls) ->
  enabled_balance calls = some_enabled c' - some_enabled c.
Proof.
  unfold xf86libinput_on, some_enabled.
  destruct (libinput c) as [context|]; [|discriminate]. cbn [mbind option_bind].
  destruct (libinput_path_add_device context _) as [[d|] context'].
  - destruct (Z.eqb_spec (device_enabled_count c) INT_MAX); [discriminate|].
    destruct (LibinputApplyConfig _) as [[info' out]|]; [|discriminate].
    cbn [mbind option_bind]. intros [= <- <- <- <-].
    rewrite enabled_balance_app, enabled_balance_messages. cbn.
    destruct (Z.eqb_spec (device_enabled_count c) 0) as [-> | Hne]; cbn.
    + reflexivity.
    + destruct (Z.leb_spec 1 (device_enabled_count c + 1)),
        (Z.leb_spec 1 (device_enabled_count c)); lia.
  - intros [= <- <- <- <-]. cbn. lia.
Qed.

Lemma xf86libinput_off_balance (c c' : xf86libinput_driver) (pInfo pInfo' : InputInfo)
    (rc : Z) (calls : list server_call) :
  xf86libinput_off c pInfo = Some (rc, c', pInfo', calls) ->
  enabled_balance calls = some_enabled c' - some_enabled c.
Proof.
  unfold xf86libinput_off, some_enabled.
  destruct (Z.eqb_spec (device_enabled_count c) INT_MIN); [discriminate|].
  destruct (use_server_fd pInfo);
    (destruct (device (private (info pInfo))) as [d|]; [|discriminate]);
    cbn [mbind option_bind]; intros [= <- <- <- <-]; cbn;
    (destruct (Z.eqb_spec (device_enabled_count c - 1) 0) as [E | Hne]; cbn;
     [ rewrite E; replace (device_enabled_count c) with 1 by lia; reflexivity
     | destruct (Z.leb_spec 1 (device_enabled_count c - 1)),
         (Z.leb_spec 1 (device_enabled_count c)); lia ]).
Qed.

Lemma xf86libinput_device_control_balance (props props' : property_atoms)
    (c c' : xf86libinput_driver) (pInfo pInfo' : InputInfo)
    (calibration : list float) (mode rc : Z) (calls : list server_call) :
  xf86libinput_device_control props c pInfo calibration mode =
    Some (rc, props', c', pInfo', calls) ->
  enabled_balance calls = some_enabled c' - some_enabled c.
Proof.
  unfold xf86libinput_device_control.
  destruct (mode =? DEVICE_INIT).
  { destruct (xf86libinput_init _ _ _) as [[[[rc0 p0] i0] o0]|] eqn:E; [|discriminate].
    cbn. intros [= <- <- <- <- <-]. rewrite (xf86libinput_init_balance _ _ _ _ _ _ _ E).
    lia. }
  destruct (mode =? DEVICE_ON).
  { destruct (xf86libinput_on _ _) as [[[[rc0 c0] i0] o0]|] eqn:E; [|discriminate].
    cbn. intros [= <- <- <- <- <-]. exact (xf86libinput_on_balance _ _ _ _ _ _ E). }
  destruct (mode =? DEVICE_OFF).
  { destruct (xf86libinput_off _ _) as [[[[rc0 c0] i0] o0]|] eqn:E; [|discriminate].
    cbn. intros [= <- <- <- <- <-]. exact (xf86libinput_off_balance _ _ _ _ _ _ E). }
  destruct (mode =? DEVICE_CLOSE); intros [= <- <- <- <- <-]; cbn; lia.
Qed.

Lemma devices_on_insert (m : gmap nat InputInfo) (d : nat) (p p' : InputInfo) :
  let P := fun entry : nat * InputInfo => on (info entry.2) = true in
  m !! d = Some p ->
  Z.of_nat (base.size (filter P (<[d := p']> m))) =
    Z.of_nat (base.size (filter P m))
    - (if on (info p) then 1 else 0) + (if on (info p') then 1 else 0).
Proof.
  intros P Hd.
  assert (Hdel : Z.of_nat (base.size (filter P (delete d m))) =
                 Z.of_nat (base.size (filter P m)) - (if on (info p) then 1 else 0)).
  { rewrite map_filter_delete, map_size_delete.
    destruct (on (info p)) eqn:Hon.
    - rewrite (proj2 (map_lookup_filter_Some P m d p) (conj Hd Hon)).
      assert (base.size (filter P m) <> 0%nat).
      { intros E. apply map_size_empty_iff in E.
        pose proof (proj2 (map_lookup_filter_Some P m d p) (conj Hd Hon)) as Hl.
        rewrite E, lookup_empty in Hl. discriminate. }
      lia.
    - rewrite (proj2 (map_lookup_filter_None P m d)); [cbn; lia|].
      right. intros x Hx. rewrite Hd in Hx. injection Hx as <-.
      unfold P. cbn. rewrite Hon. discriminate. }
  rewrite map_filter_insert. destruct (decide (P (d, p'))) as [Hp | Hp];
    unfold P in Hp; cbn in Hp.
  - rewrite Hp. rewrite <- (insert_delete_eq (filter P m)), <- map_filter_delete.
    rewrite map_size_insert_None.
    + lia.
    + rewrite map_filter_delete. apply lookup_delete_eq.
  - destruct (on (info p')); [congruence|]. lia.
Qed.

(** One request in order changes the count of enabled devices as it
    changes the number of devices that are on. *)
Lemma control_devices_on (calibration : list float) (s s' : server_state)
    (d : nat) (mode rc : Z) (out : list server_call) :
  control calibration s d mode = Some (rc, s', out) ->
  request_in_order s d mode = true ->
  device_enabled_count (driver_context s') - device_enabled_count (driver_context s) =
    devices_on s' - devices_on s.
Proof.
  unfold control, request_in_order, devices_on.
  destruct (inputs s !! d) as [p|] eqn:Hd; [|discriminate]. cbn [mbind option_bind].
  destruct (xf86libinput_device_control _ _ _ _ _)
    as [[[[[rc0 props] c] p'] out0]|] eqn:E; [|discriminate].
  cbn [mbind option_bind]. intros [= <- <- <-]. cbn [driver_context inputs].
  rewrite (devices_on_insert _ _ _ p' Hd).
  revert E. unfold xf86libinput_device_control.
  destruct (Z.eqb_spec mode DEVICE_INIT) as [-> | Hinit].
  { cbn [orb]. intros E Hoff. apply negb_true_iff in Hoff. rewrite Hoff.
    destruct (xf86libinput_init _ _ _) as [[[[rc1 p1] i1] o1]|] eqn:Ei; [|discriminate].
    cbn in E. injection E as <- <- <- <- <-. cbn [info].
    destruct (device (private (info p))) as [dv|] eqn:Hdv.
    - destruct (xf86libinput_init_runs (atoms s) (info p) calibration dv Hdv)
        as (? & ? & ? & Hrun & _ & Hon & _).
      rewrite Hrun in Ei. injection Ei as <- <- <- <-. rewrite Hon. lia.
    - unfold xf86libinput_init in Ei. rewrite Hdv in Ei. discriminate Ei. }
  destruct (Z.eqb_spec mode DEVICE_ON) as [-> | Hon].
  { cbn [orb]. intros E Hoff. apply negb_true_iff in Hoff. rewrite Hoff.
    destruct (xf86libinput_on _ _) as [[[[rc1 c1] i1] o1]|] eqn:Eo; [|discriminate].
    cbn in E. injection E as <- <- <- <- <-.
    revert Eo. unfold xf86libinput_on.
    destruct (libinput (driver_context s)) as [context|]; [|discriminate].
    cbn [mbind option_bind].
    destruct (libinput_path_add_device context _) as [[dv|] context'].
    - destruct (device_enabled_count (driver_context s) =? INT_MAX); [discriminate|].
      destruct (LibinputApplyConfig _) as [[info' out']|] eqn:Hcfg; [|discriminate].
      cbn [mbind option_bind]. intros [= <- <- <- <-]. cbn [device_enabled_count info].
      pose proof (LibinputApplyConfig_frame _ _ _ Hcfg) as (_ & Hon' & _).
      cbn in Hon'. rewrite Hon'. lia.
    - intros [= <- <- <- <-]. cbn [device_enabled_count]. rewrite Hoff. lia. }
  destruct (Z.eqb_spec mode DEVICE_OFF) as [-> | Hoff].
  { cbn [orb]. intros E Hon'. rewrite Hon'.
    destruct (xf86libinput_off _ _) as [[[[rc1 c1] i1] o1]|] eqn:Eo; [|discriminate].
    cbn in E. injection E as <- <- <- <- <-.
    revert Eo. unfold xf86libinput_off.
    destruct (device_enabled_count (driver_context s) =? INT_MIN); [discriminate|].
    destruct (use_server_fd p);
      (destruct (device (private (info p))); [|discriminate]);
      cbn [mbind option_bind]; intros [= <- <- <- <-];
      cbn [device_enabled_count info set_on on]; lia. }
  cbn [orb]. intros E _.
  destruct (mode =? DEVICE_CLOSE); injection E as <- <- <- <- <-;
    destruct (on (info p)); lia.
Qed.

Lemma controls_devices_on (calibration : list float) (requests : list (nat * Z)) :
  forall (s s' : server_state) (calls : list server_call),
  controls calibration s requests = Some (s', calls) ->
  requests_in_order calibration s requests = true ->
  device_enabled_count (driver_context s') - device_enabled_count (driver_context s) =
    devices_on s' - devices_on s.
Proof.
  induction requests as [|[d mode] rest IH]; intros s s' calls.
  - cbn. intros [= <- <-] _. lia.
  - cbn [controls requests_in_order].
    destruct (control calibration s d mode) as [[[rc s1] out1]|] eqn:E; [|discriminate].
    cbn [mbind option_bind].
    destruct (controls calibration s1 rest) as [[s2 out2]|] eqn:E2; [|discriminate].
    cbn [mbind option_bind]. intros [= <- <-] Horder.
    apply andb_true_iff in Horder as [Hfirst Hrest].
    pose proof (control_devices_on _ _ _ _ _ _ _ E Hfirst).
    pose proof (IH _ _ _ E2 Hrest). lia.
Qed.

(** X17: over any sequence of control requests to any devices, the calls
    that register a descriptor with the server's select loop outnumber
    those that withdraw one by the change in whether the driver's count of
    enabled devices is at least one.  When the server sends [DEVICE_INIT]
    and [DEVICE_ON] only to devices that are off and [DEVICE_OFF] only to
    devices that are on, and the count starts as the number of devices
    that are on, the count ends as that number: the descriptor is
    registered exactly while some device is on. *)
Theorem enabled_devices_registered_once (calibration : list float)
    (s s' : server_state) (requests : list (nat * Z)) (calls : list server_call) :
  controls calibration s requests = Some (s', calls) ->
  enabled_balance calls =
    some_enabled (driver_context s') - some_enabled (driver_context s) /\
  (requests_in_order calibration s requests = true ->
   device_enabled_count (driver_context s) = devices_on s ->
   device_enabled_count (driver_context s') = devices_on s' /\
   enabled_balance calls =
     (if 1 <=? devices_on s' then 1 else 0) - (if 1 <=? devices_on s then 1 else 0)).
Proof.
  intros Hrun.
  assert (Hbalance : enabled_balance calls =
            some_enabled (driver_context s') - some_enabled (driver_context s)).
  { revert s calls Hrun. induction requests as [|[d mode] rest IH]; intros s calls.
    - cbn. intros [= <- <-]. cbn. lia.
    - cbn [controls]. unfold control at 1.
      destruct (inputs s !! d) as [pInfo|]; [|discriminate]. cbn [mbind option_bind].
      destruct (xf86libinput_device_control _ _ _ _ _)
        as [[[[[rc props] c] pInfo'] out]|] eqn:E; [|discriminate].
      cbn [mbind option_bind].
      destruct (controls calibration _ rest) as [[s2 out2]|] eqn:E2; [|discriminate].
      cbn [mbind option_bind]. intros [= <- <-].
      rewrite enabled_balance_app, (IH _ _ E2),
        (xf86libinput_device_control_balance _ _ _ _ _ _ _ _ _ _ E).
      cbn. lia. }
  split; [exact Hbalance|].
  intros Horder Hstart.
  pose proof (controls_devices_on _ _ _ _ _ Hrun Horder) as Hcount.
  assert (Hend : device_enabled_count (driver_context s') = devices_on s') by lia.
  split; [exact Hend|].
  rewrite Hbalance. unfold some_enabled. rewrite Hend, Hstart. reflexivity.
Qed.

Lemma xf86libinput_on_success (c c1 : xf86libinput_driver) (p p1 : InputInfo)
    (calls1 : list server_call) :
  xf86libinput_on c p = Some (Success, c1, p1, calls1) ->
  exists context context' d out,
    libinput c = Some context /\
    libinput_path_add_device context (path (private (info p))) = (Some d, context') /\
    device_enabled_count c <> INT_MAX /\
    LibinputApplyConfig
      (set_on (set_private (info p) (set_device (private (info p)) (Some d))) true)
      = Some (info p1, out) /\
    c1 = {| libinput := Some context';
            device_enabled_count := device_enabled_count c + 1;
            server_fds :=
              if use_server_fd p
              then fd_push (server_fds c) (fd p)
                     (xf86SetStrOption (pInfo_options (info p)) "Device" None)
              else server_fds c |} /\
    fd p1 = libinput_get_fd context' /\ flags p1 = flags p /\
    calls1 = (if device_enabled_count c =? 0
              then [AddEnabledDevice (libinput_get_fd context')] else [])
             ++ map driver_message out.
Proof.
  unfold xf86libinput_on.
  destruct (libinput c) as [context|]; [|discriminate]. cbn [mbind option_bind].
  destruct (libinput_path_add_device context _) as [[d|] context'] eqn:Hadd.
  - destruct (Z.eqb_spec (device_enabled_count c) INT_MAX); [discriminate|].
    destruct (LibinputApplyConfig _) as [[info' out]|] eqn:Hcfg; [|discriminate].
    cbn [mbind option_bind]. intros [= <- <- <-].
    exists context, context', d, out. cbn. repeat split; auto.
  - cbn. discriminate.
Qed.

(** X18: a [DEVICE_OFF] after a successful [DEVICE_ON] returns [Success],
    puts the count of enabled devices back, leaves the device off with a
    NULL libinput device, withdraws from the select loop no descriptor but
    the one the [DEVICE_ON] registered, and sets [pInfo->fd] to the [fd]
    option for a descriptor of the server and to -1 otherwise. *)
Theorem on_then_off_restores (c c1 : xf86libinput_driver) (p p1 : InputInfo)
    (calls1 : list server_call) :
  INT_MIN <= device_enabled_count c <= INT_MAX ->
  xf86libinput_on c p = Some (Success, c1, p1, calls1) ->
  exists c2 p2 calls2,
    xf86libinput_off c1 p1 = Some (Success, c2, p2, calls2) /\
    on (info p1) = true /\ is_Some (device (private (info p1))) /\
    on (info p2) = false /\ device (private (info p2)) = None /\
    device_enabled_count c2 = device_enabled_count c /\
    enabled_balance (calls1 ++ calls2) = 0 /\
    (forall fd', In (RemoveEnabledDevice fd') calls2 ->
                 In (AddEnabledDevice fd') calls1) /\
    fd p2 = (if use_server_fd p1
             then xf86SetIntOption (pInfo_options (info p)) "fd" (-1) else -1).
Proof.
  intros Hint Hon.
  destruct (xf86libinput_on_success _ _ _ _ _ Hon)
    as (context & context' & d & out & Hctx & Hadd & Hmax & Hcfg & -> & Hfd & Hfl & ->).
  pose proof (LibinputApplyConfig_frame _ _ _ Hcfg)
    as (A & B & C & D & F & G & I & J & [d' K]).
  cbn in A, B, C.
  unfold xf86libinput_off. cbn [device_enabled_count server_fds libinput].
  unfold INT_MIN, INT_MAX in *.
  destruct (Z.eqb_spec (device_enabled_count c + 1) (- 2 ^ 31)); [lia|].
  replace (device_enabled_count c + 1 - 1) with (device_enabled_count c) by lia.
  destruct (use_server_fd p1) eqn:Hsrv;
    (do 3 eexists; split; [rewrite K, ?C; reflexivity|]; cbn;
     rewrite B, K, !enabled_balance_app, enabled_balance_messages;
     repeat split; eauto;
     [ destruct (device_enabled_count c =? 0); cbn; lia
     | intros fd' Hin; apply in_or_app; left;
       destruct (device_enabled_count c =? 0); cbn in Hin |- *;
       [ destruct Hin as [[= <-] | []]; left; now rewrite Hfd | destruct Hin ] ]).
Qed.

(** X19: for a descriptor of the server, [DEVICE_ON] pushes it under the
    device node, and the [DEVICE_OFF] that follows pops by the descriptor
    then in [pInfo->fd], which is libinput's.  The list is as before the
    [DEVICE_ON] exactly when libinput's descriptor equals the server's;
    otherwise the pushed entry stays, and the most recent older entry that
    holds libinput's descriptor, if there is one, is removed in its
    place. *)
Theorem on_then_off_server_fds (c c1 c2 : xf86libinput_driver) (p p1 p2 : InputInfo)
    (rc : Z) (calls1 calls2 : list server_call) :
  xf86libinput_on c p = Some (Success, c1, p1, calls1) ->
  xf86libinput_off c1 p1 = Some (rc, c2, p2, calls2) ->
  use_server_fd p = true ->
  let entry :=
    {| sfd_fd := fd p;
       sfd_path := xf86SetStrOption (pInfo_options (info p)) "Device" None |} in
  server_fds c1 = entry :: server_fds c /\
  server_fds c2 =
    (if fd p1 >? -1 then fd_pop (entry :: server_fds c) (fd p1)
     else entry :: server_fds c) /\
  (server_fds c2 = server_fds c <-> fd p1 = fd p) /\
  (Forall (fun sfd => ~ holds_fd (fd p1) sfd) (entry :: server_fds c) ->
   server_fds c2 = entry :: server_fds c) /\
  (fd p1 <> fd p -> -1 < fd p1 ->
   forall before sfd after,
     server_fds c = before ++ sfd :: after ->
     Forall (fun sfd => ~ holds_fd (fd p1) sfd) before -> holds_fd (fd p1) sfd ->
     server_fds c2 = entry :: before ++ after).
Proof.
  intros Hon Hoff Hsrv entry.
  destruct (xf86libinput_on_success _ _ _ _ _ Hon)
    as (context & context' & d & out & Hctx & Hadd & Hmax & Hcfg & -> & Hfd & Hfl & ->).
  rewrite Hsrv in Hoff |- *. cbn [server_fds]. unfold fd_push. fold entry.
  split; [reflexivity|].
  assert (Hflag : truthy (Z.land (flags p1) XI86_SERVER_FD) = true).
  { rewrite Hfl. unfold use_server_fd in Hsrv.
    apply andb_true_iff in Hsrv as [_ Hsrv]. exact Hsrv. }
  assert (Hpos : (fd p >? -1) = true).
  { unfold use_server_fd in Hsrv. apply andb_true_iff in Hsrv as [Hsrv _]. exact Hsrv. }
  assert (Hc2 : server_fds c2 =
                  if fd p1 >? -1 then fd_pop (entry :: server_fds c) (fd p1)
                  else entry :: server_fds c).
  { revert Hoff. unfold xf86libinput_off, use_server_fd.
    cbn [device_enabled_count server_fds libinput]. rewrite Hflag, andb_true_r.
    unfold fd_push. fold entry.
    destruct (_ =? INT_MIN); [discriminate|].
    destruct (fd p1 >? -1);
      (destruct (device (private (info p1))); [|discriminate]);
      cbn [mbind option_bind]; intros [= <- <- <- <-]; reflexivity. }
  split; [exact Hc2|].
  assert (Hpop : forall l, fd_pop (entry :: l) (fd p1) =
                           if fd p1 =? fd p then l else entry :: fd_pop l (fd p1)).
  { intros l. cbn. destruct (fd p1 =? fd p); reflexivity. }
  split; [| split].
  - rewrite Hc2. split.
    + intros E. destruct (Z.eq_dec (fd p1) (fd p)) as [|Hne]; [assumption | exfalso].
      destruct (fd p1 >? -1).
      * rewrite Hpop in E. destruct (Z.eqb_spec (fd p1) (fd p)); [contradiction|].
        revert E. apply fd_pop_after_push. unfold holds_fd. cbn. congruence.
      * apply (f_equal (@length _)) in E. cbn in E. lia.
    + intros E. rewrite E, Hpos. subst entry. cbn. rewrite Z.eqb_refl. reflexivity.
  - intros Habsent. rewrite Hc2. destruct (fd p1 >? -1); [|reflexivity].
    exact (fd_pop_absent (entry :: server_fds c) (fd p1) Habsent).
  - intros Hne Hlib before sfd after Hsplit Hbefore Hsfd.
    rewrite Hc2. replace (fd p1 >? -1) with true by (symmetry; apply Z.gtb_lt; lia).
    rewrite Hpop. destruct (Z.eqb_spec (fd p1) (fd p)); [contradiction|].
    f_equal. rewrite Hsplit. exact (fd_pop_present before after sfd (fd p1) Hbefore Hsfd).
Qed.
(** X20: a control request that is neither [DEVICE_INIT], [DEVICE_ON] nor
    [DEVICE_OFF], [DEVICE_CLOSE] included, returns [BadValue], changes
    nothing and calls nothing, so that dropping it from a sequence of
    requests changes neither the final state nor the calls. *)
Theorem close_and_unknown_modes_do_nothing (calibration : list float)
    (s : server_state) (d : nat) (pInfo : InputInfo) (mode : Z) :
  mode <> DEVICE_INIT -> mode <> DEVICE_ON -> mode <> DEVICE_OFF ->
  inputs s !! d = Some pInfo ->
  xf86libinput_device_control (atoms s) (driver_context s) pInfo calibration mode =
    Some (BadValue, atoms s, driver_context s, pInfo, []) /\
  control calibration s d mode = Some (BadValue, s, []) /\
  forall rest,
    controls calibration s ((d, mode) :: rest) = controls calibration s rest.
Proof.
  intros Hinit Hon Hoff Hd.
  assert (Hctl : xf86libinput_device_control (atoms s) (driver_context s) pInfo
                   calibration mode =
                 Some (BadValue, atoms s, driver_context s, pInfo, [])).
  { unfold xf86libinput_device_control.
    destruct (Z.eqb_spec mode DEVICE_INIT); [contradiction|].
    destruct (Z.eqb_spec mode DEVICE_ON); [contradiction|].
    destruct (Z.eqb_spec mode DEVICE_OFF); [contradiction|].
    destruct (mode =? DEVICE_CLOSE); reflexivity. }
  assert (Hone : control calibration s d mode = Some (BadValue, s, [])).
  { unfold control. rewrite Hd. cbn [mbind option_bind]. rewrite Hctl.
    cbn [mbind option_bind]. rewrite (insert_id _ _ _ Hd). destruct s; reflexivity. }
  split; [exact Hctl|]. split; [exact Hone|].
  intros rest. cbn [controls]. rewrite Hone. cbn [mbind option_bind].
  destruct (controls calibration s rest) as [[s' out]|]; reflexivity.
Qed.

End OnOff.

(** ** Options that bypass or repeat what the device says *)

Section Options.
Context `{Libinput} `{XF86Option} `{LibC}.

Lemma strncasecmp_first (s t : string) (n : nat) (a b : ascii) :
  strncasecmp_eq (String a s) (String b t) (S n) = true ->
  tolower a = tolower b.
Proof.
  cbn. destruct (Ascii.eqb_spec (tolower a) (tolower b)); [auto | discriminate].
Qed.

(** X21: on a device that scrolls, a [ScrollMethod] option that names a
    method by its prefix resolves to that method without a call to the
    device, also when the device does not offer the method; the same
    method written to the scroll-method property is refused with
    [BadValue] in check mode. *)
Theorem scroll_method_option_skips_support_check (pInfo pInfo' : InputInfoRec)
    (d : libinput_device) (method : string) (m : Z) (name : string) (n : nat)
    (atom : Z) :
  In (m, name, n) scroll_method_names ->
  strncasecmp_eq method name n = true ->
  xf86SetStrOption (pInfo_options pInfo) "ScrollMethod" None = Some method ->
  libinput_device_config_scroll_get_methods d <> LIBINPUT_CONFIG_SCROLL_NO_SCROLL ->
  Z.land m (libinput_device_config_scroll_get_methods d) = 0 ->
  device (private pInfo') = Some d ->
  xf86libinput_parse_scroll_option pInfo d = (m, d, []) /\
  rc_of (LibinputSetPropertyScrollMethods pInfo' atom
           (bool_items (scroll_method_items m)) true) = BadValue.
Proof.
  intros Hin Hname Hopt Hsome Hunsupported Hd. split.
  - unfold xf86libinput_parse_scroll_option, mbind, M_bind, mret, M_ret, query, say,
      says. cbn.
    destruct (Z.eqb_spec (libinput_device_config_scroll_get_methods d)
                LIBINPUT_CONFIG_SCROLL_NO_SCROLL); [contradiction|].
    rewrite Hopt.
    destruct method as [|a method]; cbn in Hin;
      destruct Hin as [[= <- <- <-] | [[= <- <- <-] | [[= <- <- <-] | []]]];
      try discriminate Hname;
      pose proof (strncasecmp_first _ _ _ _ _ Hname) as Hfirst;
      rewrite Hname; cbn [strncasecmp_eq];
      repeat match goal with
      | |- context [Ascii.eqb (tolower a) ?c] =>
          destruct (Ascii.eqb_spec (tolower a) c) as [E | _];
          [rewrite E in Hfirst; discriminate Hfirst |]
      end; reflexivity.
  - rewrite scroll_methods_check, Hd
      by (cbn in Hin;
          destruct Hin as [[= <- <- <-] | [[= <- <- <-] | [[= <- <- <-] | []]]];
          reflexivity).
    cbn in Hin; destruct Hin as [[= <- <- <-] | [[= <- <- <-] | [[= <- <- <-] | []]]];
      vm_compute (flags_set _ _); vm_compute (selected _ _);
      cbn -[Z.land];
      unfold LIBINPUT_CONFIG_SCROLL_2FG, LIBINPUT_CONFIG_SCROLL_EDGE,
        LIBINPUT_CONFIG_SCROLL_ON_BUTTON_DOWN in Hunsupported;
      rewrite Hunsupported; reflexivity.
Qed.

Lemma btn_xorg2linux_linux2xorg (c : Z) :
  is_uint c -> linux_button_domain c -> btn_xorg2linux (btn_linux2xorg c) = c.
Proof.
  intros Hc Hdom. unfold linux_button_domain in Hdom.
  unfold btn_xorg2linux, btn_linux2xorg.
  case_eqb; try reflexivity; solve_wrap.
Qed.

Lemma to_uint_to_int (b : Z) : is_uint b -> to_uint (to_int b) = b.
Proof. intros Hb. solve_wrap. Qed.

(** X22: when the device scrolls on a button, its scroll button is a
    native code of the button numbering and no [ScrollButton] option
    overrides it, the option parser hands the device the button it already
    has, and resolves to the X number of that button when the device
    accepts. *)
Theorem scroll_button_default_round_trip (pInfo : InputInfoRec)
    (d : libinput_device) :
  let cur := libinput_device_config_scroll_get_button d in
  Z.land (libinput_device_config_scroll_get_methods d)
         LIBINPUT_CONFIG_SCROLL_ON_BUTTON_DOWN <> 0 ->
  is_uint cur -> linux_button_domain cur ->
  xf86SetIntOption (pInfo_options pInfo) "ScrollButton"
                   (to_int (btn_linux2xorg cur)) = to_int (btn_linux2xorg cur) ->
  let set := libinput_device_config_scroll_set_button d cur in
  (xf86libinput_parse_scrollbutton_option pInfo d).1.2 = set.2 /\
  (set.1 = LIBINPUT_CONFIG_STATUS_SUCCESS ->
   xf86libinput_parse_scrollbutton_option pInfo d =
     (btn_linux2xorg cur, set.2, [])).
Proof.
  intros cur Hcap Hcur Hdom Habsent set.
  unfold xf86libinput_parse_scrollbutton_option, mbind, M_bind, mret, M_ret, query,
    config, say, says. cbn -[Z.land].
  destruct (Z.eqb_spec (Z.land (libinput_device_config_scroll_get_methods d)
                               LIBINPUT_CONFIG_SCROLL_ON_BUTTON_DOWN) 0);
    [contradiction|].
  fold cur. rewrite Habsent, (to_uint_to_int _ (btn_linux2xorg_uint cur)),
    (btn_xorg2linux_linux2xorg cur Hcur Hdom).
  fold set. destruct set as [rc d'] eqn:Hset. cbn.
  unfold failed. destruct (Z.eqb_spec rc LIBINPUT_CONFIG_STATUS_SUCCESS); cbn.
  - split; [reflexivity | intros _; reflexivity].
  - split; [reflexivity | intros E; contradiction].
Qed.

Lemma init_button_map_lookup (size : nat) (i : nat) :
  (i < size)%nat -> init_button_map size !! i = Some (Z.of_nat i mod 256).
Proof.
  intros Hi. unfold init_button_map. rewrite list_lookup_fmap.
  rewrite lookup_seq_lt by exact Hi. reflexivity.
Qed.

Lemma length_init_button_map (size : nat) : length (init_button_map size) = size.
Proof. unfold init_button_map. now rewrite length_map, length_seq. Qed.

Lemma mapping_numbers_bounds (fuel : nat) (map : string) (btns : list Z) :
  (forall s v r, strtoul s = Some (v, r) -> 0 <= v) ->
  mapping_numbers fuel map = Some btns ->
  (1 <= length btns <= S fuel)%nat /\ Forall (fun b => 0 <= b <= 32) btns.
Proof.
  intros Hpos. revert map btns.
  induction fuel as [|fuel IH]; intros map btns; cbn [mapping_numbers];
    (destruct (strtoul map) as [[btn s]|] eqn:Hscan; [|discriminate]);
    (destruct (Z.gtb_spec btn 32) as [Hbig | Hsmall]; [discriminate|]);
    pose proof (Hpos _ _ _ Hscan) as Hbtn.
  - intros [= <-]. cbn. split; [lia|]. repeat constructor; lia.
  - destruct (String.eqb s "").
    + intros [= <-]. cbn. split; [lia|]. repeat constructor; lia.
    + destruct (mapping_numbers fuel s) as [rest|] eqn:Hrest; [|discriminate].
      cbn. intros [= <-]. destruct (IH _ _ Hrest) as [Hlen Hall].
      cbn. split; [lia|]. constructor; [lia | exact Hall].
Qed.

(** The loop from index [idx] on: it resets the map when the string does
    not name numbers, and otherwise writes the numbers from [idx] on and
    leaves the other entries alone. *)
Lemma buttonmap_loop_numbers (fuel : nat) (pInfo : InputInfoRec) (size : nat) :
  forall (more : nat) (map : string) (idx : nat) (btnmap : list Z),
  (fuel <= more)%nat -> (1 <= idx)%nat -> (idx + fuel = 31)%nat ->
  (32 <= length btnmap)%nat ->
  let r := buttonmap_loop more pInfo size map (Z.of_nat idx) btnmap in
  match mapping_numbers fuel map with
  | None =>
      r = (init_button_map size,
           [xf86IDrvMsg (dev pInfo) X_ERROR "... Invalid button mapping. Using defaults"])
  | Some btns =>
      r.2 = [] /\ length r.1 = length btnmap /\
      forall i,
        r.1 !! i =
          if decide (idx <= i < idx + length btns)%nat
          then (fun b => b mod 256) <$> btns !! (i - idx)%nat
          else btnmap !! i
  end.
Proof.
  induction fuel as [|fuel IH]; intros more map idx btnmap Hmore Hidx Hsum Hlen;
    cbn zeta; destruct more as [|more]; try lia;
    cbn [buttonmap_loop mapping_numbers];
    (destruct (strtoul map) as [[btn s]|] eqn:Hscan; [|reflexivity]);
    (destruct (Z.gtb_spec btn 32) as [Hbig | Hsmall]; [reflexivity|]);
    rewrite Nat2Z.id.
  - (* the last index; no iteration is left *)
    cbn [fst snd]. split; [reflexivity|]. split; [apply length_insert|].
    intros i. cbn [length]. destruct (decide (idx <= i < idx + 1)%nat) as [Hi | Hi].
    + replace i with idx by lia. rewrite Nat.sub_diag. cbn.
      apply list_lookup_insert_eq. lia.
    + apply list_lookup_insert_ne. lia.
  - replace (Z.of_nat idx + 1 <? 32) with false by (symmetry; apply Z.ltb_ge; lia).
    rewrite andb_false_r.
    cbn [fst snd]. split; [reflexivity|]. split; [apply length_insert|].
    intros i. cbn [length]. destruct (decide (idx <= i < idx + 1)%nat) as [Hi | Hi].
    + replace i with idx by lia. rewrite Nat.sub_diag. cbn.
      apply list_lookup_insert_eq. lia.
    + apply list_lookup_insert_ne. lia.
  - replace (Z.of_nat idx + 1 <? 32) with true by (symmetry; apply Z.ltb_lt; lia).
    rewrite andb_true_r.
    destruct (String.eqb s "") eqn:Hempty; cbn [negb].
    + cbn [fst snd]. split; [reflexivity|]. split; [apply length_insert|].
      intros i. cbn [length]. destruct (decide (idx <= i < idx + 1)%nat) as [Hi | Hi].
      * replace i with idx by lia. rewrite Nat.sub_diag. cbn.
        apply list_lookup_insert_eq. lia.
      * apply list_lookup_insert_ne. lia.
    + replace (Z.of_nat idx + 1) with (Z.of_nat (S idx)) by lia.
      specialize (IH more s (S idx) (<[idx := btn mod 256]> btnmap)
                    ltac:(lia) ltac:(lia) ltac:(lia)
                    ltac:(rewrite length_insert; lia)).
      cbn zeta in IH.
      destruct (mapping_numbers fuel s) as [btns|]; cbn [mbind option_bind];
        [|exact IH].
      destruct IH as (Hout & Hl & Hentries).
      split; [exact Hout|]. split; [rewrite Hl; apply length_insert|].
      intros i. rewrite Hentries. cbn [length].
      destruct (decide (S idx <= i < S idx + length btns)%nat) as [Hi | Hi].
      * destruct (decide (idx <= i < idx + S (length btns))%nat) as [_ | Hn]; [|lia].
        replace (i - idx)%nat with (S (i - S idx)) by lia. reflexivity.
      * destruct (decide (idx <= i < idx + S (length btns))%nat) as [Hj | Hj].
        -- replace i with idx by lia. rewrite Nat.sub_diag. cbn.
           apply list_lookup_insert_eq. lia.
        -- apply list_lookup_insert_ne. lia.
Qed.

(** X23: for a map of at least 32 entries and a [strtoul] that answers no
    negative number.  Without a [ButtonMapping] option the map is the
    identity and nothing is logged.  When the option's string does not
    name numbers throughout, or names a number above 32, the whole map is
    reset to the identity with one error message.  Otherwise nothing is
    logged, the string names between 1 and 31 numbers from 0 to 32, entry
    [i] of the map is the [i]-th of them for every index from 1 on that
    has one, and every other entry is its own index. *)
Theorem button_map_near_identity (pInfo : InputInfoRec) (size : nat) :
  (32 <= size)%nat ->
  (forall s v r, strtoul s = Some (v, r) -> 0 <= v) ->
  let r := xf86libinput_parse_buttonmap_option pInfo size in
  match xf86SetStrOption (pInfo_options pInfo) "ButtonMapping" None with
  | None => r = (init_button_map size, [])
  | Some mapping =>
      match mapping_numbers 30 mapping with
      | None =>
          r = (init_button_map size,
               [xf86IDrvMsg (dev pInfo) X_ERROR
                  "... Invalid button mapping. Using defaults"])
      | Some btns =>
          r.2 = [] /\ length r.1 = size /\
          (1 <= length btns <= 31)%nat /\ Forall (fun b => 0 <= b <= 32) btns /\
          forall i, (i < size)%nat -> r.1 !! i = Some (mapped_button btns i)
      end
  end.
Proof.
  intros Hsize Hpos r. subst r. unfold xf86libinput_parse_buttonmap_option.
  destruct (xf86SetStrOption _ _ _) as [mapping|]; [|reflexivity].
  pose proof (buttonmap_loop_numbers 30 pInfo size 31 mapping 1 (init_button_map size)
                ltac:(lia) ltac:(lia) ltac:(lia)
                ltac:(rewrite length_init_button_map; lia)) as Hloop.
  cbn zeta in Hloop. change (Z.of_nat 1) with 1 in Hloop.
  destruct (mapping_numbers 30 mapping) as [btns|] eqn:Hnum; [|exact Hloop].
  destruct Hloop as (Hout & Hlen & Hentries).
  destruct (mapping_numbers_bounds _ _ _ Hpos Hnum) as [Hcount Hrange].
  split; [exact Hout|]. split; [rewrite Hlen; apply length_init_button_map|].
  split; [exact Hcount|]. split; [exact Hrange|].
  intros i Hi. rewrite Hentries. unfold mapped_button.
  destruct i as [|k].
  - destruct (decide (1 <= 0 < 1 + length btns)%nat); [lia|].
    rewrite init_button_map_lookup by lia. reflexivity.
  - destruct (decide (1 <= S k < 1 + length btns)%nat) as [Hk | Hk].
    + replace (S k - 1)%nat with k by lia.
      destruct (btns !! k) as [b|] eqn:Hb.
      * cbn. f_equal. apply Z.mod_small.
        pose proof (Forall_lookup_1 _ _ _ _ Hrange Hb) as Hbr. cbn in Hbr. lia.
      * apply lookup_ge_None in Hb. lia.
    + rewrite init_button_map_lookup by lia.
      rewrite (proj2 (lookup_ge_None btns k)) by lia. reflexivity.
Qed.

End Options.

(** ** What the published properties carry *)

Section Published.
Context `{LibinputContext} `{XF86Option} `{XServer}.

Lemma store_prefix_six (m6 arr : list float) :
  (6 <= length m6)%nat -> length arr = 9%nat ->
  take 6 (store_prefix (take 6 m6) arr) = take 6 m6 /\
  drop 6 (store_prefix (take 6 m6) arr) = drop 6 arr /\
  length (store_prefix (take 6 m6) arr) = 9%nat.
Proof.
  intros Hm Harr.
  destruct m6 as [|a1 [|a2 [|a3 [|a4 [|a5 [|a6 rest]]]]]]; cbn in Hm; try lia.
  destruct arr as [|b1 [|b2 [|b3 [|b4 [|b5 [|b6 [|b7 [|b8 [|b9 [|]]]]]]]]]];
    try discriminate Harr.
  repeat split.
Qed.

(** X24: whatever the options hold, every property the calibration
    initialiser publishes is a nine-element float matrix whose last row is
    0 0 1 and whose first six elements are the current or the default
    matrix of the device. *)
Theorem calibration_published_from_device (prop_float : Z) (dv : nat)
    (driver_data : xf86libinput) (d : libinput_device) (calibration : list float) :
  length calibration = 9%nat ->
  (6 <= length (libinput_device_config_calibration_get_matrix d))%nat ->
  (6 <= length (libinput_device_config_calibration_get_default_matrix d))%nat ->
  forall dv' atom ty fmt mode len data sendevent,
    In (XIChangeDeviceProperty dv' atom ty fmt mode len data sendevent)
       (LibinputInitCalibrationProperty prop_float dv driver_data d calibration).2 ->
    exists m,
      data = data_float m /\ length m = 9%nat /\ len = 9 /\
      drop 6 m = [float_of_int 0; float_of_int 0; float_of_int 1] /\
      (take 6 m = take 6 (libinput_device_config_calibration_get_matrix d) \/
       take 6 m = take 6 (libinput_device_config_calibration_get_default_matrix d)).
Proof.
  intros Hlen Hcur Hdef dv' atom ty fmt mode len data sendevent.
  unfold LibinputInitCalibrationProperty, LibinputMakeProperty.
  set (cur := <[8%nat := float_of_int 1]>
                (<[7%nat := float_of_int 0]>
                   (<[6%nat := float_of_int 0]>
                      (store_prefix
                         (take 6 (libinput_device_config_calibration_get_matrix d))
                         calibration)))).
  destruct (store_prefix_six _ calibration Hcur Hlen) as (Htake & Hdrop & Hl).
  assert (Hcur9 : length cur = 9%nat) by (subst cur; now rewrite !length_insert).
  assert (Hcur6 : take 6 cur = take 6 (libinput_device_config_calibration_get_matrix d)).
  { subst cur. rewrite !take_insert_ge by lia. exact Htake. }
  assert (Hrow : drop 6 cur = [float_of_int 0; float_of_int 0; float_of_int 1]).
  { subst cur.
    destruct (store_prefix _ calibration) as [|a [|b [|c [|e [|f [|g [|h [|i [|j [|]]]]]]]]]];
      try discriminate Hl. reflexivity. }
  destruct (store_prefix_six _ cur Hdef Hcur9) as (Htake' & Hdrop' & Hl').
  rewrite Hrow in Hdrop'.
  destruct (negb (truthy _)); [intros []|].
  repeat match goal with
  | |- context [negb (XIChangeDeviceProperty_status ?a ?b =? Success)] =>
      destruct (negb (XIChangeDeviceProperty_status a b =? Success))
  end;
    repeat case_match; cbn; intros Hin;
    repeat (destruct Hin as [Hin | Hin];
            [first [discriminate Hin | injection Hin as <- <- <- <- <- <- <- <-] |]);
    try contradiction; eexists; repeat split; eauto.
Qed.

(** X25: when the scroll method the device has enabled differs from its
    default method, the property published as the default method carries
    both flags, a value that the write handler of the scroll method refuses
    as a multiple selection. *)
Theorem scroll_default_repeats_enabled_method (dv : nat) (driver_data : xf86libinput)
    (d : libinput_device) (pInfo : InputInfoRec) (atom : Z) :
  let one_method m :=
    m = LIBINPUT_CONFIG_SCROLL_2FG \/ m = LIBINPUT_CONFIG_SCROLL_EDGE \/
    m = LIBINPUT_CONFIG_SCROLL_ON_BUTTON_DOWN in
  libinput_device_config_scroll_get_methods d <> LIBINPUT_CONFIG_SCROLL_NO_SCROLL ->
  one_method (libinput_device_config_scroll_get_method d) ->
  one_method (libinput_device_config_scroll_get_default_method d) ->
  libinput_device_config_scroll_get_method d <>
    libinput_device_config_scroll_get_default_method d ->
  MakeAtom LIBINPUT_PROP_SCROLL_METHODS_AVAILABLE <> NoAtom ->
  MakeAtom LIBINPUT_PROP_SCROLL_METHOD_ENABLED <> NoAtom ->
  XIChangeDeviceProperty_status dv (MakeAtom LIBINPUT_PROP_SCROLL_METHODS_AVAILABLE)
    = Success ->
  XIChangeDeviceProperty_status dv (MakeAtom LIBINPUT_PROP_SCROLL_METHOD_ENABLED)
    = Success ->
  exists items,
    In (XIChangeDeviceProperty dv
          (MakeAtom LIBINPUT_PROP_SCROLL_METHOD_ENABLED_DEFAULT)
          XA_INTEGER 8 PropModeReplace 3 (data_8 items) FALSE)
       (LibinputInitScrollMethodsProperty dv driver_data d).2 /\
    flags_set (bool_items items) 3 = 2 /\
    rc_of (LibinputSetPropertyScrollMethods pInfo atom (bool_items items) true)
      = BadValue.
Proof.
  intros one_method Hsome Hen Hdef Hne Ha1 Ha2 Hs1 Hs2.
  unfold LibinputInitScrollMethodsProperty, LibinputMakeProperty.
  destruct (Z.eqb_spec (libinput_device_config_scroll_get_methods d)
              LIBINPUT_CONFIG_SCROLL_NO_SCROLL); [contradiction|].
  rewrite Hs1, Hs2. cbn [negb Z.eqb Success].
  change (negb (Success =? Success)) with false. cbn iota.
  destruct (Z.eqb_spec (MakeAtom LIBINPUT_PROP_SCROLL_METHODS_AVAILABLE) NoAtom);
    [contradiction|].
  destruct (Z.eqb_spec (MakeAtom LIBINPUT_PROP_SCROLL_METHOD_ENABLED) NoAtom);
    [contradiction|].
  subst one_method. cbn beta in Hen, Hdef.
  set (enabled := libinput_device_config_scroll_get_method d) in *.
  set (dflt := libinput_device_config_scroll_get_default_method d) in *.
  exists [if truthy (Z.land dflt LIBINPUT_CONFIG_SCROLL_2FG) then TRUE
          else if enabled =? LIBINPUT_CONFIG_SCROLL_2FG then TRUE else FALSE;
          if truthy (Z.land dflt LIBINPUT_CONFIG_SCROLL_EDGE) then TRUE
          else if enabled =? LIBINPUT_CONFIG_SCROLL_EDGE then TRUE else FALSE;
          if truthy (Z.land dflt LIBINPUT_CONFIG_SCROLL_ON_BUTTON_DOWN) then TRUE
          else if enabled =? LIBINPUT_CONFIG_SCROLL_ON_BUTTON_DOWN then TRUE
               else FALSE].
  split.
  - destruct (negb (XIChangeDeviceProperty_status dv
                      (MakeAtom LIBINPUT_PROP_SCROLL_METHOD_ENABLED_DEFAULT) =? Success));
      (destruct (truthy (Z.land (libinput_device_config_scroll_get_methods d)
                                LIBINPUT_CONFIG_SCROLL_ON_BUTTON_DOWN));
       [ destruct (negb (XIChangeDeviceProperty_status dv
                           (MakeAtom LIBINPUT_PROP_SCROLL_BUTTON) =? Success));
         [| destruct (MakeAtom LIBINPUT_PROP_SCROLL_BUTTON =? NoAtom);
            [| destruct (negb (XIChangeDeviceProperty_status dv
                                 (MakeAtom LIBINPUT_PROP_SCROLL_BUTTON_DEFAULT)
                               =? Success)) ] ]
       | ]);
      cbn [snd fst Z.eqb NoAtom];
      rewrite !in_app_iff; right; right;
      first [ left; left; reflexivity | left; reflexivity ].
  - destruct Hen as [Hen | [Hen | Hen]], Hdef as [Hdef | [Hdef | Hdef]];
      rewrite Hen, Hdef in Hne |- *; try congruence;
      (split; [reflexivity | rewrite scroll_methods_check by reflexivity; reflexivity]).
Qed.

End Published.

(** ** Runs on the reference environment *)

Lemma open_restricted_uses_server_fd_witness :
  open_restricted sim_open_fails 0 sim_server_fds "/dev/input/event3" 0 = Some (7, []) /\
  open_restricted sim_open_fails 0 sim_server_fds "/dev/input/event9" 0 =
    Some (-2, [open "/dev/input/event9" 0]).
Proof.
  destruct (open_restricted_uses_server_fd sim_open_fails 0 sim_server_fds
              "/dev/input/event3" 0) as [Hfound _].
  destruct (open_restricted_uses_server_fd sim_open_fails 0 sim_server_fds
              "/dev/input/event9" 0) as [_ Hmissing].
  split.
  - apply (Hfound [] {| sfd_fd := 7; sfd_path := Some "/dev/input/event3" |}
             (tail sim_server_fds) eq_refl).
    + constructor.
    + constructor.
    + reflexivity.
    + cbn. lia.
  - apply Hmissing.
    + repeat constructor; eexists; reflexivity.
    + repeat constructor; discriminate.
Defined.

Lemma fd_pop_removes_first_witness :
  fd_pop sim_server_fds 9 =
    [{| sfd_fd := 7; sfd_path := Some "/dev/input/event3" |};
     {| sfd_fd := 4; sfd_path := Some "/dev/input/event3" |}] /\
  fd_pop sim_server_fds 5 = sim_server_fds.
Proof.
  destruct (fd_pop_removes_first sim_server_fds 9) as (_ & Hfirst & _).
  destruct (fd_pop_removes_first sim_server_fds 5) as (Habsent & _ & _).
  split.
  - apply (Hfirst [{| sfd_fd := 7; sfd_path := Some "/dev/input/event3" |}]
             {| sfd_fd := 9; sfd_path := Some "/dev/input/event5" |}
             [{| sfd_fd := 4; sfd_path := Some "/dev/input/event3" |}] eq_refl).
    + repeat constructor. discriminate.
    + reflexivity.
  - apply Habsent. repeat constructor; discriminate.
Defined.

Lemma close_restricted_spares_server_fds_witness :
  close_restricted sim_server_fds 9 = [] /\ close_restricted sim_server_fds 5 <> [].
Proof.
  destruct (close_restricted_spares_server_fds sim_server_fds 9) as [[_ Hkept] _].
  destruct (close_restricted_spares_server_fds sim_server_fds 5) as [[Hclosed _] _].
  split.
  - apply Hkept. split; [lia|]. apply Exists_cons_tl, Exists_cons_hd. reflexivity.
  - intros E. destruct (Hclosed E) as [_ Hin].
    repeat (apply Exists_cons in Hin as [Hin | Hin]; [discriminate Hin|]).
    inversion Hin.
Defined.

Lemma init_pointer_covers_buttons_witness :
  exists pInfo' calls nbuttons,
    xf86libinput_init_pointer (sim_fresh 100 sim_mouse) = Some (Success, pInfo', calls) /\
    registered_buttons calls = Some nbuttons /\
    7 <= nbuttons <= 20 /\
    btn_linux2xorg 0x114 <= nbuttons.
Proof.
  destruct (init_pointer_covers_buttons false (sim_fresh 100 sim_mouse) sim_mouse eq_refl)
    as (pInfo' & calls & nbuttons & Hinit & Hreg & Hrange & Hcover & _).
  exists pInfo', calls, nbuttons.
  split; [exact Hinit|]. split; [exact Hreg|]. split; [exact Hrange|].
  apply Hcover. split; [unfold BTN_SIDE, BTN_JOYSTICK; lia | discriminate].
Defined.

Lemma kbd_ctrl_maps_leds_witness :
  xf86libinput_kbd_ctrl (sim_fresh 100 sim_plain_device) 1 =
    Some (set_private (sim_fresh 100 sim_plain_device)
            (set_device (private (sim_fresh 100 sim_plain_device))
               (Some (libinput_device_led_update sim_plain_device 2)))).
Proof.
  exact (proj1 (kbd_ctrl_maps_leds (sim_fresh 100 sim_plain_device) sim_plain_device 1
                  eq_refl)).
Defined.

Lemma init_decides_absolute_motion_witness :
  (exists props' pInfo' calls,
     xf86libinput_init sim_no_atoms (sim_fresh 100 sim_tablet) (replicate 9 f0) =
       Some (0, props', pInfo', calls) /\
     has_abs (private pInfo') = true) /\
  (exists props' pInfo' calls,
     xf86libinput_init sim_no_atoms (sim_fresh 100 sim_mouse) (replicate 9 f0) =
       Some (0, props', pInfo', calls) /\
     has_abs (private pInfo') = false).
Proof.
  split.
  - destruct (init_decides_absolute_motion sim_no_atoms (sim_fresh 100 sim_tablet)
                (replicate 9 f0) sim_tablet eq_refl eq_refl)
      as (props' & pInfo' & calls & Hrun & _ & Habs & _).
    exists props', pInfo', calls. split; [exact Hrun | exact Habs].
  - destruct (init_decides_absolute_motion sim_no_atoms (sim_fresh 100 sim_mouse)
                (replicate 9 f0) sim_mouse eq_refl eq_refl)
      as (props' & pInfo' & calls & Hrun & _ & Habs & _).
    exists props', pInfo', calls. split; [exact Hrun | exact Habs].
Defined.

Lemma init_registers_wheel_increments_witness :
  exists props' pInfo' calls,
    xf86libinput_init sim_no_atoms (sim_fresh 100 sim_mouse) (replicate 9 f0) =
      Some (0, props', pInfo', calls) /\
    exists vertical,
      scroll_increment calls 100 3 = Some (SCROLL_TYPE_VERTICAL, vertical) /\
      posted_value (xf86libinput_handle_axis pInfo' (wheel_event 2)).2 3 =
        Some (double_mul (double_of_int 2) vertical).
Proof.
  assert (Hcap : truthy (libinput_device_has_capability sim_mouse
                            LIBINPUT_DEVICE_CAP_POINTER) = true)
    by (vm_compute; reflexivity).
  destruct (init_registers_wheel_increments sim_no_atoms (sim_fresh 100 sim_mouse)
              (replicate 9 f0) sim_mouse eq_refl Hcap)
    as (props' & pInfo' & calls & vertical & horizontal & Hrun & Hv & _ & Hwheel).
  exists props', pInfo', calls. split; [exact Hrun|].
  exists vertical. split; [exact Hv|].
  exact (proj1 (Hwheel (wheel_event 2) eq_refl) eq_refl).
Defined.

Lemma sim_atoms_distinct : @atoms_distinct sim_xserver.
Proof. split; [intros []; discriminate | intros [] []; cbn; congruence]. Qed.

Lemma sim_no_atoms_named : @atoms_named sim_xserver sim_no_atoms.
Proof. unfold atoms_named, atom_names. repeat constructor. Qed.

Lemma sim_published_eq :
  LibinputInitProperty sim_no_atoms (sim_touchpad_pInfo []) (replicate 9 f0) =
    Some sim_published.
Proof. vm_compute. reflexivity. Qed.

Lemma read_digits_nonneg (s : string) (acc : Z) (cnt : nat) :
  0 <= acc -> 0 <= (read_digits s acc cnt).1.1.
Proof.
  revert acc cnt. induction s as [|c s IH]; intros acc cnt Hacc; cbn; [exact Hacc|].
  unfold digit_of.
  destruct ((48 <=? nat_of_ascii c)%nat && (nat_of_ascii c <=? 57)%nat) eqn:E;
    [|exact Hacc].
  apply andb_true_iff in E as [E1 E2]. apply Nat.leb_le in E1.
  apply IH. lia.
Qed.

Lemma sim_strtoul_nonneg (s : string) (v : Z) (r : string) :
  @strtoul sim_libc s = Some (v, r) -> 0 <= v.
Proof.
  cbn. pose proof (read_digits_nonneg (skip_spaces s) 0 0 ltac:(lia)) as Hpos.
  destruct (read_digits (skip_spaces s) 0 0) as [[v' [|cnt]] rest]; [discriminate|].
  intros [= <- <-]. exact Hpos.
Qed.

Lemma properties_only_for_supported_options_witness :
  exists n, 316 = MakeAtom n /\
            forall o, option_of_property n = Some o -> unsupported o sim_touchpad = false.
Proof.
  apply (properties_only_for_supported_options sim_no_atoms sim_published.1
           (sim_touchpad_pInfo []) (replicate 9 f0) sim_touchpad sim_published.2
           eq_refl sim_published_eq
           100%nat 316 XA_INTEGER 8 PropModeReplace 3 (data_8 [1; 1; 0]) FALSE).
  vm_compute. repeat (first [left; reflexivity | right]).
Defined.

Lemma published_properties_fit_their_handlers_witness :
  rc_of (LibinputSetPropertyScrollMethods (sim_touchpad_pInfo []) 317
           {| type := XA_INTEGER; format := 8; size := 3; data := [0; 1; 0] |} false)
    = Success.
Proof.
  apply (published_properties_fit_their_handlers sim_no_atoms sim_published.1
           (sim_touchpad_pInfo []) (replicate 9 f0) sim_touchpad sim_published.2
           sim_atoms_distinct sim_no_atoms_named eq_refl sim_published_eq
           100%nat 317 XA_INTEGER 8 PropModeReplace 3 (data_8 [0; 0; 0]) FALSE).
  - vm_compute. repeat (first [left; reflexivity | right]).
  - reflexivity.
Defined.

(** In order, set-up and on leave one device on and the descriptor
    registered; out of order, a second [DEVICE_ON] and one [DEVICE_OFF]
    leave the device off and the descriptor registered. *)
Lemma enabled_devices_registered_once_witness :
  (exists s' calls,
     controls (replicate 9 f0) sim_server sim_session_on = Some (s', calls) /\
     device_enabled_count (driver_context s') = devices_on s' /\
     devices_on s' = 1 /\ enabled_balance calls = 1) /\
  (exists s' calls,
     controls (replicate 9 f0) sim_server sim_session_repeated = Some (s', calls) /\
     devices_on s' = 0 /\ enabled_balance calls = 1).
Proof.
  split.
  - assert (Hruns : match controls (replicate 9 f0) sim_server sim_session_on with
                    | Some (s', _) => devices_on s' =? 1
                    | None => false
                    end = true) by (vm_compute; reflexivity).
    destruct (controls (replicate 9 f0) sim_server sim_session_on)
      as [[s' calls]|] eqn:E; [|discriminate Hruns].
    apply Z.eqb_eq in Hruns.
    destruct (enabled_devices_registered_once (replicate 9 f0) sim_server s'
                sim_session_on calls E) as [_ Hdevices].
    destruct Hdevices as [Hcount Hbalance];
      [vm_compute; reflexivity | vm_compute; reflexivity |].
    exists s', calls. split; [reflexivity|]. split; [exact Hcount|].
    split; [exact Hruns|]. rewrite Hbalance, Hruns. reflexivity.
  - assert (Hruns : match controls (replicate 9 f0) sim_server sim_session_repeated with
                    | Some (s', _) =>
                        (devices_on s' =? 0) &&
                        (device_enabled_count (driver_context s') =? 1)
                    | None => false
                    end = true) by (vm_compute; reflexivity).
    destruct (controls (replicate 9 f0) sim_server sim_session_repeated)
      as [[s' calls]|] eqn:E; [|discriminate Hruns].
    apply andb_true_iff in Hruns as [Hoff Hcount]. apply Z.eqb_eq in Hoff, Hcount.
    destruct (enabled_devices_registered_once (replicate 9 f0) sim_server s'
                sim_session_repeated calls E) as [Hbalance _].
    exists s', calls. split; [reflexivity|]. split; [exact Hoff|].
    rewrite Hbalance. unfold some_enabled. rewrite Hcount. reflexivity.
Defined.

Lemma on_then_off_restores_witness :
  exists c1 p1 calls1 c2 p2 calls2,
    xf86libinput_on sim_driver_context sim_input = Some (Success, c1, p1, calls1) /\
    xf86libinput_off c1 p1 = Some (Success, c2, p2, calls2) /\
    device_enabled_count c2 = 0 /\
    enabled_balance (calls1 ++ calls2) = 0 /\
    fd p2 = 7.
Proof.
  assert (Hruns : match xf86libinput_on sim_driver_context sim_input with
                  | Some (rc, _, p1, _) => (rc =? Success) && use_server_fd p1
                  | None => false
                  end = true) by (vm_compute; reflexivity).
  destruct (xf86libinput_on sim_driver_context sim_input)
    as [[[[rc c1] p1] calls1]|] eqn:E; [|discriminate Hruns].
  apply andb_true_iff in Hruns as [Hrc Hsrv]. apply Z.eqb_eq in Hrc. subst rc.
  destruct (on_then_off_restores sim_driver_context c1 sim_input p1 calls1
              ltac:(vm_compute; split; discriminate) E)
    as (c2 & p2 & calls2 & Hoff & _ & _ & _ & _ & Hcount & Hbal & _ & Hfd).
  exists c1, p1, calls1, c2, p2, calls2.
  rewrite Hsrv in Hfd.
  repeat split; assumption.
Defined.

Lemma on_then_off_server_fds_witness :
  exists c1 p1 calls1 rc c2 p2 calls2,
    xf86libinput_on sim_driver_context_older sim_input =
      Some (Success, c1, p1, calls1) /\
    xf86libinput_off c1 p1 = Some (rc, c2, p2, calls2) /\
    server_fds c1 =
      [{| sfd_fd := 7; sfd_path := Some "/dev/input/event0" |};
       {| sfd_fd := 5; sfd_path := Some "/dev/input/event9" |}] /\
    server_fds c2 = [{| sfd_fd := 7; sfd_path := Some "/dev/input/event0" |}] /\
    server_fds c2 <> server_fds sim_driver_context_older.
Proof.
  assert (Hruns : match xf86libinput_on sim_driver_context_older sim_input with
                  | Some (rc, c1, p1, _) =>
                      (rc =? Success) && (fd p1 =? 5) &&
                      match xf86libinput_off c1 p1 with Some _ => true | None => false end
                  | None => false
                  end = true) by (vm_compute; reflexivity).
  destruct (xf86libinput_on sim_driver_context_older sim_input)
    as [[[[rc c1] p1] calls1]|] eqn:Eon; [|discriminate Hruns].
  apply andb_true_iff in Hruns as [Hruns Hoff].
  apply andb_true_iff in Hruns as [Hrc Hfd].
  apply Z.eqb_eq in Hrc, Hfd. subst rc.
  destruct (xf86libinput_off c1 p1) as [[[[rc c2] p2] calls2]|] eqn:Eoff;
    [|discriminate Hoff].
  exists c1, p1, calls1, rc, c2, p2, calls2.
  split; [reflexivity|]. split; [exact Eoff|].
  destruct (on_then_off_server_fds sim_driver_context_older c1 c2 sim_input p1 p2 rc
              calls1 calls2 Eon Eoff eq_refl) as (Hpushed & _ & Hiff & _ & Holder).
  split; [exact Hpushed|].
  split.
  - apply (Holder ltac:(rewrite Hfd; discriminate) ltac:(rewrite Hfd; reflexivity)
             [] {| sfd_fd := 5; sfd_path := Some "/dev/input/event9" |} [] eq_refl).
    + constructor.
    + rewrite Hfd. reflexivity.
  - intros E. apply Hiff in E. rewrite Hfd in E. discriminate E.
Defined.

Lemma close_and_unknown_modes_do_nothing_witness :
  control (replicate 9 f0) sim_server 100 DEVICE_CLOSE = Some (BadValue, sim_server, []) /\
  controls (replicate 9 f0) sim_server [(100%nat, DEVICE_CLOSE); (100%nat, DEVICE_ON)] =
    controls (replicate 9 f0) sim_server [(100%nat, DEVICE_ON)].
Proof.
  destruct (close_and_unknown_modes_do_nothing (replicate 9 f0) sim_server 100
              sim_input DEVICE_CLOSE)
    as (_ & Hcontrol & Hdrop); try discriminate; [reflexivity|].
  split; [exact Hcontrol | exact (Hdrop [(100%nat, DEVICE_ON)])].
Defined.

Lemma scroll_method_option_skips_support_check_witness :
  xf86libinput_parse_scroll_option
    (sim_pInfo 100 [("ScrollMethod", "twofinger")] (Some sim_mouse)) sim_mouse =
    (LIBINPUT_CONFIG_SCROLL_2FG, sim_mouse, []) /\
  rc_of (LibinputSetPropertyScrollMethods
           (sim_pInfo 100 [("ScrollMethod", "twofinger")] (Some sim_mouse)) 317
           (bool_items [1; 0; 0]) true) = BadValue.
Proof.
  apply (scroll_method_option_skips_support_check
           (sim_pInfo 100 [("ScrollMethod", "twofinger")] (Some sim_mouse))
           (sim_pInfo 100 [("ScrollMethod", "twofinger")] (Some sim_mouse))
           sim_mouse "twofinger" LIBINPUT_CONFIG_SCROLL_2FG "twofinger" 9 317).
  - left. reflexivity.
  - reflexivity.
  - reflexivity.
  - vm_compute. discriminate.
  - reflexivity.
  - reflexivity.
Defined.

Lemma scroll_button_default_round_trip_witness :
  xf86libinput_parse_scrollbutton_option (sim_pInfo 100 [] (Some sim_mouse)) sim_mouse =
    (2, (libinput_device_config_scroll_set_button sim_mouse BTN_MIDDLE).2, []).
Proof.
  apply (scroll_button_default_round_trip (sim_pInfo 100 [] (Some sim_mouse)) sim_mouse).
  - vm_compute. discriminate.
  - vm_compute. split; [discriminate | reflexivity].
  - right. right. left. reflexivity.
  - reflexivity.
  - reflexivity.
Defined.

Lemma button_map_near_identity_witness :
  (let r := xf86libinput_parse_buttonmap_option
              (sim_pInfo 100 [("ButtonMapping", "1 3 2")] None) 32 in
   r.2 = [] /\ r.1 !! 1%nat = Some 1 /\ r.1 !! 2%nat = Some 3 /\
   r.1 !! 3%nat = Some 2 /\ r.1 !! 4%nat = Some 4) /\
  xf86libinput_parse_buttonmap_option
    (sim_pInfo 100 [("ButtonMapping", "3 x 1")] None) 32 =
    (init_button_map 32,
     [xf86IDrvMsg 100 X_ERROR "... Invalid button mapping. Using defaults"]) /\
  xf86libinput_parse_buttonmap_option
    (sim_pInfo 100 [("ButtonMapping", "3 40 1")] None) 32 =
    (init_button_map 32,
     [xf86IDrvMsg 100 X_ERROR "... Invalid button mapping. Using defaults"]) /\
  xf86libinput_parse_buttonmap_option (sim_pInfo 100 [] None) 32 =
    (init_button_map 32, []).
Proof.
  split; [| split; [| split]].
  - destruct (button_map_near_identity
                (sim_pInfo 100 [("ButtonMapping", "1 3 2")] None) 32
                ltac:(lia) sim_strtoul_nonneg) as (Hout & _ & _ & _ & Hentries).
    split; [exact Hout |].
    split; [exact (Hentries 1%nat ltac:(lia)) |].
    split; [exact (Hentries 2%nat ltac:(lia)) |].
    split; [exact (Hentries 3%nat ltac:(lia)) | exact (Hentries 4%nat ltac:(lia))].
  - exact (button_map_near_identity
             (sim_pInfo 100 [("ButtonMapping", "3 x 1")] None) 32
             ltac:(lia) sim_strtoul_nonneg).
  - exact (button_map_near_identity
             (sim_pInfo 100 [("ButtonMapping", "3 40 1")] None) 32
             ltac:(lia) sim_strtoul_nonneg).
  - exact (button_map_near_identity (sim_pInfo 100 [] None) 32
             ltac:(lia) sim_strtoul_nonneg).
Defined.

Lemma calibration_published_from_device_witness :
  exists m,
    data_float [f1; f0; f0; f0; f1; f0; f0; f0; f1] = data_float m /\
    length m = 9%nat /\ 9 = 9 /\
    drop 6 m = [float_of_int 0; float_of_int 0; float_of_int 1] /\
    (take 6 m = take 6 (libinput_device_config_calibration_get_matrix sim_tablet) \/
     take 6 m =
       take 6 (libinput_device_config_calibration_get_default_matrix sim_tablet)).
Proof.
  apply (calibration_published_from_device 300 100 (sim_driver_data (Some sim_tablet))
           sim_tablet (replicate 9 f0) eq_refl ltac:(cbn; lia) ltac:(cbn; lia)
           100%nat 305 300 32 PropModeReplace 9
           (data_float [f1; f0; f0; f0; f1; f0; f0; f0; f1]) FALSE).
  vm_compute. repeat (first [left; reflexivity | right]).
Defined.

Lemma scroll_default_repeats_enabled_method_witness :
  exists items,
    In (XIChangeDeviceProperty 100
          (MakeAtom LIBINPUT_PROP_SCROLL_METHOD_ENABLED_DEFAULT)
          XA_INTEGER 8 PropModeReplace 3 (data_8 items) FALSE)
       (LibinputInitScrollMethodsProperty 100 (sim_driver_data (Some sim_scroller))
          sim_scroller).2 /\
    flags_set (bool_items items) 3 = 2 /\
    rc_of (LibinputSetPropertyScrollMethods (sim_pInfo 100 [] (Some sim_scroller)) 317
             (bool_items items) true) = BadValue.
Proof.
  apply (scroll_default_repeats_enabled_method 100 (sim_driver_data (Some sim_scroller))
           sim_scroller (sim_pInfo 100 [] (Some sim_scroller)) 317).
  - vm_compute. discriminate.
  - right. right. reflexivity.
  - left. reflexivity.
  - vm_compute. discriminate.
  - discriminate.
  - discriminate.
  - reflexivity.
  - reflexivity.
Defined.
